(** * SmartDocFlow: ingestion state machine and hybrid retrieval

    A shallow embedding of the document pipeline
    (document_processor.py, workflow_orchestrator.py), of the store it
    writes to (database.py) and of the retrieval engine (search.py),
    followed by the properties of the specification settled against it.

    Python values are modelled as follows: [str] as [string], [int] as
    [Z], [float] as the kernel's binary64 [float], [Optional[T]] as
    [option T], a raised exception as the [Raise] branch of [result],
    a [dict] whose iteration order matters as an association list, and
    the relational store as finite maps of tables. *)

From Stdlib Require Import ZArith List String Ascii Bool Floats Lia DecimalString.
From stdpp Require Import gmap strings list.
Import ListNotations.
Local Open Scope string_scope.
Local Open Scope Z_scope.

(* ================================================================== *)
(** * Python runtime: exceptions, results, slices, sorting             *)
(* ================================================================== *)

(** The exception classes the modelled code raises or catches. *)
Inductive exn : Type :=
| ValueError (msg : string)
| TypeError (msg : string)
| AttributeError (msg : string)
| ValidationError (msg : string)
| TimeoutError (msg : string)
| OSError (msg : string)
| DatabaseError (msg : string)
| CollaboratorError (msg : string)
| Exception (msg : string)
| HTTPException (status_code : Z) (detail : string).

(** [str(e)]. *)
Definition exn_str (e : exn) : string :=
  match e with
  | ValueError m | TypeError m | AttributeError m | ValidationError m
  | TimeoutError m | OSError m | DatabaseError m | CollaboratorError m
  | Exception m => m
  | HTTPException _ d => d
  end.

Definition is_HTTPException (e : exn) : bool :=
  match e with HTTPException _ _ => true | _ => false end.

Inductive result (A : Type) : Type :=
| Ok (a : A)
| Raise (e : exn).
Arguments Ok {A} a.
Arguments Raise {A} e.

Definition rbind {A B} (r : result A) (k : A -> result B) : result B :=
  match r with Ok a => k a | Raise e => Raise e end.

Fixpoint rmap {A B} (f : A -> result B) (l : list A) : result (list B) :=
  match l with
  | [] => Ok []
  | x :: l' =>
      match f x with
      | Raise e => Raise e
      | Ok y => match rmap f l' with
                | Raise e => Raise e
                | Ok ys => Ok (y :: ys)
                end
      end
  end.

(** [xs[:k]]: the first [k] items, or all but the last [-k] when [k] is
    negative. *)
Definition slice_to {A} (k : Z) (xs : list A) : list A :=
  if 0 <=? k then firstn (Z.to_nat k) xs
  else firstn (Z.to_nat (Z.of_nat (length xs) + k)) xs.

(** [s[:500] + "..." if len(s) > 500 else s]. *)
Definition truncate_content (s : string) : string :=
  if (500 <? String.length s)%nat then String.substring 0 500 s ++ "..." else s.

(** [x or 0] on an optional float: [None] and both zeros are falsy, every
    other float (NaN included) is kept. *)
Definition or_zero (x : option float) : float :=
  match x with
  | None => 0%float
  | Some v => if (v =? 0)%float then 0%float else v
  end.

(** [l.sort(key=snd, reverse=True)]: a stable sort by decreasing key.  The
    list is built by stable insertion with the key's [<], the only
    comparison [list.sort] uses; on keys that [<] orders totally (no NaN)
    every stable sort returns this list. *)
Fixpoint insert_desc {A} (x : A * float) (l : list (A * float)) : list (A * float) :=
  match l with
  | [] => [x]
  | y :: l' =>
      if (snd y <? snd x)%float then x :: y :: l' else y :: insert_desc x l'
  end.

Definition sort_desc {A} (l : list (A * float)) : list (A * float) :=
  fold_left (fun acc x => insert_desc x acc) l [].

(* ================================================================== *)
(** * Data model (document.py)                                          *)
(* ================================================================== *)

Inductive FileType : Type := PDF | TXT | PNG | JPG | JPEG.

Definition FileType_value (t : FileType) : string :=
  match t with
  | PDF => "pdf" | TXT => "txt" | PNG => "png" | JPG => "jpg" | JPEG => "jpeg"
  end.

Inductive DocumentStatus : Type := PENDING | PROCESSING | COMPLETED | FAILED.

Definition DocumentStatus_value (s : DocumentStatus) : string :=
  match s with
  | PENDING => "pending" | PROCESSING => "processing"
  | COMPLETED => "completed" | FAILED => "failed"
  end.

(** [DocumentStatus(v)]: the member whose value is [v], [ValueError]
    otherwise. *)
Definition DocumentStatus_of (v : string) : result DocumentStatus :=
  if String.eqb v "pending" then Ok PENDING
  else if String.eqb v "processing" then Ok PROCESSING
  else if String.eqb v "completed" then Ok COMPLETED
  else if String.eqb v "failed" then Ok FAILED
  else Raise (ValueError (v ++ " is not a valid DocumentStatus")).

(** Timestamps ([datetime]) are points on an integer time line. *)
Definition datetime := Z.

(** [DocumentSearchResult]: [created_at] is a required [datetime] field,
    the two scores are optional; the class declares no [file_type]. *)
Record DocumentSearchResult : Type := {
  r_id : string;
  r_filename : string;
  r_content : option string;
  similarity_score : option float;
  relevance_score : option float;
  created_at : datetime;
}.

(** The model's constructor call: the required [created_at] rejects
    [None]. *)
Definition new_DocumentSearchResult (id filename : string) (content : option string)
    (sim rel : option float) (created : option datetime) : result DocumentSearchResult :=
  match created with
  | None => Raise (ValidationError "created_at: Input should be a valid datetime")
  | Some t =>
      Ok {| r_id := id; r_filename := filename; r_content := content;
            similarity_score := sim; relevance_score := rel; created_at := t |}
  end.

(** [result.similarity_score = s]. *)
Definition set_similarity (r : DocumentSearchResult) (s : float) : DocumentSearchResult :=
  {| r_id := r_id r; r_filename := r_filename r; r_content := r_content r;
     similarity_score := Some s; relevance_score := relevance_score r;
     created_at := created_at r |}.

(* ================================================================== *)
(** * Hybrid fusion (search.py, _hybrid_search, after the two searches) *)
(* ================================================================== *)

(** One value of [combined_results]. *)
Record Scores : Type := {
  sc_result : DocumentSearchResult;
  vector_score : float;
  fulltext_score : float;
}.

(** [combined_results] is a [dict] keyed by document id; its iteration
    order (insertion order, an overwritten key keeping its place) decides
    ties of the final sort, so it is an association list. *)
Definition combined := list (string * Scores).

Fixpoint dict_get (k : string) (d : combined) : option Scores :=
  match d with
  | [] => None
  | (k', v) :: d' => if String.eqb k k' then Some v else dict_get k d'
  end.

(** [d[k] = v]. *)
Fixpoint dict_set (k : string) (v : Scores) (d : combined) : combined :=
  match d with
  | [] => [(k, v)]
  | (k', v') :: d' =>
      if String.eqb k k' then (k, v) :: d' else (k', v') :: dict_set k v d'
  end.

(** First loop: every vector result (re)binds its id. *)
Definition add_vector (d : combined) (r : DocumentSearchResult) : combined :=
  dict_set (r_id r)
    {| sc_result := r; vector_score := or_zero (similarity_score r);
       fulltext_score := 0%float |} d.

(** Second loop: a known id only has its full-text score set, a new id is
    bound with vector score 0. *)
Definition add_fulltext (d : combined) (r : DocumentSearchResult) : combined :=
  match dict_get (r_id r) d with
  | Some s =>
      dict_set (r_id r)
        {| sc_result := sc_result s; vector_score := vector_score s;
           fulltext_score := or_zero (relevance_score r) |} d
  | None =>
      dict_set (r_id r)
        {| sc_result := r; vector_score := 0%float;
           fulltext_score := or_zero (relevance_score r) |} d
  end.

Definition combine_results (vector_results fulltext_results : list DocumentSearchResult)
    : combined :=
  fold_left add_fulltext fulltext_results (fold_left add_vector vector_results []).

Definition hybrid_score (s : Scores) : float :=
  ((vector_score s * 0.6) + (fulltext_score s * 0.4))%float.

(** Third loop: the score is computed, written into the result's
    similarity field and paired with it. *)
Definition hybrid_results (d : combined) : list (DocumentSearchResult * float) :=
  map (fun kv => (set_similarity (sc_result (snd kv)) (hybrid_score (snd kv)),
                  hybrid_score (snd kv))) d.

(** The part of [_hybrid_search] that follows the two awaited searches. *)
Definition hybrid_fuse (vector_results fulltext_results : list DocumentSearchResult)
    (limit : Z) : list DocumentSearchResult :=
  map fst (slice_to limit (sort_desc (hybrid_results
    (combine_results vector_results fulltext_results)))).

(* ================================================================== *)
(** * The relational store (database.py)                                *)
(* ================================================================== *)

Module Sql.

Inductive value : Type :=
| Null
| Str (s : string)
| Int (n : Z)
| Time (t : datetime).

Inductive type : Type :=
| Varchar (n : nat)
| Text
| BigInt
| IntT
| Timestamp
| Json
| Enum (members : list string).

(** The [DEFAULT] clause of a column. *)
Inductive default : Type :=
| NoDefault
| CurrentTimestamp
| Literal (v : value).

(** A column as [CREATE TABLE] declares it. *)
Record column : Type := {
  c_name : string;
  c_type : type;
  c_not_null : bool;
  c_default : default;
  c_on_update_now : bool;       (* ON UPDATE CURRENT_TIMESTAMP *)
  c_references : option string; (* FOREIGN KEY ... REFERENCES table(id) *)
}.

Definition col (name : string) (t : type) (not_null : bool) : column :=
  {| c_name := name; c_type := t; c_not_null := not_null;
     c_default := NoDefault; c_on_update_now := false; c_references := None |}.

Abbreviation row := (gmap string value) (only parsing).

(** Every table of [init_db] has the primary key [id]. *)
Record table : Type := {
  t_columns : list column;
  t_rows : list row;
}.

Abbreviation database := (gmap string table) (only parsing).

Definition has_column (t : table) (name : string) : bool :=
  existsb (fun c => String.eqb (c_name c) name) (t_columns t).

Definition field (name : string) (r : row) : value :=
  match r !! name with Some v => v | None => Null end.

Definition value_eqb (a b : value) : bool :=
  match a, b with
  | Str x, Str y => String.eqb x y
  | Int x, Int y => Z.eqb x y
  | Time x, Time y => Z.eqb x y
  | _, _ => false
  end.

(** Does a value fit its column (strict SQL mode)? *)
Definition fits (c : column) (v : value) : bool :=
  match v with
  | Null => negb (c_not_null c)
  | Str s =>
      match c_type c with
      | Varchar n => (String.length s <=? n)%nat
      | Text | Json => true
      | Enum ms => existsb (String.eqb s) ms
      | _ => false
      end
  | Int _ => match c_type c with BigInt | IntT => true | _ => false end
  | Time _ => match c_type c with Timestamp => true | _ => false end
  end.

Definition has_id (id : value) (t : table) : bool :=
  existsb (fun r => value_eqb (field "id" r) id) (t_rows t).

(** The foreign key of a column holds when it is [NULL] or names the
    [id] of a row of the referenced table. *)
Definition reference_ok (db : database) (c : column) (v : value) : bool :=
  match c_references c, v with
  | None, _ | _, Null => true
  | Some parent, _ =>
      match db !! parent with
      | Some t => has_id v t
      | None => false
      end
  end.

(** The value an [INSERT] stores in a column: the one bound to it, else
    the column's default. *)
Definition stored (now : datetime) (given : list (string * value)) (c : column) : value :=
  match List.find (fun kv => String.eqb (fst kv) (c_name c)) given with
  | Some kv => snd kv
  | None =>
      match c_default c with
      | NoDefault => Null
      | CurrentTimestamp => Time now
      | Literal v => v
      end
  end.

Definition new_row (now : datetime) (given : list (string * value)) (t : table) : row :=
  fold_right (fun c r => <[c_name c := stored now given c]> r) ∅ (t_columns t).

(** [INSERT INTO name (cols) VALUES (vals)]. *)
Definition insert (now : datetime) (name : string) (given : list (string * value))
    (db : database) : result database :=
  match db !! name with
  | None => Raise (DatabaseError ("Table '" ++ name ++ "' doesn't exist"))
  | Some t =>
      match List.find (fun kv => negb (has_column t (fst kv))) given with
      | Some kv => Raise (DatabaseError ("Unknown column '" ++ fst kv ++ "' in 'field list'"))
      | None =>
          let r := new_row now given t in
          if negb (forallb (fun c => fits c (field (c_name c) r)) (t_columns t))
          then Raise (DatabaseError "Incorrect value for column")
          else if has_id (field "id" r) t
          then Raise (DatabaseError "Duplicate entry for key 'PRIMARY'")
          else if negb (forallb (fun c => reference_ok db c (field (c_name c) r)) (t_columns t))
          then Raise (DatabaseError "Cannot add or update a child row: a foreign key constraint fails")
          else Ok (<[name := {| t_columns := t_columns t; t_rows := t_rows t ++ [r] |}]> db)
      end
  end.

(** The row after [SET assignments]: the assigned columns change, and a
    column declared [ON UPDATE CURRENT_TIMESTAMP] is refreshed. *)
Definition updated (now : datetime) (sets : list (string * value)) (t : table) (r : row) : row :=
  fold_right (fun c r' =>
    match List.find (fun kv => String.eqb (fst kv) (c_name c)) sets with
    | Some kv => <[c_name c := snd kv]> r'
    | None => if c_on_update_now c then <[c_name c := Time now]> r' else r'
    end) r (t_columns t).

(** [UPDATE name SET assignments WHERE id = key]. *)
Definition update (now : datetime) (name : string) (sets : list (string * value))
    (key : value) (db : database) : result database :=
  match db !! name with
  | None => Raise (DatabaseError ("Table '" ++ name ++ "' doesn't exist"))
  | Some t =>
      match List.find (fun kv => negb (has_column t (fst kv))) sets with
      | Some kv => Raise (DatabaseError ("Unknown column '" ++ fst kv ++ "' in 'field list'"))
      | None =>
          if negb (forallb (fun c =>
               match List.find (fun kv => String.eqb (fst kv) (c_name c)) sets with
               | Some kv => fits c (snd kv)
               | None => true
               end) (t_columns t))
          then Raise (DatabaseError "Incorrect value for column")
          else Ok (<[name := {| t_columns := t_columns t;
                                t_rows := map (fun r => if value_eqb (field "id" r) key
                                                        then updated now sets t r else r)
                                              (t_rows t) |}]> db)
      end
  end.

(** [SELECT column FROM name WHERE id = key], as the list of fetched
    one-column rows. *)
Definition select (column name : string) (key : value) (db : database)
    : result (list value) :=
  match db !! name with
  | None => Raise (DatabaseError ("Table '" ++ name ++ "' doesn't exist"))
  | Some t =>
      if has_column t column
      then Ok (map (field column)
                 (List.filter (fun r => value_eqb (field "id" r) key) (t_rows t)))
      else Raise (DatabaseError ("Unknown column '" ++ column ++ "' in 'field list'"))
  end.

(** [CREATE TABLE IF NOT EXISTS name (columns)]. *)
Definition create_table_if_not_exists (name : string) (columns : list column)
    (db : database) : database :=
  match db !! name with
  | Some _ => db
  | None => <[name := {| t_columns := columns; t_rows := [] |}]> db
  end.

(** [LIMIT n] over the rows a query selected, in its order: the store
    rejects a negative count. *)
Definition limit {A} (n : Z) (rows : list A) : result (list A) :=
  if n <? 0 then Raise (DatabaseError "You have an error in your SQL syntax near LIMIT")
  else Ok (firstn (Z.to_nat n) rows).

End Sql.

(** The columns of [documents], as [init_db] creates the table. *)
Definition documents_columns : list Sql.column :=
  [ Sql.col "id" (Sql.Varchar 36) true;
    Sql.col "filename" (Sql.Varchar 255) true;
    Sql.col "file_path" (Sql.Varchar 500) true;
    Sql.col "file_type" (Sql.Varchar 50) true;
    Sql.col "file_size" Sql.BigInt true;
    Sql.col "content" Sql.Text false;
    Sql.col "content_hash" (Sql.Varchar 64) false;
    {| Sql.c_name := "created_at"; Sql.c_type := Sql.Timestamp; Sql.c_not_null := false;
       Sql.c_default := Sql.CurrentTimestamp; Sql.c_on_update_now := false; Sql.c_references := None |};
    {| Sql.c_name := "updated_at"; Sql.c_type := Sql.Timestamp; Sql.c_not_null := false;
       Sql.c_default := Sql.CurrentTimestamp; Sql.c_on_update_now := true; Sql.c_references := None |} ].

Definition document_embeddings_columns : list Sql.column :=
  [ Sql.col "id" (Sql.Varchar 36) true;
    {| Sql.c_name := "document_id"; Sql.c_type := Sql.Varchar 36; Sql.c_not_null := true;
       Sql.c_default := Sql.NoDefault; Sql.c_on_update_now := false;
       Sql.c_references := Some "documents" |};
    Sql.col "embedding_vector" Sql.Json true;
    Sql.col "embedding_model" (Sql.Varchar 100) true;
    {| Sql.c_name := "created_at"; Sql.c_type := Sql.Timestamp; Sql.c_not_null := false;
       Sql.c_default := Sql.CurrentTimestamp; Sql.c_on_update_now := false; Sql.c_references := None |} ].

Definition search_logs_columns : list Sql.column :=
  [ Sql.col "id" (Sql.Varchar 36) true;
    Sql.col "query" Sql.Text true;
    Sql.col "search_type" (Sql.Enum ["vector"; "fulltext"; "hybrid"]) true;
    Sql.col "results_count" Sql.IntT true;
    Sql.col "execution_time_ms" Sql.IntT true;
    Sql.col "user_id" (Sql.Varchar 36) false;
    {| Sql.c_name := "created_at"; Sql.c_type := Sql.Timestamp; Sql.c_not_null := false;
       Sql.c_default := Sql.CurrentTimestamp; Sql.c_on_update_now := false; Sql.c_references := None |} ].

(** [init_db]: the three tables the modelled functions touch (the two
    workflow tables it also creates are touched by none of them). *)
Definition init_db (db : Sql.database) : Sql.database :=
  Sql.create_table_if_not_exists "search_logs" search_logs_columns
    (Sql.create_table_if_not_exists "document_embeddings" document_embeddings_columns
      (Sql.create_table_if_not_exists "documents" documents_columns db)).

(* ================================================================== *)
(** * Collaborators and the world the coroutines run in                 *)
(* ================================================================== *)

Definition bytes := list Byte.byte.

(** A row fetched by [search_similar_documents], read the way
    [_vector_search] indexes it: [doc[0]], [doc[1]], [doc[2]], (the
    embedding at [doc[3]]), [doc[4]], and whatever columns follow
    ([doc[5]] is looked at when [len(doc) > 5]). *)
Record VectorRow : Type := {
  v_id : string;
  v_filename : string;
  v_content : option string;
  v_embedding : string;
  v_distance : float;
  v_rest : list (option datetime);
}.

(** A row fetched by [full_text_search]: [doc[0]] .. [doc[3]], then the
    columns that follow ([doc[4]] is looked at when [len(doc) > 4]). *)
Record FulltextRow : Type := {
  f_id : string;
  f_filename : string;
  f_content : option string;
  f_relevance : float;
  f_rest : list (option datetime);
}.

(** What the pipeline consumes as black boxes: the identifier source, the
    embedder, the digest, the text extractors, the file system's verdict
    on a write, and the store's evaluation of the two search queries
    (join, [WHERE] and [ORDER BY]; the [LIMIT] is applied by
    [Sql.limit]). *)
Record Env : Type := {
  uuid4 : nat -> string;
  encode : string -> result (list float);
  repr_floats : list float -> string;
  sha256_hexdigest : string -> string;
  decode_utf8 : bytes -> result string;
  pdf_page_texts : bytes -> result (list string);
  image_to_string : bytes -> result string;
  can_write : string -> bool;
  session_takes_str : bool;
  nearest_rows : Sql.database -> list float -> float -> list VectorRow;
  match_rows : Sql.database -> string -> list FulltextRow;
}.

(** A task handed to [asyncio.create_task]: the pending call
    [_generate_embeddings(document_id, content, db_session)]. *)
Record Task : Type := {
  task_document_id : string;
  task_content : option string;
}.

(** The mutable world: the store as committed, the session's view of it
    (committed state plus the statements executed since the last commit),
    whether the store can be reached, the upload directory, the number of
    identifiers drawn, the wall clock (seconds), the scheduled background
    tasks, and what was printed. *)
Record World : Type := {
  committed : Sql.database;
  pending : Sql.database;
  store_up : bool;
  files : list (string * bytes);
  uuids_drawn : nat;
  clock : datetime;
  tasks : list Task;
  stdout : list string;
}.

Definition with_pending (db : Sql.database) (w : World) : World :=
  {| committed := committed w; pending := db; store_up := store_up w;
     files := files w; uuids_drawn := uuids_drawn w; clock := clock w;
     tasks := tasks w; stdout := stdout w |}.

Definition with_committed (db : Sql.database) (w : World) : World :=
  {| committed := db; pending := pending w; store_up := store_up w;
     files := files w; uuids_drawn := uuids_drawn w; clock := clock w;
     tasks := tasks w; stdout := stdout w |}.

Definition with_store_up (up : bool) (w : World) : World :=
  {| committed := committed w; pending := pending w; store_up := up;
     files := files w; uuids_drawn := uuids_drawn w; clock := clock w;
     tasks := tasks w; stdout := stdout w |}.

Definition with_files (fs : list (string * bytes)) (w : World) : World :=
  {| committed := committed w; pending := pending w; store_up := store_up w;
     files := fs; uuids_drawn := uuids_drawn w; clock := clock w;
     tasks := tasks w; stdout := stdout w |}.

Definition with_uuids_drawn (n : nat) (w : World) : World :=
  {| committed := committed w; pending := pending w; store_up := store_up w;
     files := files w; uuids_drawn := n; clock := clock w;
     tasks := tasks w; stdout := stdout w |}.

Definition with_clock (t : datetime) (w : World) : World :=
  {| committed := committed w; pending := pending w; store_up := store_up w;
     files := files w; uuids_drawn := uuids_drawn w; clock := t;
     tasks := tasks w; stdout := stdout w |}.

Definition with_tasks (ts : list Task) (w : World) : World :=
  {| committed := committed w; pending := pending w; store_up := store_up w;
     files := files w; uuids_drawn := uuids_drawn w; clock := clock w;
     tasks := ts; stdout := stdout w |}.

Definition with_stdout (out : list string) (w : World) : World :=
  {| committed := committed w; pending := pending w; store_up := store_up w;
     files := files w; uuids_drawn := uuids_drawn w; clock := clock w;
     tasks := tasks w; stdout := out |}.

(** A coroutine: it ends with a value or a raised exception, and leaves
    the world as it changed it up to that point. *)
Definition M (A : Type) : Type := World -> result A * World.

Definition ret {A} (a : A) : M A := fun w => (Ok a, w).

Definition raise {A} (e : exn) : M A := fun w => (Raise e, w).

Definition bind {A B} (m : M A) (k : A -> M B) : M B :=
  fun w => match m w with
           | (Ok a, w') => k a w'
           | (Raise e, w') => (Raise e, w')
           end.

(** [try: body / except Exception as e: handler]. *)
Definition try_except {A} (body : M A) (handler : exn -> M A) : M A :=
  fun w => match body w with
           | (Ok a, w') => (Ok a, w')
           | (Raise e, w') => handler e w'
           end.

Definition lift {A} (r : result A) : M A := fun w => (r, w).

Definition get_world : M World := fun w => (Ok w, w).

Declare Scope py_scope.
Delimit Scope py_scope with py.
Notation "x <- m ;; k" := (bind m (fun x => k))
  (at level 100, m at next level, right associativity) : py_scope.
Notation "m ;;; k" := (bind m (fun _ => k))
  (at level 100, right associativity) : py_scope.
Local Open Scope py_scope.

Definition print (line : string) : M unit :=
  fun w => (Ok tt, with_stdout (stdout w ++ [line]) w).

(** [datetime.now()] and [time.time()]. *)
Definition now : M datetime := fun w => (Ok (clock w), w).

(** Statements through the request's session: they act on the session's
    view and fail as a whole; nothing reaches the store when it is down. *)
Definition unreachable : exn := DatabaseError "Can't connect to the store".

Definition session_insert (name : string) (given : list (string * Sql.value)) : M unit :=
  fun w =>
    if store_up w then
      match Sql.insert (clock w) name given (pending w) with
      | Ok db => (Ok tt, with_pending db w)
      | Raise e => (Raise e, w)
      end
    else (Raise unreachable, w).

Definition session_update (name : string) (sets : list (string * Sql.value))
    (key : Sql.value) : M unit :=
  fun w =>
    if store_up w then
      match Sql.update (clock w) name sets key (pending w) with
      | Ok db => (Ok tt, with_pending db w)
      | Raise e => (Raise e, w)
      end
    else (Raise unreachable, w).

Definition session_select (column name : string) (key : Sql.value) : M (list Sql.value) :=
  fun w =>
    if store_up w then (Sql.select column name key (pending w), w)
    else (Raise unreachable, w).

(** [await db_session.commit()]. *)
Definition session_commit : M unit :=
  fun w =>
    if store_up w then (Ok tt, with_committed (pending w) w)
    else (Raise unreachable, w).

(** [str(uuid.uuid4())]. *)
Definition new_uuid (env : Env) : M string :=
  fun w => (Ok (uuid4 env (uuids_drawn w)), with_uuids_drawn (S (uuids_drawn w)) w).

(* ================================================================== *)
(** * Strings and paths                                                 *)
(* ================================================================== *)

Module PyStr.

Definition newline : string := String (ascii_of_nat 10) EmptyString.

(** [c.lower()] on the ASCII letters. *)
Definition lower_char (c : ascii) : ascii :=
  let n := nat_of_ascii c in
  if ((65 <=? n) && (n <=? 90))%nat then ascii_of_nat (n + 32) else c.

Fixpoint lower (s : string) : string :=
  match s with
  | EmptyString => EmptyString
  | String c s' => String (lower_char c) (lower s')
  end.

(** [s.split(sep)] on one separating character. *)
Fixpoint split_aux (sep : ascii) (s : string) (cur : string) : list string :=
  match s with
  | EmptyString => [cur]
  | String c s' =>
      if Ascii.eqb c sep then cur :: split_aux sep s' EmptyString
      else split_aux sep s' (cur ++ String c EmptyString)
  end.

Definition split (sep : ascii) (s : string) : list string :=
  split_aux sep s EmptyString.

(** [s.rfind(".")], when there is a dot. *)
Fixpoint rfind_dot_from (s : string) (i : nat) (found : option nat) : option nat :=
  match s with
  | EmptyString => found
  | String c s' =>
      rfind_dot_from s' (S i) (if Ascii.eqb c "."%char then Some i else found)
  end.

Definition rfind_dot (s : string) : option nat := rfind_dot_from s 0%nat None.

(** The characters [str.strip()] removes (the ASCII ones). *)
Definition is_space (c : ascii) : bool :=
  let n := nat_of_ascii c in
  ((n =? 32) || ((9 <=? n) && (n <=? 13)) || ((28 <=? n) && (n <=? 31)))%nat.

Fixpoint lstrip (s : string) : string :=
  match s with
  | EmptyString => EmptyString
  | String c s' => if is_space c then lstrip s' else s
  end.

Fixpoint rstrip (s : string) : string :=
  match s with
  | EmptyString => EmptyString
  | String c s' =>
      match rstrip s' with
      | EmptyString => if is_space c then EmptyString else String c EmptyString
      | t => String c t
      end
  end.

Definition strip (s : string) : string := rstrip (lstrip s).

Fixpoint join (sep : string) (l : list string) : string :=
  match l with
  | [] => ""
  | [x] => x
  | x :: l' => x ++ sep ++ join sep l'
  end.

End PyStr.

Module PyPath.

(** The components of a POSIX path: empty and ["."] components are
    dropped when the path is parsed. *)
Definition parts (p : string) : list string :=
  List.filter (fun c => negb (String.eqb c "" || String.eqb c "."))
    (PyStr.split "/"%char p).

(** [Path(p).name]: the last component, or the empty string. *)
Definition name (p : string) : string := List.last (parts p) "".

(** [Path(p).suffix]: the name from its last dot on, when that dot is
    neither the first nor the last character of the name. *)
Definition suffix (p : string) : string :=
  let n := name p in
  match PyStr.rfind_dot n with
  | Some i =>
      if ((0 <? i) && (i <? String.length n - 1))%nat
      then String.substring i (String.length n - i) n
      else ""
  | None => ""
  end.

(** [str(Path(dir) / rel)] for a relative [rel]. *)
Definition join (dir rel : string) : string :=
  PyStr.join "/" (parts dir ++ parts rel).

End PyPath.

(* ================================================================== *)
(** * Ingestion pipeline (document_processor.py)                        *)
(* ================================================================== *)

(** [FileType(v)]. *)
Definition FileType_of (v : string) : result FileType :=
  if String.eqb v "pdf" then Ok PDF
  else if String.eqb v "txt" then Ok TXT
  else if String.eqb v "png" then Ok PNG
  else if String.eqb v "jpg" then Ok JPG
  else if String.eqb v "jpeg" then Ok JPEG
  else Raise (ValueError (v ++ " is not a valid FileType")).

Definition str_in (x : string) (l : list string) : bool := existsb (String.eqb x) l.

Definition _get_file_type (filename : string) : result FileType :=
  let ext := PyStr.lower (PyPath.suffix filename) in
  if String.eqb ext ".pdf" then Ok PDF
  else if String.eqb ext ".txt" then Ok TXT
  else if str_in ext [".png"; ".jpg"; ".jpeg"]
  then FileType_of (String.substring 1 (String.length ext - 1) ext)
  else Raise (ValueError ("Unsupported file type: " ++ ext)).

Record DocumentCreate : Type := {
  dc_filename : string;
  dc_file_type : FileType;
  dc_file_size : Z;
  dc_content : option string;
  dc_content_hash : option string;
}.

Record DocumentResponse : Type := {
  d_id : string;
  d_filename : string;
  d_file_path : string;
  d_file_type : FileType;
  d_file_size : Z;
  d_content : option string;
  d_content_hash : option string;
  d_status : DocumentStatus;
  d_created_at : datetime;
  d_updated_at : datetime;
}.

(** Python's truth value of an optional string: [None] and [""] are
    falsy. *)
Definition truthy (s : option string) : bool :=
  match s with
  | None | Some "" => false
  | Some _ => true
  end.

Definition opt_str (s : option string) : Sql.value :=
  match s with Some x => Sql.Str x | None => Sql.Null end.

Definition upload_dir : string := "uploads".

Section Ingestion.

Context (env : Env).

Definition _save_file (file_content : bytes) (filename : string) : M string :=
  u <- new_uuid env ;;
  let unique_filename := u ++ "_" ++ filename in
  let file_path := PyPath.join upload_dir unique_filename in
  fun w =>
    if can_write env file_path
    then (Ok file_path, with_files (files w ++ [(file_path, file_content)]) w)
    else (Raise (OSError ("cannot open " ++ file_path)), w).

Definition _extract_pdf_text (file_content : bytes) : result string :=
  match pdf_page_texts env file_content with
  | Ok pages =>
      Ok (PyStr.strip (fold_left (fun text page => text ++ page ++ PyStr.newline) pages ""))
  | Raise e => Raise (Exception ("Failed to extract PDF text: " ++ exn_str e))
  end.

Definition _extract_image_text (file_content : bytes) : result string :=
  match image_to_string env file_content with
  | Ok text => Ok (PyStr.strip text)
  | Raise e => Raise (Exception ("Failed to extract image text: " ++ exn_str e))
  end.

Definition _extract_text (file_content : bytes) (file_type : FileType) : M (option string) :=
  let extracted :=
    match file_type with
    | PDF => _extract_pdf_text file_content
    | TXT => decode_utf8 env file_content
    | PNG | JPG | JPEG => _extract_image_text file_content
    end in
  match extracted with
  | Ok text => ret (Some text)
  | Raise e =>
      print ("Error extracting text from " ++ FileType_value file_type ++ ": " ++ exn_str e) ;;;
      ret None
  end.

Definition _generate_content_hash (content : string) : string :=
  sha256_hexdigest env content.

(** The [INSERT] names seven columns; no status is among them. *)
Definition _store_document (document_id : string) (document_data : DocumentCreate)
    (file_path : string) : M unit :=
  session_insert "documents"
    [ ("id", Sql.Str document_id);
      ("filename", Sql.Str (dc_filename document_data));
      ("file_path", Sql.Str file_path);
      ("file_type", Sql.Str (FileType_value (dc_file_type document_data)));
      ("file_size", Sql.Int (dc_file_size document_data));
      ("content", opt_str (dc_content document_data));
      ("content_hash", opt_str (dc_content_hash document_data)) ] ;;;
  session_commit.

(** [UPDATE documents SET status = ..., updated_at = CURRENT_TIMESTAMP
    WHERE id = :document_id]. *)
Definition set_status (document_id : string) (status : string) : M unit :=
  fun w =>
    session_update "documents"
      [("status", Sql.Str status); ("updated_at", Sql.Time (clock w))]
      (Sql.Str document_id) w.

(** The [try] block of [_generate_embeddings]. *)
Definition embedding_stage (document_id : string) (content : option string) : M unit :=
  if negb (truthy content) then ret tt
  else
    embedding_list <- lift (encode env (default "" content)) ;;
    embedding_id <- new_uuid env ;;
    session_insert "document_embeddings"
      [ ("id", Sql.Str embedding_id);
        ("document_id", Sql.Str document_id);
        ("embedding_vector", Sql.Str (repr_floats env embedding_list));
        ("embedding_model", Sql.Str "all-MiniLM-L6-v2") ] ;;;
    set_status document_id "completed" ;;;
    session_commit.

(** The inner [try] block of its handler. *)
Definition mark_failed (document_id : string) : M unit :=
  set_status document_id "failed" ;;;
  session_commit.

Definition _generate_embeddings (document_id : string) (content : option string) : M unit :=
  try_except (embedding_stage document_id content)
    (fun e =>
       print ("Error generating embeddings for document " ++ document_id ++ ": "
              ++ exn_str e) ;;;
       try_except (mark_failed document_id) (fun _ => ret tt)).

(** [asyncio.create_task(...)]: the call is queued, not run. *)
Definition create_task (t : Task) : M unit :=
  fun w => (Ok tt, with_tasks (tasks w ++ [t]) w).

Definition process_document (file_content : bytes) (filename : string) : M DocumentResponse :=
  try_except
    (file_type <- lift (_get_file_type filename) ;;
     file_path <- _save_file file_content filename ;;
     content <- _extract_text file_content file_type ;;
     let content_hash :=
       if truthy content then Some (_generate_content_hash (default "" content)) else None in
     document_id <- new_uuid env ;;
     let document_data :=
       {| dc_filename := filename; dc_file_type := file_type;
          dc_file_size := Z.of_nat (length file_content);
          dc_content := content; dc_content_hash := content_hash |} in
     _store_document document_id document_data file_path ;;;
     create_task {| task_document_id := document_id; task_content := content |} ;;;
     created <- now ;;
     updated <- now ;;
     ret {| d_id := document_id; d_filename := filename; d_file_path := file_path;
            d_file_type := file_type; d_file_size := Z.of_nat (length file_content);
            d_content := content; d_content_hash := content_hash;
            d_status := PROCESSING; d_created_at := created; d_updated_at := updated |})
    (fun e => raise (Exception ("Failed to process document: " ++ exn_str e))).

Definition get_document_status (document_id : string) : M DocumentStatus :=
  rows <- session_select "status" "documents" (Sql.Str document_id) ;;
  match rows with
  | Sql.Str v :: _ => lift (DocumentStatus_of v)
  | _ :: _ => raise (ValueError "None is not a valid DocumentStatus")
  | [] => raise (ValueError ("Document " ++ document_id ++ " not found"))
  end.

Definition get_document_content (document_id : string) : M (option string) :=
  rows <- session_select "content" "documents" (Sql.Str document_id) ;;
  match rows with
  | Sql.Str v :: _ => ret (Some v)
  | _ => ret None
  end.

(** The event loop runs the queued background tasks, in the order they
    were created, each to its end. *)
Fixpoint run_tasks_list (ts : list Task) : M unit :=
  match ts with
  | [] => ret tt
  | t :: ts' =>
      _generate_embeddings (task_document_id t) (task_content t) ;;;
      run_tasks_list ts'
  end.

Definition run_background : M unit :=
  fun w => run_tasks_list (tasks w) (with_tasks [] w).

End Ingestion.

(* ================================================================== *)
(** * Waiting for a document (workflow_orchestrator.py)                 *)
(* ================================================================== *)

(** [timedelta.seconds]: the seconds component of a normalised
    [timedelta], between 0 and 86399; whole days are carried by [.days]. *)
Definition timedelta_seconds (elapsed : Z) : Z := elapsed mod 86400.

Definition is_terminal (s : DocumentStatus) : bool :=
  str_in (DocumentStatus_value s) ["completed"; "failed"].

Section Polling.

Context (env : Env).

(** [await asyncio.sleep(s)]: the caller is suspended, the event loop runs
    what is queued, and [s] seconds pass. *)
Definition asyncio_sleep (s : Z) : M unit :=
  run_background env ;;;
  fun w => (Ok tt, with_clock (clock w + s) w).

(** The [while] loop of [_wait_for_processing], unrolled at most [fuel]
    times; [None] means the loop is still running after that. *)
Fixpoint wait_loop (fuel : nat) (document_id : string) (start_time timeout : Z)
    (w : World) : option (result DocumentStatus * World) :=
  match fuel with
  | O => None
  | S fuel' =>
      if timedelta_seconds (clock w - start_time) <? timeout then
        match get_document_status document_id w with
        | (Raise e, w1) => Some (Raise e, w1)
        | (Ok status, w1) =>
            if is_terminal status then Some (Ok status, w1)
            else
              match asyncio_sleep 2 w1 with
              | (Raise e, w2) => Some (Raise e, w2)
              | (Ok _, w2) => wait_loop fuel' document_id start_time timeout w2
              end
        end
      else Some (Raise (TimeoutError "Document processing timeout"), w)
  end.

Definition _wait_for_processing (fuel : nat) (document_id : string) (timeout : Z)
    (w : World) : option (result DocumentStatus * World) :=
  wait_loop fuel document_id (clock w) timeout w.

End Polling.

(* ================================================================== *)
(** * Retrieval engine (search.py)                                      *)
(* ================================================================== *)

Record DocumentSearchRequest : Type := {
  q_query : string;
  q_search_type : string;
  q_limit : Z;
  q_threshold : float;
  q_file_types : option (list FileType);
  q_date_from : option datetime;
  q_date_to : option datetime;
}.

Record DocumentSearchResponse : Type := {
  p_results : list DocumentSearchResult;
  p_total_count : Z;
  p_search_type : string;
  p_execution_time_ms : Z;
  p_query : string;
}.

(** [r.file_type]: [DocumentSearchResult] declares no such field, so the
    attribute access raises. *)
Definition getattr_file_type (r : DocumentSearchResult) : result FileType :=
  Raise (AttributeError "'DocumentSearchResult' object has no attribute 'file_type'").

Definition FileType_eqb (a b : FileType) : bool :=
  String.eqb (FileType_value a) (FileType_value b).

(** [[r for r in results if r.file_type in file_types]]. *)
Fixpoint filter_file_types (file_types : list FileType) (results : list DocumentSearchResult)
    : result (list DocumentSearchResult) :=
  match results with
  | [] => Ok []
  | r :: rest =>
      match getattr_file_type r with
      | Raise e => Raise e
      | Ok t =>
          match filter_file_types file_types rest with
          | Raise e => Raise e
          | Ok kept => Ok (if existsb (FileType_eqb t) file_types then r :: kept else kept)
          end
      end
  end.

(** The test of [_filter_by_date] on one result ([created_at] is a
    [datetime], hence truthy). *)
Definition in_date_range (date_from date_to : option datetime) (r : DocumentSearchResult) : bool :=
  negb (match date_from with Some f => created_at r <? f | None => false end)
  && negb (match date_to with Some t => t <? created_at r | None => false end).

Definition _filter_by_date (results : list DocumentSearchResult)
    (date_from date_to : option datetime) : list DocumentSearchResult :=
  List.filter (in_date_range date_from date_to) results.

Definition is_some {A} (o : option A) : bool :=
  match o with Some _ => true | None => false end.

(** The text bound to the local name [query] inside [_log_search]. *)
Definition log_statement : string :=
  "INSERT INTO search_logs (id, query, search_type, results_count, execution_time_ms) VALUES (:id, :query, :search_type, :results_count, :execution_time_ms)".

Section Retrieval.

Context (env : Env).

(** [search_similar_documents]: the store evaluates the query on what is
    committed and returns at most [limit] rows. *)
Definition search_similar_documents (embedding_vector : list float) (limit : Z)
    (threshold : float) : M (list VectorRow) :=
  fun w =>
    if store_up w
    then (Sql.limit limit (nearest_rows env (committed w) embedding_vector threshold), w)
    else (Raise unreachable, w).

Definition full_text_search (query : string) (limit : Z) : M (list FulltextRow) :=
  fun w =>
    if store_up w
    then (Sql.limit limit (match_rows env (committed w) query), w)
    else (Raise unreachable, w).

(** [len(doc[2])] on a [NULL] content raises. *)
Definition shown_content (content : option string) : result string :=
  match content with
  | Some c => Ok (truncate_content c)
  | None => Raise (TypeError "object of type 'NoneType' has no len()")
  end.

Definition vector_result (doc : VectorRow) : result DocumentSearchResult :=
  rbind (shown_content (v_content doc)) (fun content =>
    new_DocumentSearchResult (v_id doc) (v_filename doc) (Some content)
      (Some (1 - v_distance doc)%float) None
      (match v_rest doc with t :: _ => t | [] => None end)).

Definition fulltext_result (doc : FulltextRow) : result DocumentSearchResult :=
  rbind (shown_content (f_content doc)) (fun content =>
    new_DocumentSearchResult (f_id doc) (f_filename doc) (Some content)
      None (Some (f_relevance doc))
      (match f_rest doc with t :: _ => t | [] => None end)).

Definition _vector_search (query : string) (limit : Z) (threshold : float)
    : M (list DocumentSearchResult) :=
  query_embedding_list <- lift (encode env query) ;;
  similar_docs <- search_similar_documents query_embedding_list limit threshold ;;
  lift (rmap vector_result similar_docs).

Definition _fulltext_search (query : string) (limit : Z) : M (list DocumentSearchResult) :=
  search_results <- full_text_search query limit ;;
  lift (rmap fulltext_result search_results).

Definition _hybrid_search (query : string) (limit : Z) (threshold : float)
    : M (list DocumentSearchResult) :=
  vector_results <- _vector_search query (limit * 2) threshold ;;
  fulltext_results <- _fulltext_search query (limit * 2) ;;
  ret (hybrid_fuse vector_results fulltext_results limit).

(** [_log_search]: the parameter [query] is rebound to the statement text
    before the parameters are bound, so the ["query"] parameter carries
    the statement; a session that takes no plain string rejects the call.
    Whatever is raised is printed and dropped. *)
Definition _log_search (query search_type : string) (results_count execution_time_ms : Z)
    : M unit :=
  try_except
    (log_id <- new_uuid env ;;
     let query := log_statement in
     (if session_takes_str env
      then session_insert "search_logs"
             [ ("id", Sql.Str log_id);
               ("query", Sql.Str query);
               ("search_type", Sql.Str search_type);
               ("results_count", Sql.Int results_count);
               ("execution_time_ms", Sql.Int execution_time_ms) ]
      else raise (Exception "Textual SQL expression should be explicitly declared as text()")) ;;;
     session_commit)
    (fun e => print ("Failed to log search: " ++ exn_str e)).

(** The [if]/[elif] chain of [search_documents] on the lowered type. *)
Definition search_by_type (request : DocumentSearchRequest) (search_type : string)
    : M (list DocumentSearchResult) :=
  if String.eqb search_type "vector"
  then _vector_search (q_query request) (q_limit request) (q_threshold request)
  else if String.eqb search_type "fulltext"
  then _fulltext_search (q_query request) (q_limit request)
  else if String.eqb search_type "hybrid"
  then _hybrid_search (q_query request) (q_limit request) (q_threshold request)
  else raise (HTTPException 400
         "Invalid search type. Use 'vector', 'fulltext', or 'hybrid'").

(** The two filters of [search_documents], in its order: the file types
    when the request lists some, then the dates when it gives one. *)
Definition post_filter (request : DocumentSearchRequest)
    (results : list DocumentSearchResult) : result (list DocumentSearchResult) :=
  rbind (match q_file_types request with
         | Some (t :: ts) => filter_file_types (t :: ts) results
         | _ => Ok results
         end)
    (fun results =>
       Ok (if is_some (q_date_from request) || is_some (q_date_to request)
           then _filter_by_date results (q_date_from request) (q_date_to request)
           else results)).

Definition search_documents (request : DocumentSearchRequest) : M DocumentSearchResponse :=
  start_time <- now ;;
  try_except
    (let search_type := PyStr.lower (q_search_type request) in
     results <- search_by_type request search_type ;;
     results <- lift (post_filter request results) ;;
     end_time <- now ;;
     let execution_time_ms := (end_time - start_time) * 1000 in
     _log_search (q_query request) search_type (Z.of_nat (length results))
       execution_time_ms ;;;
     ret {| p_results := slice_to (q_limit request) results;
            p_total_count := Z.of_nat (length results);
            p_search_type := search_type;
            p_execution_time_ms := execution_time_ms;
            p_query := q_query request |})
    (fun e =>
       if is_HTTPException e then raise e
       else raise (HTTPException 500 (exn_str e))).

End Retrieval.

(** Process start-up ([startup_event]): [init_db] runs on the store. *)
Definition startup (w : World) : World :=
  with_pending (init_db (committed w)) (with_committed (init_db (committed w)) w).

(** A world before start-up: an empty store, nothing uploaded. *)
Definition empty_world : World :=
  {| committed := ∅; pending := ∅; store_up := true; files := [];
     uuids_drawn := 0%nat; clock := 0; tasks := []; stdout := [] |}.

(* ================================================================== *)
(** * Vocabulary of the statements                                      *)
(* ================================================================== *)

(** Two scores are the same number: identical, or equal as [==] compares
    floats (which identifies the two zeros). *)
Definition score_eq (a b : float) : Prop := a = b \/ (a =? b)%float = true.

(** The last result of [l] whose id is [d]. *)
Fixpoint last_with_id (d : string) (l : list DocumentSearchResult)
    : option DocumentSearchResult :=
  match l with
  | [] => None
  | r :: l' =>
      match last_with_id d l' with
      | Some r' => Some r'
      | None => if String.eqb (r_id r) d then Some r else None
      end
  end.

(** The score a list contributes for document [d]: the score of its
    (last) result for [d] passed through [x or 0], and 0 when the list has
    no result for [d]. *)
Definition side_score (score : DocumentSearchResult -> option float) (d : string)
    (l : list DocumentSearchResult) : float :=
  match last_with_id d l with
  | Some r => or_zero (score r)
  | None => 0%float
  end.

(** Document [d] is in the list [l], with the score [v]. *)
Definition listed_with (score : DocumentSearchResult -> option float) (d : string)
    (v : float) (l : list DocumentSearchResult) : Prop :=
  In d (map r_id l) /\ forall r, In r l -> r_id r = d -> score r = Some v.

(** The extensions [_get_file_type] accepts (after lowering). *)
Definition supported_extensions : list string := [".pdf"; ".txt"; ".png"; ".jpg"; ".jpeg"].

(** The extension of a file name, as [_get_file_type] reads it. *)
Definition extension (filename : string) : string := PyStr.lower (PyPath.suffix filename).

Section PollingVocabulary.

Context (env : Env).

(** The world in which the [n]-th check (counted from 0) is made, as long
    as no earlier check has ended the wait: [n] sleeps after the call. *)
Definition world_at_check (w : World) (n : nat) : World :=
  Nat.iter n (fun w => snd (asyncio_sleep env 2 w)) w.

End PollingVocabulary.

(** The number of checks made before the timeout has elapsed: the checks
    at 0, 2, 4, ... seconds that fall before [timeout]. *)
Definition checks_before (timeout : Z) : nat := Z.to_nat ((timeout + 1) / 2).

(** The columns of the rows of [search_logs] that [_log_search] binds. *)
Definition logged (w : World) : option (list (Sql.value * Sql.value * Sql.value * Sql.value)) :=
  option_map (fun t => map (fun r => (Sql.field "query" r, Sql.field "search_type" r,
                                      Sql.field "results_count" r,
                                      Sql.field "execution_time_ms" r))
                           (Sql.t_rows t))
    (committed w !! "search_logs").

(* ================================================================== *)
(** * Invariants used in the proofs                                     *)
(* ================================================================== *)

(** Every key is the id of the result stored under it. *)
Definition keyed (d : combined) : Prop :=
  Forall (fun kv => r_id (sc_result (snd kv)) = fst kv) d.

Definition well_formed (d : combined) : Prop := List.NoDup (map fst d) /\ keyed d.

Definition vector_score_at (d : string) (c : combined) : float :=
  match dict_get d c with Some s => vector_score s | None => 0%float end.

(** A coroutine that leaves the wall clock alone. *)
Definition keeps_clock {A} (m : M A) : Prop := forall w, clock (snd (m w)) = clock w.

(** Closed statements about the demonstration worlds are settled by
    evaluation. *)
Ltac split_all := repeat match goal with |- _ /\ _ => split end.
Ltac by_vm := vm_compute; reflexivity.

(* ================================================================== *)
(** * Deployments used to run the model                                 *)
(* ================================================================== *)

Definition nat_str (n : nat) : string := NilEmpty.string_of_uint (Nat.to_uint n).

Definition vrow (id : string) (distance : float) (created : datetime) : VectorRow :=
  {| v_id := id; v_filename := id ++ ".txt"; v_content := Some ("text of " ++ id);
     v_embedding := "[]"; v_distance := distance; v_rest := [Some created] |}.

Definition frow (id : string) (relevance : float) (created : datetime) : FulltextRow :=
  {| f_id := id; f_filename := id ++ ".txt"; f_content := Some ("text of " ++ id);
     f_relevance := relevance; f_rest := [Some created] |}.

(** Collaborators that behave: the encoder fails on the text ["boom"]
    only, bytes are text unless they hold [0xff], every query is at
    distance 0.25, 0.5 and 0.75 of [d1], [d2] and [d4] and matches [d3]
    and [d1], except the query ["nothing"], which matches no document.
    Their rows carry a creation time after the selected columns. *)
Definition demo_env : Env :=
  {| uuid4 := fun n => "uuid-" ++ nat_str n;
     encode := fun text =>
       if String.eqb text "boom" then Raise (CollaboratorError "encoder failed")
       else Ok [1%float];
     repr_floats := fun _ => "[1.0]";
     sha256_hexdigest := fun text => "sha256:" ++ text;
     decode_utf8 := fun b =>
       if existsb (Byte.eqb Byte.xff) b
       then Raise (CollaboratorError "invalid start byte")
       else Ok (string_of_list_byte b);
     pdf_page_texts := fun _ => Ok ["page one"; "page two"];
     image_to_string := fun _ => Ok " scanned ";
     can_write := fun _ => true;
     session_takes_str := true;
     nearest_rows := fun _ _ threshold =>
       List.filter (fun doc => (v_distance doc <? threshold)%float)
         [vrow "d1" 0.25 10; vrow "d2" 0.5 20; vrow "d4" 0.75 30];
     match_rows := fun _ query =>
       if String.eqb query "nothing" then []
       else [frow "d3" 2 50; frow "d1" 1 10] |}.

(** The same collaborators, with rows of the selected columns only and a
    session that takes no plain string. *)
Definition strict_env : Env :=
  {| uuid4 := uuid4 demo_env; encode := encode demo_env;
     repr_floats := repr_floats demo_env; sha256_hexdigest := sha256_hexdigest demo_env;
     decode_utf8 := decode_utf8 demo_env; pdf_page_texts := pdf_page_texts demo_env;
     image_to_string := image_to_string demo_env; can_write := can_write demo_env;
     session_takes_str := false;
     nearest_rows := fun db e t =>
       map (fun doc => {| v_id := v_id doc; v_filename := v_filename doc;
                          v_content := v_content doc; v_embedding := v_embedding doc;
                          v_distance := v_distance doc; v_rest := [] |})
           (nearest_rows demo_env db e t);
     match_rows := fun db q =>
       map (fun doc => {| f_id := f_id doc; f_filename := f_filename doc;
                          f_content := f_content doc; f_relevance := f_relevance doc;
                          f_rest := [] |})
           (match_rows demo_env db q) |}.

(** The process after start-up on an empty store. *)
Definition demo_world : World := startup empty_world.

Definition demo_request (query search_type : string) (limit : Z) : DocumentSearchRequest :=
  {| q_query := query; q_search_type := search_type; q_limit := limit;
     q_threshold := 1%float; q_file_types := None; q_date_from := None;
     q_date_to := None |}.

(** A store whose [documents] table was created beforehand with a
    [status] column that defaults to ['processing']; [init_db] leaves an
    existing table as it is. *)
Definition status_column : Sql.column :=
  {| Sql.c_name := "status";
     Sql.c_type := Sql.Enum ["pending"; "processing"; "completed"; "failed"];
     Sql.c_not_null := true; Sql.c_default := Sql.Literal (Sql.Str "processing");
     Sql.c_on_update_now := false; Sql.c_references := None |}.

Definition migrated_store : Sql.database :=
  {[ "documents" := {| Sql.t_columns := documents_columns ++ [status_column];
                       Sql.t_rows := [] |} ]}.

Definition migrated_world : World :=
  startup (with_committed migrated_store empty_world).

(* ================================================================== *)
(** * The search routes besides the main one (search.py)                *)
(* ================================================================== *)

(** [SELECT column FROM name WHERE key_column = key], as the list of
    fetched one-column rows. *)
Definition select_where (column name key_column : string) (key : Sql.value)
    (db : Sql.database) : result (list Sql.value) :=
  match db !! name with
  | None => Raise (DatabaseError ("Table '" ++ name ++ "' doesn't exist"))
  | Some t =>
      if negb (Sql.has_column t column)
      then Raise (DatabaseError ("Unknown column '" ++ column ++ "' in 'field list'"))
      else if negb (Sql.has_column t key_column)
      then Raise (DatabaseError ("Unknown column '" ++ key_column ++ "' in 'where clause'"))
      else Ok (map (Sql.field column)
                 (List.filter (fun r => Sql.value_eqb (Sql.field key_column r) key)
                    (Sql.t_rows t)))
  end.

Definition session_select_where (column name key_column : string) (key : Sql.value)
    : M (list Sql.value) :=
  fun w =>
    if store_up w then (select_where column name key_column key (pending w), w)
    else (Raise unreachable, w).

(** The bounds the routes declare on their query parameters:
    [Query(10, ge=1, le=100)] and [Query(0.7, ge=0.0, le=1.0)]. *)
Definition limit_in_bounds (limit : Z) : bool := (1 <=? limit) && (limit <=? 100).

Definition threshold_in_bounds (threshold : float) : bool :=
  ((0 <=? threshold) && (threshold <=? 1))%float.

(** The dictionary [vector_search] and [fulltext_search] answer with. *)
Record SearchAnswer : Type := {
  a_results : list DocumentSearchResult;
  a_total_count : Z;
  a_search_type : string;
  a_query : string;
}.

(** The dictionary [find_similar_documents] answers with. *)
Record SimilarAnswer : Type := {
  s_results : list DocumentSearchResult;
  s_total_count : Z;
  s_search_type : string;
  s_reference_document_id : string;
}.

(** What the session answers to a statement given as a plain string when
    it takes none. *)
Definition not_text : exn :=
  Exception "Textual SQL expression should be explicitly declared as text()".

Section Routes.

Context (env : Env).

(** [eval(embedding_str)]: the list the stored text denotes, or what the
    evaluation raises. *)
Context (eval : string -> result (list float)).

Definition vector_search (query : string) (limit : Z) (threshold : float) : M SearchAnswer :=
  try_except
    (results <- _vector_search env query limit threshold ;;
     ret {| a_results := results; a_total_count := Z.of_nat (length results);
            a_search_type := "vector"; a_query := query |})
    (fun e => raise (HTTPException 500 (exn_str e))).

Definition fulltext_search (query : string) (limit : Z) : M SearchAnswer :=
  try_except
    (results <- _fulltext_search env query limit ;;
     ret {| a_results := results; a_total_count := Z.of_nat (length results);
            a_search_type := "fulltext"; a_query := query |})
    (fun e => raise (HTTPException 500 (exn_str e))).

(** [eval] of the fetched column: a string is evaluated, anything else is
    no source text. *)
Definition eval_column (v : Sql.value) : result (list float) :=
  match v with
  | Sql.Str s => eval s
  | _ => Raise (TypeError "eval() arg 1 must be a string, bytes or code object")
  end.

Definition find_similar_documents (document_id : string) (limit : Z) (threshold : float)
    : M SimilarAnswer :=
  try_except
    (rows <- (if session_takes_str env
              then session_select_where "embedding_vector" "document_embeddings"
                     "document_id" (Sql.Str document_id)
              else raise not_text) ;;
     match rows with
     | [] => raise (HTTPException 404 "Document not found or no embedding available")
     | embedding_str :: _ =>
         embedding_vector <- lift (eval_column embedding_str) ;;
         similar_docs <- search_similar_documents env embedding_vector limit threshold ;;
         results <- lift (rmap vector_result similar_docs) ;;
         ret {| s_results := results; s_total_count := Z.of_nat (length results);
                s_search_type := "vector"; s_reference_document_id := document_id |}
     end)
    (fun e =>
       if is_HTTPException e then raise e
       else raise (HTTPException 500 (exn_str e))).

End Routes.

(** The encoder raises no HTTP exception of its own. *)
Definition plain_encoder (env : Env) : Prop :=
  forall text e, encode env text = Raise e -> is_HTTPException e = false.

(** The search types [search_documents] knows. *)
Definition search_types : list string := ["vector"; "fulltext"; "hybrid"].

(** The path [_save_file] writes an upload to in world [w]. *)
Definition saved_path (env : Env) (w : World) (filename : string) : string :=
  PyPath.join upload_dir (uuid4 env (uuids_drawn w) ++ "_" ++ filename).

(** The parameters [_store_document] binds. *)
Definition document_row (document_id filename file_path : string) (file_type : FileType)
    (file_size : Z) (content content_hash : option string) : list (string * Sql.value) :=
  [ ("id", Sql.Str document_id);
    ("filename", Sql.Str filename);
    ("file_path", Sql.Str file_path);
    ("file_type", Sql.Str (FileType_value file_type));
    ("file_size", Sql.Int file_size);
    ("content", opt_str content);
    ("content_hash", opt_str content_hash) ].

(** A store whose [documents] table, if it has one, has no [status]
    column: such is every store that [init_db] created the table in. *)
Definition lacks_status (db : Sql.database) : Prop :=
  forall t, db !! "documents" = Some t -> Sql.has_column t "status" = false.

(** A store with a [status] column and the embedding of [uuid-1]: the
    migrated world after the upload of [a.txt] and its background stage. *)
Definition embedded_world : World :=
  snd (run_background demo_env
         (snd (process_document demo_env (list_byte_of_string "hello") "a.txt"
                 migrated_world))).

Definition demo_eval (s : string) : result (list float) :=
  if String.eqb s "[1.0]" then Ok [1%float]
  else Raise (Exception "invalid syntax").

(* ================================================================== *)
(** * Python values behind [Dict[str, Any]]                             *)
(* ================================================================== *)

(** The values that travel in the dictionaries of the services: what
    [json.loads] builds, what the dictionary literals of the code hold,
    [datetime] objects, and objects of other classes, known by the name
    of their class. *)
Inductive pyval : Type :=
| PNone
| PBool (b : bool)
| PInt (n : Z)
| PFloat (x : float)
| PStr (s : string)
| PList (l : list pyval)
| PDict (d : list (string * pyval))
| PTime (t : datetime)
| PObject (class_name : string).

Module Py.

Definition type_name (v : pyval) : string :=
  match v with
  | PNone => "NoneType"
  | PBool _ => "bool"
  | PInt _ => "int"
  | PFloat _ => "float"
  | PStr _ => "str"
  | PList _ => "list"
  | PDict _ => "dict"
  | PTime _ => "datetime"
  | PObject c => c
  end.

(** The truth value [if v:] tests. *)
Definition truth (v : pyval) : bool :=
  match v with
  | PNone => false
  | PBool b => b
  | PInt n => negb (n =? 0)
  | PFloat x => negb (x =? 0)%float
  | PStr s => negb (String.eqb s "")
  | PList l => match l with [] => false | _ => true end
  | PDict d => match d with [] => false | _ => true end
  | PTime _ => true
  | PObject _ => true
  end.

(** A [dict] keeps its keys in the order they were first bound. *)
Fixpoint lookup (k : string) (d : list (string * pyval)) : option pyval :=
  match d with
  | [] => None
  | (k', v) :: d' => if String.eqb k k' then Some v else lookup k d'
  end.

(** [d[k] = v]. *)
Fixpoint set (k : string) (v : pyval) (d : list (string * pyval)) : list (string * pyval) :=
  match d with
  | [] => [(k, v)]
  | (k', v') :: d' => if String.eqb k k' then (k, v) :: d' else (k', v') :: set k v d'
  end.

(** [needle in hay] on strings. *)
Fixpoint contains (needle hay : string) : bool :=
  String.prefix needle hay
  || match hay with
     | EmptyString => false
     | String _ hay' => contains needle hay'
     end.

(** [key in v]. *)
Definition has (key : string) (v : pyval) : result bool :=
  match v with
  | PDict d => Ok (is_some (lookup key d))
  | PList l => Ok (existsb (fun x => match x with PStr s => String.eqb s key | _ => false end) l)
  | PStr s => Ok (contains key s)
  | _ => Raise (TypeError ("argument of type '" ++ type_name v ++ "' is not iterable"))
  end.

(** [v[key]]; a missing key raises [KeyError], an exception like any
    other for the handlers of the code. *)
Definition getitem (v : pyval) (key : string) : result pyval :=
  match v with
  | PDict d =>
      match lookup key d with
      | Some x => Ok x
      | None => Raise (Exception ("'" ++ key ++ "'"))
      end
  | PList _ => Raise (TypeError "list indices must be integers or slices, not str")
  | PStr _ => Raise (TypeError "string indices must be integers, not 'str'")
  | _ => Raise (TypeError ("'" ++ type_name v ++ "' object is not subscriptable"))
  end.

(** [v.get(key, default)]. *)
Definition get (v : pyval) (key : string) (default : pyval) : result pyval :=
  match v with
  | PDict d => Ok (match lookup key d with Some x => x | None => default end)
  | _ => Raise (AttributeError ("'" ++ type_name v ++ "' object has no attribute 'get'"))
  end.

(** [v.lower()]. *)
Definition lower (v : pyval) : result string :=
  match v with
  | PStr s => Ok (PyStr.lower s)
  | _ => Raise (AttributeError ("'" ++ type_name v ++ "' object has no attribute 'lower'"))
  end.

(** [v[:n]]. *)
Definition slice_to (n : Z) (v : pyval) : result pyval :=
  match v with
  | PList l => Ok (PList (slice_to n l))
  | PStr s => Ok (PStr (string_of_list_ascii (slice_to n (list_ascii_of_string s))))
  | PDict _ => Raise (TypeError "unhashable type: 'slice'")
  | _ => Raise (TypeError ("'" ++ type_name v ++ "' object is not subscriptable"))
  end.

Fixpoint strings (l : list pyval) : result (list string) :=
  match l with
  | [] => Ok []
  | PStr s :: l' =>
      match strings l' with
      | Ok ss => Ok (s :: ss)
      | Raise e => Raise e
      end
  | v :: _ =>
      Raise (TypeError ("sequence item: expected str instance, " ++ type_name v ++ " found"))
  end.

(** [sep.join(v)]: the items of a list must be strings, a string is
    joined character by character, a dictionary key by key. *)
Definition join (sep : string) (v : pyval) : result string :=
  match v with
  | PList l => rbind (strings l) (fun ss => Ok (PyStr.join sep ss))
  | PStr s =>
      Ok (PyStr.join sep (map (fun c => String c EmptyString) (list_ascii_of_string s)))
  | PDict d => Ok (PyStr.join sep (map fst d))
  | _ => Raise (TypeError "can only join an iterable")
  end.

(** What [json.dumps] can serialise: everything but [datetime] objects
    and objects of other classes. *)
Fixpoint serializable (v : pyval) : bool :=
  match v with
  | PList l => forallb serializable l
  | PDict d => forallb (fun kv => serializable (snd kv)) d
  | PTime _ | PObject _ => false
  | _ => true
  end.

(** [try: body / except Exception as e: handler], without a world. *)
Definition try {A} (body : result A) (handler : exn -> result A) : result A :=
  match body with
  | Ok a => Ok a
  | Raise e => handler e
  end.

End Py.

(** [s[:n] + "..." if len(s) > n else s], for a text whose characters
    are single bytes: the length and the cut count bytes. *)
Definition truncate (n : nat) (s : string) : string :=
  if (n <? String.length s)%nat then String.substring 0 n s ++ "..." else s.

(** [s or ""] on a content. *)
Definition or_empty (s : option string) : string :=
  match s with Some x => x | None => "" end.

(* ================================================================== *)
(** * Further collaborators                                             *)
(* ================================================================== *)

(** A call of [client.chat.completions.create]: the system message, the
    user message and [max_tokens]; the model is ["gpt-4"] and the
    temperature 0.3 in every call. *)
Record ChatRequest : Type := {
  cr_system : string;
  cr_prompt : string;
  cr_max_tokens : Z;
}.

(** What the services consume as black boxes besides [Env]: the
    chat-completion API (the content of the first choice, which may be
    [None], or what the call raises), the JSON parser ([None] stands for
    [JSONDecodeError]) and printer, the text of a value and of a float in
    an f-string, the two renderings of a [datetime], the texts of the
    prompts around their holes, the settings of Slack, the Slack client
    (posting to a channel for a workflow) and the HTTP client (the status
    code, or what the request or [raise_for_status] raises). *)
Record Services : Type := {
  chat : ChatRequest -> result (option string);
  json_loads : string -> option pyval;
  json_text : pyval -> string;
  repr : pyval -> string;
  float_str : float -> string;
  isoformat : datetime -> string;
  datetime_str : datetime -> string;
  analysis_prompt : string -> string -> string;
  comparison_prompt : string -> string;
  summary_prompt : string -> string -> string -> string;
  insights_prompt : string -> string;
  SLACK_BOT_TOKEN : option string;
  SLACK_CHANNEL_ID : option string;
  GOOGLE_CALENDAR_CREDENTIALS : option string;
  slack_import : result unit;
  google_import : result unit;
  chat_postMessage : string -> string -> string -> result unit;
  http_post : string -> pyval -> result Z;
}.

Section Formatting.

Context (svc : Services).

(** [json.dumps(v)]. *)
Definition json_dumps (v : pyval) : result string :=
  if Py.serializable v then Ok (json_text svc v)
  else Raise (TypeError "Object is not JSON serializable").

(** A value in an f-string: a string stands for itself. *)
Definition format (v : pyval) : string :=
  match v with
  | PStr s => s
  | _ => repr svc v
  end.

End Formatting.

(* ================================================================== *)
(** * The two workflow tables of [init_db] (database.py)                *)
(* ================================================================== *)

Definition workflow_executions_columns : list Sql.column :=
  [ Sql.col "id" (Sql.Varchar 36) true;
    Sql.col "workflow_name" (Sql.Varchar 100) true;
    {| Sql.c_name := "document_id"; Sql.c_type := Sql.Varchar 36; Sql.c_not_null := false;
       Sql.c_default := Sql.NoDefault; Sql.c_on_update_now := false;
       Sql.c_references := Some "documents" |};
    Sql.col "status" (Sql.Enum ["pending"; "running"; "completed"; "failed"]) true;
    Sql.col "input_data" Sql.Json false;
    Sql.col "output_data" Sql.Json false;
    Sql.col "error_message" Sql.Text false;
    {| Sql.c_name := "started_at"; Sql.c_type := Sql.Timestamp; Sql.c_not_null := false;
       Sql.c_default := Sql.CurrentTimestamp; Sql.c_on_update_now := false;
       Sql.c_references := None |};
    Sql.col "completed_at" Sql.Timestamp false;
    Sql.col "execution_time_ms" Sql.IntT false ].

Definition external_actions_columns : list Sql.column :=
  [ Sql.col "id" (Sql.Varchar 36) true;
    {| Sql.c_name := "workflow_execution_id"; Sql.c_type := Sql.Varchar 36;
       Sql.c_not_null := true; Sql.c_default := Sql.NoDefault; Sql.c_on_update_now := false;
       Sql.c_references := Some "workflow_executions" |};
    Sql.col "action_type"
      (Sql.Enum ["slack_notification"; "calendar_event"; "email"; "webhook"]) true;
    Sql.col "action_data" Sql.Json true;
    Sql.col "status" (Sql.Enum ["pending"; "sent"; "failed"]) true;
    Sql.col "response_data" Sql.Json false;
    {| Sql.c_name := "created_at"; Sql.c_type := Sql.Timestamp; Sql.c_not_null := false;
       Sql.c_default := Sql.CurrentTimestamp; Sql.c_on_update_now := false;
       Sql.c_references := None |};
    Sql.col "executed_at" Sql.Timestamp false ].

(** The fourth and fifth statement of [init_db]. *)
Definition init_db_workflows (db : Sql.database) : Sql.database :=
  Sql.create_table_if_not_exists "external_actions" external_actions_columns
    (Sql.create_table_if_not_exists "workflow_executions" workflow_executions_columns db).

(** [init_db] in full: its five statements in their order, on a store
    where each of them succeeds, as on an empty store.  (A statement
    whose FOREIGN KEY cannot reference a table that exists already is
    refused by the store; that case is left out.) *)
Definition init_db_all (db : Sql.database) : Sql.database :=
  init_db_workflows (init_db db).

(** [UPDATE name SET assignments WHERE id = key], where an assigned value
    may be computed from the row. *)
Definition updated_by (now : datetime) (sets : list (string * (gmap string Sql.value -> Sql.value)))
    (t : Sql.table) (r : gmap string Sql.value) : gmap string Sql.value :=
  fold_right (fun c r' =>
    match List.find (fun kv => String.eqb (fst kv) (Sql.c_name c)) sets with
    | Some kv => <[Sql.c_name c := snd kv r]> r'
    | None => if Sql.c_on_update_now c then <[Sql.c_name c := Sql.Time now]> r' else r'
    end) r (Sql.t_columns t).

Definition update_by (now : datetime) (name : string)
    (sets : list (string * (gmap string Sql.value -> Sql.value))) (key : Sql.value)
    (db : gmap string Sql.table) : result (gmap string Sql.table) :=
  match db !! name with
  | None => Raise (DatabaseError ("Table '" ++ name ++ "' doesn't exist"))
  | Some t =>
      match List.find (fun kv => negb (Sql.has_column t (fst kv))) sets with
      | Some kv => Raise (DatabaseError ("Unknown column '" ++ fst kv ++ "' in 'field list'"))
      | None =>
          let hit := fun r => Sql.value_eqb (Sql.field "id" r) key in
          if negb (forallb (fun r =>
               forallb (fun c =>
                 match List.find (fun kv => String.eqb (fst kv) (Sql.c_name c)) sets with
                 | Some kv => Sql.fits c (snd kv r)
                 | None => true
                 end) (Sql.t_columns t)) (List.filter hit (Sql.t_rows t)))
          then Raise (DatabaseError "Incorrect value for column")
          else Ok (<[name := {| Sql.t_columns := Sql.t_columns t;
                                Sql.t_rows := map (fun r => if hit r
                                                            then updated_by now sets t r else r)
                                              (Sql.t_rows t) |}]> db)
      end
  end.

Definition session_update_by (name : string)
    (sets : list (string * (gmap string Sql.value -> Sql.value))) (key : Sql.value) : M unit :=
  fun w =>
    if store_up w then
      match update_by (clock w) name sets key (pending w) with
      | Ok db => (Ok tt, with_pending db w)
      | Raise e => (Raise e, w)
      end
    else (Raise unreachable, w).

(** [SELECT ... FROM name WHERE key_column = key]: the rows, whole. *)
Definition select_rows (columns : list string) (name key_column : string) (key : Sql.value)
    (db : gmap string Sql.table) : result (list (gmap string Sql.value)) :=
  match db !! name with
  | None => Raise (DatabaseError ("Table '" ++ name ++ "' doesn't exist"))
  | Some t =>
      match List.find (fun c => negb (Sql.has_column t c)) columns with
      | Some c => Raise (DatabaseError ("Unknown column '" ++ c ++ "' in 'field list'"))
      | None =>
          if negb (Sql.has_column t key_column)
          then Raise (DatabaseError ("Unknown column '" ++ key_column ++ "' in 'where clause'"))
          else Ok (List.filter (fun r => Sql.value_eqb (Sql.field key_column r) key)
                     (Sql.t_rows t))
      end
  end.

Definition session_select_rows (columns : list string) (name key_column : string)
    (key : Sql.value) : M (list (gmap string Sql.value)) :=
  fun w =>
    if store_up w then (select_rows columns name key_column key (pending w), w)
    else (Raise unreachable, w).

(* ================================================================== *)
(** * The analyzer (ai_analyzer.py)                                     *)
(* ================================================================== *)

Definition error_dict (message : string) : pyval := PDict [("error", PStr message)].

(** [x or y or 0] on the two scores of a result, as the f-string shows
    it. *)
Definition shown_score (svc : Services) (r : DocumentSearchResult) : string :=
  match similarity_score r with
  | Some x => if (x =? 0)%float
              then match relevance_score r with
                   | Some y => if (y =? 0)%float then "0" else float_str svc y
                   | None => "0"
                   end
              else float_str svc x
  | None => match relevance_score r with
            | Some y => if (y =? 0)%float then "0" else float_str svc y
            | None => "0"
            end
  end.

Definition analysis_types : list string := ["general"; "legal"; "financial"; "technical"].

Definition summary_prompts : list (string * string) :=
  [ ("executive",
     "Provide an executive summary highlighting key points, decisions, and action items.");
    ("detailed",
     "Provide a detailed summary covering all major topics, findings, and implications.");
    ("actionable", "Focus on actionable insights, next steps, and recommendations.");
    ("technical",
     "Provide a technical summary focusing on technical details, specifications, and requirements.") ].

Fixpoint assoc (k : string) (l : list (string * string)) : option string :=
  match l with
  | [] => None
  | (k', v) :: l' => if String.eqb k k' then Some v else assoc k l'
  end.

(** [enumerate(l)], counted from [i]. *)
Fixpoint enumerate_from {A} (i : nat) (l : list A) : list (nat * A) :=
  match l with
  | [] => []
  | x :: l' => (i, x) :: enumerate_from (S i) l'
  end.

Module Analyzer.

Section Methods.

Context (svc : Services).

(** The tail shared by the four methods: the answer is parsed, an answer
    that is no JSON is returned raw under [raw_key], and an answer
    without content is no input for the parser. *)
Definition parsed_answer (raw_key : string) (request : ChatRequest) : result pyval :=
  rbind (chat svc request) (fun answer =>
    match answer with
    | None => Raise (TypeError "the JSON object must be str, bytes or bytearray, not NoneType")
    | Some text =>
        match json_loads svc text with
        | Some value => Ok value
        | None => Ok (PDict [(raw_key, PStr text)])
        end
    end).

Definition analyze_document_content (content : option string) (analysis_type : string)
    : result pyval :=
  Py.try
    (if negb (truthy content) then Ok (error_dict "No content to analyze")
     else
       let max_tokens := 8000%nat in
       let content := truncate (max_tokens * 4) (or_empty content) in
       let prompt :=
         if str_in analysis_type analysis_types
         then analysis_prompt svc analysis_type content
         else analysis_prompt svc "general" content in
       parsed_answer "raw_analysis"
         {| cr_system := "You are an expert document analyst. Provide accurate, detailed analysis in the requested JSON format.";
            cr_prompt := prompt; cr_max_tokens := 2000 |})
    (fun e => Ok (error_dict ("Analysis failed: " ++ exn_str e))).

Definition compare_documents (documents : list DocumentSearchResult) : result pyval :=
  Py.try
    (if (length documents <? 2)%nat then Ok (error_dict "Need at least 2 documents to compare")
     else
       let doc_contents :=
         map (fun id => "Document " ++ nat_str (fst id + 1) ++ " (" ++ r_filename (snd id)
                        ++ "): " ++ truncate 1000 (or_empty (r_content (snd id))))
             (enumerate_from 0 (slice_to 5 documents)) in
       let comparison_text := PyStr.join (PyStr.newline ++ PyStr.newline) doc_contents in
       parsed_answer "raw_comparison"
         {| cr_system := "You are an expert at comparing and analyzing multiple documents.";
            cr_prompt := comparison_prompt svc comparison_text; cr_max_tokens := 1500 |})
    (fun e => Ok (error_dict ("Comparison failed: " ++ exn_str e))).

Definition generate_summary (documents : list DocumentSearchResult) (summary_type : string)
    : result pyval :=
  Py.try
    (match documents with
     | [] => Ok (error_dict "No documents to summarize")
     | _ =>
         let all_content :=
           map (fun doc => r_filename doc ++ ": " ++ truncate 500 (or_empty (r_content doc)))
               (slice_to 10 documents) in
         let content_text := PyStr.join (PyStr.newline ++ PyStr.newline) all_content in
         let prompt_type :=
           match assoc summary_type summary_prompts with
           | Some p => p
           | None => "Provide an executive summary highlighting key points, decisions, and action items."
           end in
         parsed_answer "raw_summary"
           {| cr_system := "You are an expert at creating clear, concise summaries.";
              cr_prompt := summary_prompt svc summary_type content_text prompt_type;
              cr_max_tokens := 1500 |}
     end)
    (fun e => Ok (error_dict ("Summary generation failed: " ++ exn_str e))).

Definition extract_insights (search_results : list DocumentSearchResult) : result pyval :=
  Py.try
    (match search_results with
     | [] => Ok (error_dict "No search results to analyze")
     | _ =>
         let content_samples :=
           map (fun r => "Score: " ++ shown_score svc r ++ " - "
                         ++ truncate 300 (or_empty (r_content r)))
               (slice_to 5 search_results) in
         let analysis_text := PyStr.join (PyStr.newline ++ PyStr.newline) content_samples in
         parsed_answer "raw_insights"
           {| cr_system := "You are an expert at analyzing search results and extracting meaningful insights.";
              cr_prompt := insights_prompt svc analysis_text; cr_max_tokens := 1000 |}
     end)
    (fun e => Ok (error_dict ("Insight extraction failed: " ++ exn_str e))).

End Methods.

End Analyzer.

(* ================================================================== *)
(** * External actions (external_actions.py)                            *)
(* ================================================================== *)

(** The two clients of the service: the Slack client, known by its
    token, and the calendar service. *)
Record ExternalActionService : Type := {
  slack_client : option string;
  calendar_service : option unit;
}.

(** [a or b or c] on optional strings. *)
Definition or_else (a : option string) (b : string) : string :=
  if truthy a then or_empty a else b.

Section ExternalActions.

Context (env : Env) (svc : Services).

(** [ExternalActionService()]: both clients start as [None]; a token
    gives a Slack client unless the import raises; credentials assign
    [None] to the calendar service again. *)
Definition _initialize_clients : M ExternalActionService :=
  slack <- try_except
             (if truthy (SLACK_BOT_TOKEN svc)
              then lift (slack_import svc) ;;; ret (SLACK_BOT_TOKEN svc)
              else ret None)
             (fun e => print ("Failed to initialize Slack client: " ++ exn_str e) ;;; ret None) ;;
  calendar <- try_except
                (if truthy (GOOGLE_CALENDAR_CREDENTIALS svc)
                 then lift (google_import svc) ;;; ret None
                 else ret None)
                (fun e => print ("Failed to initialize Google Calendar client: " ++ exn_str e) ;;;
                          ret None) ;;
  ret {| slack_client := slack; calendar_service := calendar |}.

Definition _log_external_action (action_id workflow_id action_type : string)
    (action_data response_data : pyval) : M unit :=
  try_except
    (success <- lift (Py.get response_data "success" (PBool false)) ;;
     let status := if Py.truth success then "sent" else "failed" in
     action_json <- lift (json_dumps svc action_data) ;;
     response_json <- lift (json_dumps svc response_data) ;;
     session_insert "external_actions"
       [ ("id", Sql.Str action_id);
         ("workflow_execution_id", Sql.Str workflow_id);
         ("action_type", Sql.Str action_type);
         ("action_data", Sql.Str action_json);
         ("status", Sql.Str status);
         ("response_data", Sql.Str response_json) ] ;;;
     session_commit)
    (fun e => print ("Failed to log external action: " ++ exn_str e)).

Definition send_slack_notification (self : ExternalActionService)
    (message workflow_id : string) (channel : option string) : M pyval :=
  action_id <- new_uuid env ;;
  let target_channel := or_else channel (or_else (SLACK_CHANNEL_ID svc) "#general") in
  try_except
    (match slack_client self with
     | Some _ =>
         lift (chat_postMessage svc target_channel message workflow_id) ;;;
         _log_external_action action_id workflow_id "slack_notification"
           (PDict [("channel", PStr target_channel); ("message", PStr message)])
           (PDict [("success", PBool true); ("response", PObject "SlackResponse")]) ;;;
         ret (PDict [ ("action_id", PStr action_id); ("type", PStr "slack_notification");
                      ("status", PStr "sent"); ("channel", PStr target_channel);
                      ("message", PStr message) ])
     | None =>
         print ("[SLACK] " ++ target_channel ++ ": " ++ message) ;;;
         _log_external_action action_id workflow_id "slack_notification"
           (PDict [("channel", PStr target_channel); ("message", PStr message)])
           (PDict [("success", PBool true); ("mock", PBool true)]) ;;;
         ret (PDict [ ("action_id", PStr action_id); ("type", PStr "slack_notification");
                      ("status", PStr "sent"); ("channel", PStr target_channel);
                      ("message", PStr message); ("mock", PBool true) ])
     end)
    (fun e =>
       _log_external_action action_id workflow_id "slack_notification"
         (PDict [("channel", PStr target_channel); ("message", PStr message)])
         (PDict [("success", PBool false); ("error", PStr (exn_str e))]) ;;;
       ret (PDict [ ("action_id", PStr action_id); ("type", PStr "slack_notification");
                    ("status", PStr "failed"); ("error", PStr (exn_str e)) ])).

Definition create_calendar_event (self : ExternalActionService)
    (title description workflow_id : string) (start_time : option datetime)
    (duration_minutes : Z) : M pyval :=
  action_id <- new_uuid env ;;
  try_except
    (start_time <- match start_time with
                   | Some t => ret t
                   | None => (t <- now ;; ret (t + 3600))
                   end ;;
     let end_time := start_time + duration_minutes * 60 in
     match calendar_service self with
     | Some _ =>
         let event_id := "mock_event_" ++ action_id in
         _log_external_action action_id workflow_id "calendar_event"
           (PDict [ ("title", PStr title); ("description", PStr description);
                    ("start_time", PStr (isoformat svc start_time)) ])
           (PDict [("success", PBool true); ("event_id", PStr event_id)]) ;;;
         ret (PDict [ ("action_id", PStr action_id); ("type", PStr "calendar_event");
                      ("status", PStr "created"); ("event_id", PStr event_id);
                      ("title", PStr title);
                      ("start_time", PStr (isoformat svc start_time));
                      ("end_time", PStr (isoformat svc end_time)) ])
     | None =>
         print ("[CALENDAR] Event created: " ++ title ++ " at " ++ datetime_str svc start_time) ;;;
         _log_external_action action_id workflow_id "calendar_event"
           (PDict [ ("title", PStr title); ("description", PStr description);
                    ("start_time", PStr (isoformat svc start_time)) ])
           (PDict [("success", PBool true); ("mock", PBool true)]) ;;;
         ret (PDict [ ("action_id", PStr action_id); ("type", PStr "calendar_event");
                      ("status", PStr "created"); ("title", PStr title);
                      ("start_time", PStr (isoformat svc start_time));
                      ("end_time", PStr (isoformat svc end_time)); ("mock", PBool true) ])
     end)
    (fun e =>
       _log_external_action action_id workflow_id "calendar_event"
         (PDict [("title", PStr title); ("description", PStr description)])
         (PDict [("success", PBool false); ("error", PStr (exn_str e))]) ;;;
       ret (PDict [ ("action_id", PStr action_id); ("type", PStr "calendar_event");
                    ("status", PStr "failed"); ("error", PStr (exn_str e)) ])).

Definition send_email_notification (to_email subject body workflow_id : string) : M pyval :=
  action_id <- new_uuid env ;;
  try_except
    (print ("[EMAIL] To: " ++ to_email ++ ", Subject: " ++ subject) ;;;
     print ("[EMAIL] Body: " ++ body) ;;;
     _log_external_action action_id workflow_id "email"
       (PDict [("to_email", PStr to_email); ("subject", PStr subject); ("body", PStr body)])
       (PDict [("success", PBool true); ("mock", PBool true)]) ;;;
     ret (PDict [ ("action_id", PStr action_id); ("type", PStr "email");
                  ("status", PStr "sent"); ("to_email", PStr to_email);
                  ("subject", PStr subject); ("mock", PBool true) ]))
    (fun e =>
       _log_external_action action_id workflow_id "email"
         (PDict [("to_email", PStr to_email); ("subject", PStr subject); ("body", PStr body)])
         (PDict [("success", PBool false); ("error", PStr (exn_str e))]) ;;;
       ret (PDict [ ("action_id", PStr action_id); ("type", PStr "email");
                    ("status", PStr "failed"); ("error", PStr (exn_str e)) ])).

Definition trigger_webhook (webhook_url : string) (payload : pyval) (workflow_id : string)
    : M pyval :=
  action_id <- new_uuid env ;;
  try_except
    (status_code <- lift (http_post svc webhook_url payload) ;;
     _log_external_action action_id workflow_id "webhook"
       (PDict [("webhook_url", PStr webhook_url); ("payload", payload)])
       (PDict [("success", PBool true); ("status_code", PInt status_code)]) ;;;
     ret (PDict [ ("action_id", PStr action_id); ("type", PStr "webhook");
                  ("status", PStr "triggered"); ("webhook_url", PStr webhook_url);
                  ("status_code", PInt status_code) ]))
    (fun e =>
       _log_external_action action_id workflow_id "webhook"
         (PDict [("webhook_url", PStr webhook_url); ("payload", payload)])
         (PDict [("success", PBool false); ("error", PStr (exn_str e))]) ;;;
       ret (PDict [ ("action_id", PStr action_id); ("type", PStr "webhook");
                    ("status", PStr "failed"); ("error", PStr (exn_str e)) ])).

End ExternalActions.

(** A fetched column as a Python value. *)
Definition column_value (v : Sql.value) : pyval :=
  match v with
  | Sql.Null => PNone
  | Sql.Str s => PStr s
  | Sql.Int n => PInt n
  | Sql.Time t => PTime t
  end.

(** [json.loads(v) if v else otherwise] on a fetched column. *)
Definition loads_or (svc : Services) (otherwise : pyval) (v : Sql.value) : result pyval :=
  match v with
  | Sql.Str s =>
      if String.eqb s "" then Ok otherwise
      else match json_loads svc s with
           | Some x => Ok x
           | None => Raise (ValueError "Expecting value")
           end
  | Sql.Null => Ok otherwise
  | Sql.Int n =>
      if n =? 0 then Ok otherwise
      else Raise (TypeError "the JSON object must be str, bytes or bytearray, not int")
  | Sql.Time _ =>
      Raise (TypeError "the JSON object must be str, bytes or bytearray, not datetime")
  end.

Definition get_action_status (svc : Services) (action_id : string) : M (option pyval) :=
  try_except
    (rows <- session_select_rows
               ["action_type"; "action_data"; "status"; "response_data"; "created_at";
                "executed_at"]
               "external_actions" "id" (Sql.Str action_id) ;;
     match rows with
     | row :: _ =>
         action_data <- lift (loads_or svc (PDict []) (Sql.field "action_data" row)) ;;
         response_data <- lift (loads_or svc (PDict []) (Sql.field "response_data" row)) ;;
         ret (Some (PDict [ ("action_id", PStr action_id);
                            ("action_type", column_value (Sql.field "action_type" row));
                            ("action_data", action_data);
                            ("status", column_value (Sql.field "status" row));
                            ("response_data", response_data);
                            ("created_at", column_value (Sql.field "created_at" row));
                            ("executed_at", column_value (Sql.field "executed_at" row)) ]))
     | [] => ret None
     end)
    (fun e => print ("Failed to get action status: " ++ exn_str e) ;;; ret None).

(* ================================================================== *)
(** * The orchestrator (workflow_orchestrator.py)                       *)
(* ================================================================== *)

Definition legal_keywords : list string := ["contract"; "agreement"; "legal"; "policy"].
Definition financial_keywords : list string := ["invoice"; "receipt"; "financial"; "budget"].
Definition urgent_keywords : list string :=
  ["urgent"; "immediate"; "asap"; "deadline"; "critical"].

(** [any(keyword in text for keyword in keywords)]. *)
Definition any_in (keywords : list string) (text : string) : bool :=
  existsb (fun keyword => Py.contains keyword text) keywords.

(** [content.lower()] on what [get_document_content] returned. *)
Definition content_lower (content : option string) : result string :=
  match content with
  | Some c => Ok (PyStr.lower c)
  | None => Raise (AttributeError "'NoneType' object has no attribute 'lower'")
  end.

Definition _determine_routing (analysis : pyval) (content : option string)
    : result (list (string * pyval)) :=
  let routing_decision :=
    [ ("requires_legal_review", PBool false);
      ("requires_financial_review", PBool false);
      ("create_calendar_event", PBool false);
      ("priority", PStr "normal") ] in
  rbind (Py.get analysis "document_type" (PStr "")) (fun document_type =>
  rbind (Py.lower document_type) (fun doc_type =>
  let routing_decision :=
    if any_in legal_keywords doc_type
    then Py.set "priority" (PStr "high")
           (Py.set "requires_legal_review" (PBool true) routing_decision)
    else routing_decision in
  let routing_decision :=
    if any_in financial_keywords doc_type
    then Py.set "requires_financial_review" (PBool true) routing_decision
    else routing_decision in
  rbind (content_lower content) (fun lowered =>
  Ok (if any_in urgent_keywords lowered
      then Py.set "create_calendar_event" (PBool true)
             (Py.set "priority" (PStr "urgent") routing_decision)
      else routing_decision)))).

(** The loop over document ids that the batch workflow and two routes
    of analysis.py share: the content of each document is fetched, and a
    document with content becomes a result built with [created_at=None]. *)
Fixpoint documents_with_content (document_ids : list string)
    : M (list DocumentSearchResult) :=
  match document_ids with
  | [] => ret []
  | doc_id :: rest =>
      content <- get_document_content doc_id ;;
      if truthy content
      then doc_result <- lift (new_DocumentSearchResult doc_id
                                 ("Document " ++ String.substring 0 8 doc_id)
                                 content None None None) ;;
           documents <- documents_with_content rest ;;
           ret (doc_result :: documents)
      else documents_with_content rest
  end.

(** The request model of the route, whose [dict()] the orchestrator is
    given. *)
Record WorkflowConfig : Type := {
  enable_ai_analysis : bool;
  analysis_type : string;
  enable_notifications : bool;
  notification_channels : list string;
}.

(** What the four workflows return: the keys [workflow_id] and [status],
    the document and the search results when the workflow has them, and
    the other keys. *)
Record WorkflowResult : Type := {
  wr_workflow_id : string;
  wr_status : string;
  wr_document : option DocumentResponse;
  wr_search_results : list DocumentSearchResult;
  wr_fields : list (string * pyval);
}.

(** A coroutine that may wait: [None] when the fuel of a wait ran out. *)
Definition W (A : Type) : Type := World -> option (result A * World).

Definition wait_free {A} (m : M A) : W A := fun w => Some (m w).

Definition wbind {A B} (m : W A) (k : A -> W B) : W B :=
  fun w => match m w with
           | Some (Ok a, w') => k a w'
           | Some (Raise e, w') => Some (Raise e, w')
           | None => None
           end.

(** [try: body / except Exception as e: handler(e); raise]. *)
Definition reraise_after {A} (body : W A) (handler : exn -> M unit) : W A :=
  fun w => match body w with
           | Some (Ok a, w') => Some (Ok a, w')
           | Some (Raise e, w') =>
               match handler e w' with
               | (Ok _, w'') => Some (Raise e, w'')
               | (Raise e', w'') => Some (Raise e', w'')
               end
           | None => None
           end.

Declare Scope wait_scope.
Delimit Scope wait_scope with wait.
Notation "x <~ m ;; k" := (wbind m (fun x => k))
  (at level 100, m at next level, right associativity) : wait_scope.
Notation "m ~;; k" := (wbind m (fun _ => k))
  (at level 100, right associativity) : wait_scope.

(** [TIMESTAMPDIFF(MICROSECOND, started_at, CURRENT_TIMESTAMP) / 1000]
    on the clock of the store, which counts whole seconds. *)
Definition elapsed_ms (now : datetime) (row : gmap string Sql.value) : Sql.value :=
  match Sql.field "started_at" row with
  | Sql.Time started => Sql.Int ((now - started) * 1000000 / 1000)
  | _ => Sql.Null
  end.

Module Orchestrator.

Section Workflows.

Context (env : Env) (svc : Services) (external_actions : ExternalActionService).

Definition _log_workflow_start (workflow_id workflow_name : string) : M unit :=
  (fun w =>
     session_insert "workflow_executions"
       [ ("id", Sql.Str workflow_id);
         ("workflow_name", Sql.Str workflow_name);
         ("status", Sql.Str "running");
         ("started_at", Sql.Time (clock w)) ] w) ;;;
  session_commit.

Definition _log_workflow_completion (workflow_id status : string) (output_data : pyval)
    : M unit :=
  output_json <- lift (json_dumps svc output_data) ;;
  (fun w =>
     session_update_by "workflow_executions"
       [ ("status", fun _ => Sql.Str status);
         ("output_data", fun _ => Sql.Str output_json);
         ("completed_at", fun _ => Sql.Time (clock w));
         ("execution_time_ms", elapsed_ms (clock w)) ]
       (Sql.Str workflow_id) w) ;;;
  session_commit.

(** The handler shared by the four workflows. *)
Definition log_failure (workflow_id : string) (e : exn) : M unit :=
  _log_workflow_completion workflow_id "failed" (PDict [("error", PStr (exn_str e))]).

(** The default [timeout] of [_wait_for_processing]. *)
Definition wait (fuel : nat) (document_id : string) : W DocumentStatus :=
  _wait_for_processing env fuel document_id 60.

Definition execute_document_processing_workflow (fuel : nat) (file_content : bytes)
    (filename : string) (workflow_config : option WorkflowConfig) : W WorkflowResult :=
  (workflow_id <~ wait_free (new_uuid env) ;;
   reraise_after
     (wait_free (_log_workflow_start workflow_id "document_processing") ~;;
      document <~ wait_free (process_document env file_content filename) ;;
      wait fuel (d_id document) ~;;
      content <~ wait_free (get_document_content (d_id document)) ;;
      analysis_result <~ wait_free
        (match workflow_config with
         | Some config =>
             if enable_ai_analysis config
             then lift (Analyzer.analyze_document_content svc content (analysis_type config))
             else ret PNone
         | None => ret PNone
         end) ;;
      external <~ wait_free
        (match workflow_config with
         | Some config =>
             if enable_notifications config
             then
               notification_text <-
                 (if Py.truth analysis_result
                  then
                    has_summary <- lift (Py.has "summary" analysis_result) ;;
                    if has_summary : bool
                    then summary <- lift (Py.getitem analysis_result "summary") ;;
                         ret ("New document processed: " ++ filename ++ PyStr.newline
                              ++ PyStr.newline ++ "Summary: " ++ format svc summary)
                    else ret ("New document processed: " ++ filename)
                  else ret ("New document processed: " ++ filename)) ;;
               slack_result <- send_slack_notification env svc external_actions
                                 notification_text workflow_id None ;;
               ret [slack_result]
             else ret []
         | None => ret []
         end) ;;
      wait_free (_log_workflow_completion workflow_id "completed"
                   (PDict [ ("document_id", PStr (d_id document));
                            ("analysis_result", analysis_result);
                            ("external_actions", PList external) ])) ~;;
      wait_free (ret {| wr_workflow_id := workflow_id; wr_status := "completed";
                        wr_document := Some document; wr_search_results := [];
                        wr_fields := [ ("analysis", analysis_result);
                                       ("external_actions", PList external) ] |}))
     (log_failure workflow_id))%wait.

(** The three branches of [execute_search_and_analyze_workflow]; any
    other search type searches nothing. *)
Definition workflow_search (query search_type : string) : M (list DocumentSearchResult) :=
  if String.eqb search_type "vector" then _vector_search env query 10 0.7
  else if String.eqb search_type "fulltext" then _fulltext_search env query 10
  else if String.eqb search_type "hybrid" then _hybrid_search env query 10 0.7
  else ret [].

(** [', '.join(d[key][:n])] when [d] is truthy and holds [key], the empty
    text otherwise; [label] goes before the joined text. *)
Definition joined_items (label : string) (d : pyval) (key : string) (n : Z)
    : result string :=
  if Py.truth d
  then rbind (Py.has key d) (fun present =>
         if present : bool
         then rbind (Py.getitem d key) (fun items =>
              rbind (Py.slice_to n items) (fun first =>
              rbind (Py.join ", " first) (fun text => Ok (label ++ text))))
         else Ok "")
  else Ok "".

Definition execute_search_and_analyze_workflow (query search_type analysis_type : string)
    : W WorkflowResult :=
  (workflow_id <~ wait_free (new_uuid env) ;;
   reraise_after
     (wait_free (_log_workflow_start workflow_id "search_and_analyze") ~;;
      search_results <~ wait_free (workflow_search query search_type) ;;
      insights <~ wait_free (lift (Analyzer.extract_insights svc search_results)) ;;
      summary <~ wait_free
        (if (1 <? length search_results)%nat
         then lift (Analyzer.generate_summary svc search_results "executive")
         else ret PNone) ;;
      takeaways <~ wait_free (lift (joined_items "Key insights: " insights "key_takeaways" 3)) ;;
      let notification_text :=
        "Search completed for: '" ++ query ++ "'" ++ PyStr.newline
        ++ "Found " ++ nat_str (length search_results) ++ " documents" ++ PyStr.newline
        ++ takeaways in
      slack_result <~ wait_free (send_slack_notification env svc external_actions
                                   notification_text workflow_id None) ;;
      wait_free (_log_workflow_completion workflow_id "completed"
                   (PDict [ ("query", PStr query);
                            ("search_type", PStr search_type);
                            ("results_count", PInt (Z.of_nat (length search_results)));
                            ("insights", insights);
                            ("summary", summary);
                            ("external_actions", PList [slack_result]) ])) ~;;
      wait_free (ret {| wr_workflow_id := workflow_id; wr_status := "completed";
                        wr_document := None; wr_search_results := search_results;
                        wr_fields := [ ("query", PStr query);
                                       ("insights", insights);
                                       ("summary", summary);
                                       ("external_actions", PList [slack_result]) ] |}))
     (log_failure workflow_id))%wait.

Definition execute_batch_analysis_workflow (document_ids : list string)
    (analysis_type : string) : W WorkflowResult :=
  (workflow_id <~ wait_free (new_uuid env) ;;
   reraise_after
     (wait_free (_log_workflow_start workflow_id "batch_analysis") ~;;
      documents <~ wait_free (documents_with_content document_ids) ;;
      comparison <~ wait_free (lift (Analyzer.compare_documents svc documents)) ;;
      summary <~ wait_free (lift (Analyzer.generate_summary svc documents "executive")) ;;
      summary_line <~ wait_free
        (if Py.truth summary
         then has_summary <- lift (Py.has "summary" summary) ;;
              if has_summary : bool
              then text <- lift (Py.getitem summary "summary") ;;
                   ret ("Summary: " ++ format svc text ++ PyStr.newline)
              else ret ""
         else ret "") ;;
      insights <~ wait_free (lift (joined_items "Key insights: " comparison "insights" 2)) ;;
      let notification_text :=
        "Batch analysis completed for " ++ nat_str (length documents) ++ " documents"
        ++ PyStr.newline ++ summary_line ++ insights in
      slack_result <~ wait_free (send_slack_notification env svc external_actions
                                   notification_text workflow_id None) ;;
      wait_free (_log_workflow_completion workflow_id "completed"
                   (PDict [ ("document_ids", PList (map PStr document_ids));
                            ("analysis_type", PStr analysis_type);
                            ("comparison", comparison);
                            ("summary", summary);
                            ("external_actions", PList [slack_result]) ])) ~;;
      wait_free (ret {| wr_workflow_id := workflow_id; wr_status := "completed";
                        wr_document := None; wr_search_results := [];
                        wr_fields := [ ("document_ids", PList (map PStr document_ids));
                                       ("comparison", comparison);
                                       ("summary", summary);
                                       ("external_actions", PList [slack_result]) ] |}))
     (log_failure workflow_id))%wait.

(** [routing_decision.get(key)] as a condition. *)
Definition decided (routing_decision : list (string * pyval)) (key : string) : bool :=
  match Py.lookup key routing_decision with
  | Some v => Py.truth v
  | None => false
  end.

(** [d.get(key, fallback)] in an f-string. *)
Definition shown (d : pyval) (key fallback : string) : result string :=
  rbind (Py.get d key (PStr fallback)) (fun v => Ok (format svc v)).

Definition execute_intelligent_document_routing_workflow (fuel : nat) (file_content : bytes)
    (filename : string) : W WorkflowResult :=
  (workflow_id <~ wait_free (new_uuid env) ;;
   reraise_after
     (wait_free (_log_workflow_start workflow_id "intelligent_routing") ~;;
      document <~ wait_free (process_document env file_content filename) ;;
      wait fuel (d_id document) ~;;
      content <~ wait_free (get_document_content (d_id document)) ;;
      analysis <~ wait_free (lift (Analyzer.analyze_document_content svc content "general")) ;;
      routing_decision <~ wait_free (lift (_determine_routing analysis content)) ;;
      legal <~ wait_free
        (if decided routing_decision "requires_legal_review"
         then document_type <- lift (shown analysis "document_type" "Unknown") ;;
              notification <- send_slack_notification env svc external_actions
                                ("Legal review required for: " ++ filename ++ PyStr.newline
                                 ++ "Type: " ++ document_type)
                                workflow_id (Some "#legal-team") ;;
              ret [notification]
         else ret []) ;;
      finance <~ wait_free
        (if decided routing_decision "requires_financial_review"
         then amount <- lift (shown (PDict routing_decision) "financial_amount" "N/A") ;;
              notification <- send_slack_notification env svc external_actions
                                ("Financial review required for: " ++ filename
                                 ++ PyStr.newline ++ "Amount: " ++ amount)
                                workflow_id (Some "#finance-team") ;;
              ret [notification]
         else ret []) ;;
      calendar <~ wait_free
        (if decided routing_decision "create_calendar_event"
         then document_type <- lift (shown analysis "document_type" "document") ;;
              event <- create_calendar_event env svc external_actions
                         ("Document Review: " ++ filename)
                         ("Review required for " ++ document_type) workflow_id None 60 ;;
              ret [event]
         else ret []) ;;
      let routing_actions := (legal ++ finance ++ calendar)%list in
      wait_free (_log_workflow_completion workflow_id "completed"
                   (PDict [ ("document_id", PStr (d_id document));
                            ("analysis", analysis);
                            ("routing_decision", PDict routing_decision);
                            ("routing_actions", PList routing_actions) ])) ~;;
      wait_free (ret {| wr_workflow_id := workflow_id; wr_status := "completed";
                        wr_document := Some document; wr_search_results := [];
                        wr_fields := [ ("analysis", analysis);
                                       ("routing_decision", PDict routing_decision);
                                       ("routing_actions", PList routing_actions) ] |}))
     (log_failure workflow_id))%wait.

End Workflows.

End Orchestrator.

(* ================================================================== *)
(** * The analysis routes (analysis.py)                                 *)
(* ================================================================== *)

(** [except HTTPException: raise / except Exception as e: raise
    HTTPException(500, str(e))]. *)
Definition http_errors {A} (body : M A) : M A :=
  try_except body
    (fun e => if is_HTTPException e then raise e
              else raise (HTTPException 500 (exn_str e))).

(** [if "error" in d: raise HTTPException(500, d["error"])]. *)
Definition raise_on_error (svc : Services) (d : pyval) : M unit :=
  failed <- lift (Py.has "error" d) ;;
  if failed : bool
  then message <- lift (Py.getitem d "error") ;;
       raise (HTTPException 500 (format svc message))
  else ret tt.

Module AnalysisRoutes.

Section Routes.

Context (env : Env) (svc : Services).

Definition analyze_document (document_id analysis_type : string) : M pyval :=
  http_errors
    (content <- get_document_content document_id ;;
     if negb (truthy content)
     then raise (HTTPException 404 "Document not found or no content available")
     else
       analysis <- lift (Analyzer.analyze_document_content svc content analysis_type) ;;
       raise_on_error svc analysis ;;;
       ret (PDict [ ("document_id", PStr document_id);
                    ("analysis_type", PStr analysis_type);
                    ("analysis", analysis) ])).

Definition compare_documents (document_ids : list string) (comparison_type : string)
    : M pyval :=
  http_errors
    (if (length document_ids <? 2)%nat
     then raise (HTTPException 400 "Need at least 2 documents to compare")
     else
       documents <- documents_with_content (slice_to 5 document_ids) ;;
       if (length documents <? 2)%nat
       then raise (HTTPException 400 "Not enough documents with content for comparison")
       else
         comparison <- lift (Analyzer.compare_documents svc documents) ;;
         raise_on_error svc comparison ;;;
         ret (PDict [ ("document_ids", PList (map PStr document_ids));
                      ("comparison_type", PStr comparison_type);
                      ("comparison", comparison) ])).

Definition generate_summary (document_ids : list string) (summary_type : string) : M pyval :=
  http_errors
    (match document_ids with
     | [] => raise (HTTPException 400 "No document IDs provided")
     | _ =>
         documents <- documents_with_content (slice_to 10 document_ids) ;;
         match documents with
         | [] => raise (HTTPException 400 "No documents with content found")
         | _ =>
             summary <- lift (Analyzer.generate_summary svc documents summary_type) ;;
             raise_on_error svc summary ;;;
             ret (PDict [ ("document_ids", PList (map PStr document_ids));
                          ("summary_type", PStr summary_type);
                          ("summary", summary) ])
         end
     end).

Definition extract_search_insights (query search_type : string) (limit : Z) : M pyval :=
  http_errors
    (search_results <-
       (if String.eqb search_type "vector" then _vector_search env query limit 0.7
        else if String.eqb search_type "fulltext" then _fulltext_search env query limit
        else if String.eqb search_type "hybrid" then _hybrid_search env query limit 0.7
        else raise (HTTPException 400 "Invalid search type")) ;;
     match search_results with
     | [] =>
         ret (PDict [ ("query", PStr query); ("search_type", PStr search_type);
                      ("insights", PDict [("message", PStr "No search results to analyze")]) ])
     | _ =>
         insights <- lift (Analyzer.extract_insights svc search_results) ;;
         raise_on_error svc insights ;;;
         ret (PDict [ ("query", PStr query); ("search_type", PStr search_type);
                      ("search_results_count", PInt (Z.of_nat (length search_results)));
                      ("insights", insights) ])
     end).

Definition quick_analyze_document (document_id analysis_type : string) : M pyval :=
  http_errors
    (content <- get_document_content document_id ;;
     if negb (truthy content)
     then raise (HTTPException 404 "Document not found or no content available")
     else
       let content := truncate 2000 (or_empty content) in
       analysis <- lift (Analyzer.analyze_document_content svc (Some content) analysis_type) ;;
       raise_on_error svc analysis ;;;
       ret (PDict [ ("document_id", PStr document_id);
                    ("analysis_type", PStr analysis_type);
                    ("content_preview", PStr (truncate 500 content));
                    ("analysis", analysis) ])).

(** One turn of the loop of [batch_analyze_documents], with its own
    [try]. *)
Definition batch_entry (analysis_type doc_id : string) : M pyval :=
  try_except
    (content <- get_document_content doc_id ;;
     if truthy content
     then
       let content := truncate 1500 (or_empty content) in
       analysis <- lift (Analyzer.analyze_document_content svc (Some content) analysis_type) ;;
       ret (PDict [ ("document_id", PStr doc_id); ("status", PStr "success");
                    ("analysis", analysis) ])
     else ret (PDict [ ("document_id", PStr doc_id); ("status", PStr "error");
                       ("error", PStr "No content available") ]))
    (fun e => ret (PDict [ ("document_id", PStr doc_id); ("status", PStr "error");
                           ("error", PStr (exn_str e)) ])).

Fixpoint batch_entries (analysis_type : string) (doc_ids : list string) : M (list pyval) :=
  match doc_ids with
  | [] => ret []
  | doc_id :: rest =>
      entry <- batch_entry analysis_type doc_id ;;
      entries <- batch_entries analysis_type rest ;;
      ret (entry :: entries)
  end.

(** [r["status"] == "success"] on an entry. *)
Definition succeeded (entry : pyval) : bool :=
  match entry with
  | PDict d => match Py.lookup "status" d with
               | Some (PStr s) => String.eqb s "success"
               | _ => false
               end
  | _ => false
  end.

Definition batch_analyze_documents (document_ids analysis_type : string) : M pyval :=
  http_errors
    (let doc_ids := map PyStr.strip (PyStr.split ","%char document_ids) in
     if (10 <? length doc_ids)%nat
     then raise (HTTPException 400 "Maximum 10 documents allowed for batch analysis")
     else
       results <- batch_entries analysis_type doc_ids ;;
       ret (PDict [ ("analysis_type", PStr analysis_type);
                    ("total_documents", PInt (Z.of_nat (length doc_ids)));
                    ("successful_analyses",
                     PInt (Z.of_nat (length (List.filter succeeded results))));
                    ("results", PList results) ])).

End Routes.

End AnalysisRoutes.

(* ================================================================== *)
(** * The workflow routes (workflows.py)                                *)
(* ================================================================== *)

(** What the four workflow routes answer with. *)
Record WorkflowAnswer : Type := {
  wa_message : string;
  wa_workflow_id : string;
  wa_result : WorkflowResult;
}.

(** [try: body / except Exception as e: raise HTTPException(500,
    str(e))], around a coroutine that may wait. *)
Definition answer_500 {A} (body : W A) : W A :=
  fun w => match body w with
           | Some (Raise e, w') => Some (Raise (HTTPException 500 (exn_str e)), w')
           | other => other
           end.

Module WorkflowRoutes.

Section Routes.

Context (env : Env) (svc : Services) (external_actions : ExternalActionService).

Definition execute_document_processing_workflow (fuel : nat) (file_content : bytes)
    (filename : string) (config : option WorkflowConfig) : W WorkflowAnswer :=
  answer_500
    (wbind (Orchestrator.execute_document_processing_workflow env svc external_actions fuel
              file_content filename config)
       (fun result =>
          wait_free (ret {| wa_message := "Document processing workflow completed successfully";
                            wa_workflow_id := wr_workflow_id result;
                            wa_result := result |}))).

Definition execute_search_and_analyze_workflow (query search_type analysis_type : string)
    : W WorkflowAnswer :=
  answer_500
    (wbind (Orchestrator.execute_search_and_analyze_workflow env svc external_actions
              query search_type analysis_type)
       (fun result =>
          wait_free (ret {| wa_message := "Search and analysis workflow completed successfully";
                            wa_workflow_id := wr_workflow_id result;
                            wa_result := result |}))).

Definition execute_batch_analysis_workflow (document_ids : list string)
    (analysis_type : string) : W WorkflowAnswer :=
  answer_500
    (wbind (Orchestrator.execute_batch_analysis_workflow env svc external_actions
              document_ids analysis_type)
       (fun result =>
          wait_free (ret {| wa_message := "Batch analysis workflow completed successfully";
                            wa_workflow_id := wr_workflow_id result;
                            wa_result := result |}))).

Definition execute_intelligent_routing_workflow (fuel : nat) (file_content : bytes)
    (filename : string) : W WorkflowAnswer :=
  answer_500
    (wbind (Orchestrator.execute_intelligent_document_routing_workflow env svc external_actions fuel
              file_content filename)
       (fun result =>
          wait_free (ret {| wa_message := "Intelligent routing workflow completed successfully";
                            wa_workflow_id := wr_workflow_id result;
                            wa_result := result |}))).

Definition get_workflow_status (workflow_id : string) : M pyval :=
  http_errors
    (rows <- session_select_rows
               ["workflow_name"; "status"; "input_data"; "output_data"; "started_at";
                "completed_at"; "execution_time_ms"]
               "workflow_executions" "id" (Sql.Str workflow_id) ;;
     match rows with
     | [] => raise (HTTPException 404 "Workflow not found")
     | row :: _ =>
         input_data <- lift (loads_or svc PNone (Sql.field "input_data" row)) ;;
         output_data <- lift (loads_or svc PNone (Sql.field "output_data" row)) ;;
         ret (PDict [ ("workflow_id", PStr workflow_id);
                      ("workflow_name", column_value (Sql.field "workflow_name" row));
                      ("status", column_value (Sql.field "status" row));
                      ("input_data", input_data);
                      ("output_data", output_data);
                      ("started_at", column_value (Sql.field "started_at" row));
                      ("completed_at", column_value (Sql.field "completed_at" row));
                      ("execution_time_ms",
                       column_value (Sql.field "execution_time_ms" row)) ])
     end).

(** The two routes build a service of their own for each request. *)
Definition send_custom_notification (message : string) (channel : option string)
    (workflow_id : string) : M (string * pyval) :=
  try_except
    (service <- _initialize_clients svc ;;
     result <- send_slack_notification env svc service message workflow_id channel ;;
     ret ("Notification sent successfully", result))
    (fun e => raise (HTTPException 500 (exn_str e))).

Definition create_custom_calendar_event (title description workflow_id : string)
    : M (string * pyval) :=
  try_except
    (service <- _initialize_clients svc ;;
     result <- create_calendar_event env svc service title description workflow_id None 60 ;;
     ret ("Calendar event created successfully", result))
    (fun e => raise (HTTPException 500 (exn_str e))).

End Routes.

End WorkflowRoutes.

(* ================================================================== *)
(** * Further collaborators that behave                                 *)
(* ================================================================== *)

(** The chat completion answers every request with the empty JSON
    object; there is no Slack token and there are no calendar
    credentials. *)
Definition demo_services : Services :=
  {| chat := fun _ => Ok (Some "{}");
     json_loads := fun text => if String.eqb text "{}" then Some (PDict []) else None;
     json_text := fun v => "<" ++ Py.type_name v ++ ">";
     repr := fun v => "<" ++ Py.type_name v ++ ">";
     float_str := fun _ => "0.5";
     isoformat := fun t => "T" ++ nat_str (Z.to_nat t);
     datetime_str := fun t => "T " ++ nat_str (Z.to_nat t);
     analysis_prompt := fun kind content => kind ++ ": " ++ content;
     comparison_prompt := fun text => "compare: " ++ text;
     summary_prompt := fun kind text prompt => kind ++ ": " ++ text ++ prompt;
     insights_prompt := fun text => "insights: " ++ text;
     SLACK_BOT_TOKEN := None;
     SLACK_CHANNEL_ID := None;
     GOOGLE_CALENDAR_CREDENTIALS := None;
     slack_import := Ok tt;
     google_import := Ok tt;
     chat_postMessage := fun _ _ _ => Ok tt;
     http_post := fun _ _ => Ok 200 |}.

(** The service the orchestrator builds with these settings. *)
Definition no_clients : ExternalActionService :=
  {| slack_client := None; calendar_service := None |}.

(** The process after [init_db] has run in full on an empty store. *)
Definition workflow_world : World :=
  with_pending (init_db_all ∅) (with_committed (init_db_all ∅) empty_world).


(* ================================================================== *)
(** * Floating-point facts used by the fusion                           *)
(* ================================================================== *)

Lemma score_eq_refl (a : float) : score_eq a a.
Proof. now left. Qed.

Lemma float_eqb_zero (v : float) :
  (v =? 0)%float = true -> v = 0%float \/ v = neg_zero.
Proof.
  intros H. rewrite FloatAxioms.eqb_spec in H.
  change (Prim2SF 0) with (S754_zero false) in H.
  destruct (Prim2SF v) as [s | s | | s m e] eqn:E;
    try discriminate; try (destruct s; discriminate).
  destruct s; [right | left]; apply Prim2SF_inj; rewrite E; reflexivity.
Qed.

Lemma float_eqb_not_zero (v : float) :
  (v =? 0)%float = false -> v <> 0%float /\ v <> neg_zero.
Proof.
  intros H; split; intros ->; vm_compute in H; discriminate.
Qed.

(** Adding [+0] on the right changes nothing but the sign of a zero. *)
Lemma add_zero_r (x : float) : score_eq (x + 0)%float x.
Proof.
  destruct (Prim2SF x) as [s | s | | s m e] eqn:E.
  - assert (Hx : x = SF2Prim (S754_zero s)) by (rewrite <- E; symmetry; apply SF2Prim_Prim2SF).
    subst x. destruct s; [right | left]; reflexivity.
  - left. apply Prim2SF_inj. rewrite FloatAxioms.add_spec, E. reflexivity.
  - left. apply Prim2SF_inj. rewrite FloatAxioms.add_spec, E. reflexivity.
  - left. apply Prim2SF_inj. rewrite FloatAxioms.add_spec, E. reflexivity.
Qed.

(** The sign of a zero summand does not change the sum as a number. *)
Lemma add_zero_sign_l (y : float) : score_eq (0 + y)%float (neg_zero + y)%float.
Proof.
  destruct (Prim2SF y) as [s | s | | s m e] eqn:E.
  - assert (Hy : y = SF2Prim (S754_zero s)) by (rewrite <- E; symmetry; apply SF2Prim_Prim2SF).
    subst y. destruct s; [right | left]; reflexivity.
  - left. apply Prim2SF_inj. rewrite !FloatAxioms.add_spec, E. reflexivity.
  - left. apply Prim2SF_inj. rewrite !FloatAxioms.add_spec, E. reflexivity.
  - left. apply Prim2SF_inj. rewrite !FloatAxioms.add_spec, E. reflexivity.
Qed.

Lemma add_zero_sign_r (x : float) : score_eq (x + 0)%float (x + neg_zero)%float.
Proof.
  destruct (Prim2SF x) as [s | s | | s m e] eqn:E.
  - assert (Hx : x = SF2Prim (S754_zero s)) by (rewrite <- E; symmetry; apply SF2Prim_Prim2SF).
    subst x. destruct s; [right | left]; reflexivity.
  - left. apply Prim2SF_inj. rewrite !FloatAxioms.add_spec, E. reflexivity.
  - left. apply Prim2SF_inj. rewrite !FloatAxioms.add_spec, E. reflexivity.
  - left. apply Prim2SF_inj. rewrite !FloatAxioms.add_spec, E. reflexivity.
Qed.

(** [x or 0] keeps a float that is not a zero and maps both zeros to 0. *)
Lemma or_zero_cases (v : float) :
  (or_zero (Some v) = v /\ v <> neg_zero)
  \/ (or_zero (Some v) = 0%float /\ v = neg_zero).
Proof.
  unfold or_zero. destruct (v =? 0)%float eqn:E.
  - destruct (float_eqb_zero v E) as [-> | ->]; [left | right]; split; try reflexivity.
    intros H; vm_compute in H; discriminate.
  - left; split; [reflexivity | apply float_eqb_not_zero, E].
Qed.

(** The weighted sum of the two sides, on scores given as they are and on
    scores passed through [x or 0]. *)
Lemma weighted_or_zero (v f : float) :
  score_eq (or_zero (Some v) * 0.6 + or_zero (Some f) * 0.4)%float
           (v * 0.6 + f * 0.4)%float.
Proof.
  destruct (or_zero_cases v) as [[-> _] | [-> ->]];
    destruct (or_zero_cases f) as [[-> _] | [-> ->]].
  - apply score_eq_refl.
  - change (0 * 0.4)%float with 0%float. change (neg_zero * 0.4)%float with neg_zero.
    apply add_zero_sign_r.
  - change (0 * 0.6)%float with 0%float. change (neg_zero * 0.6)%float with neg_zero.
    apply add_zero_sign_l.
  - right. reflexivity.
Qed.

Lemma weighted_vector_only (v : float) :
  score_eq (or_zero (Some v) * 0.6 + 0 * 0.4)%float (v * 0.6)%float.
Proof.
  change (0 * 0.4)%float with 0%float.
  destruct (or_zero_cases v) as [[-> _] | [-> ->]].
  - apply add_zero_r.
  - right. reflexivity.
Qed.

(* ================================================================== *)
(** * Slices, the sort and the result monad                             *)
(* ================================================================== *)

Lemma firstn_incl {A} (n : nat) (l : list A) (x : A) : In x (firstn n l) -> In x l.
Proof.
  revert l. induction n as [| n IH]; intros [| y l]; simpl; try tauto.
  intros [H | H]; auto.
Qed.

Lemma slice_to_incl {A} (k : Z) (l : list A) (x : A) : In x (slice_to k l) -> In x l.
Proof. unfold slice_to. destruct (0 <=? k); apply firstn_incl. Qed.

Lemma slice_to_length {A} (k : Z) (l : list A) :
  (length (slice_to k l) <= length l)%nat.
Proof. unfold slice_to. destruct (0 <=? k); rewrite List.length_firstn; lia. Qed.

Lemma slice_to_bound {A} (k : Z) (l : list A) :
  0 <= k -> Z.of_nat (length (slice_to k l)) <= k.
Proof.
  intros Hk. unfold slice_to.
  destruct (0 <=? k) eqn:E; [| apply Z.leb_gt in E; lia].
  rewrite List.length_firstn. lia.
Qed.

Lemma slice_to_all {A} (k : Z) (l : list A) :
  Z.of_nat (length l) <= k -> slice_to k l = l.
Proof.
  intros Hk. unfold slice_to.
  destruct (0 <=? k) eqn:E; [| apply Z.leb_gt in E; lia].
  apply List.firstn_all2. lia.
Qed.

Lemma insert_desc_In {A} (x y : A * float) (l : list (A * float)) :
  In y (insert_desc x l) <-> y = x \/ In y l.
Proof.
  induction l as [| z l IH]; simpl.
  - intuition auto.
  - destruct (snd z <? snd x)%float; simpl; [intuition auto |].
    rewrite IH. intuition auto.
Qed.

Lemma insert_desc_length {A} (x : A * float) (l : list (A * float)) :
  length (insert_desc x l) = S (length l).
Proof.
  induction l as [| z l IH]; simpl; [reflexivity |].
  destruct (snd z <? snd x)%float; simpl; congruence.
Qed.

Lemma sort_desc_acc_In {A} (l acc : list (A * float)) (y : A * float) :
  In y (fold_left (fun acc x => insert_desc x acc) l acc) <-> In y l \/ In y acc.
Proof.
  revert acc. induction l as [| x l IH]; intros acc; simpl.
  - intuition auto.
  - rewrite IH, insert_desc_In. intuition auto.
Qed.

(** The sort keeps exactly the pairs it was given. *)
Lemma sort_desc_In {A} (l : list (A * float)) (y : A * float) :
  In y (sort_desc l) <-> In y l.
Proof. unfold sort_desc. rewrite sort_desc_acc_In. simpl. intuition auto. Qed.

Lemma sort_desc_acc_length {A} (l acc : list (A * float)) :
  length (fold_left (fun acc x => insert_desc x acc) l acc) = (length l + length acc)%nat.
Proof.
  revert acc. induction l as [| x l IH]; intros acc; simpl; [reflexivity |].
  rewrite IH, insert_desc_length. lia.
Qed.

Lemma sort_desc_length {A} (l : list (A * float)) : length (sort_desc l) = length l.
Proof. unfold sort_desc. rewrite sort_desc_acc_length. simpl. lia. Qed.

Lemma rmap_length {A B} (f : A -> result B) (l : list A) (l' : list B) :
  rmap f l = Ok l' -> length l' = length l.
Proof.
  revert l'. induction l as [| x l IH]; intros l'; simpl.
  - intros [= <-]. reflexivity.
  - destruct (f x); [| discriminate].
    destruct (rmap f l); [| discriminate].
    intros [= <-]. simpl. f_equal. now apply IH.
Qed.

Lemma sql_limit_length {A} (n : Z) (rows kept : list A) :
  Sql.limit n rows = Ok kept -> 0 <= n /\ Z.of_nat (length kept) <= n.
Proof.
  unfold Sql.limit. destruct (n <? 0) eqn:E; [discriminate |].
  apply Z.ltb_ge in E. intros [= <-]. rewrite List.length_firstn. lia.
Qed.

(* ================================================================== *)
(** * The dictionary of combined results                                *)
(* ================================================================== *)

Lemma last_with_id_In (d : string) (l : list DocumentSearchResult) (r : DocumentSearchResult) :
  last_with_id d l = Some r -> In r l /\ r_id r = d.
Proof.
  induction l as [| x l IH]; simpl; [discriminate |].
  destruct (last_with_id d l) as [r' |].
  - intros [= <-]. destruct (IH eq_refl). auto.
  - destruct (String.eqb (r_id x) d) eqn:E; [| discriminate].
    intros [= <-]. apply String.eqb_eq in E. auto.
Qed.

Lemma last_with_id_None (d : string) (l : list DocumentSearchResult) :
  last_with_id d l = None <-> ~ In d (map r_id l).
Proof.
  induction l as [| x l IH]; simpl; [intuition auto |].
  destruct (last_with_id d l) as [r' |].
  - split; [discriminate |]. intros H. exfalso. apply H. right.
    destruct IH as [_ IH]. destruct (in_dec string_dec d (map r_id l)) as [i | n]; [exact i |].
    specialize (IH n). discriminate.
  - destruct (String.eqb (r_id x) d) eqn:E.
    + apply String.eqb_eq in E. split; [discriminate | intros H; exfalso; auto].
    + apply String.eqb_neq in E. destruct IH as [IH _]. specialize (IH eq_refl).
      split; [intros _ [H | H]; auto | reflexivity].
Qed.

Lemma side_score_listed score d v l :
  listed_with score d v l -> side_score score d l = or_zero (Some v).
Proof.
  intros [Hin Hall]. unfold side_score.
  destruct (last_with_id d l) as [r |] eqn:E.
  - apply last_with_id_In in E as [Hr Hd]. now rewrite (Hall r Hr Hd).
  - apply last_with_id_None in E. contradiction.
Qed.

Lemma side_score_absent score d l : ~ In d (map r_id l) -> side_score score d l = 0%float.
Proof. intros H. unfold side_score. apply last_with_id_None in H. now rewrite H. Qed.

Lemma dict_get_set (k k' : string) (v : Scores) (d : combined) :
  dict_get k (dict_set k' v d) = if String.eqb k k' then Some v else dict_get k d.
Proof.
  induction d as [| [k1 v1] d IH]; simpl; [reflexivity |].
  destruct (String.eqb k' k1) eqn:E1; simpl.
  - apply String.eqb_eq in E1. subst k1.
    destruct (String.eqb k k'); reflexivity.
  - rewrite IH. destruct (String.eqb k k1) eqn:E2; [| reflexivity].
    apply String.eqb_eq in E2. subst k1.
    rewrite String.eqb_sym, E1. reflexivity.
Qed.

Lemma dict_set_keys (k x : string) (v : Scores) (d : combined) :
  In x (map fst (dict_set k v d)) <-> x = k \/ In x (map fst d).
Proof.
  induction d as [| [k1 v1] d IH]; simpl; [intuition auto |].
  destruct (String.eqb k k1) eqn:E; simpl.
  - apply String.eqb_eq in E. subst k1. intuition auto.
  - rewrite IH. intuition auto.
Qed.

Lemma dict_set_NoDup (k : string) (v : Scores) (d : combined) :
  List.NoDup (map fst d) -> List.NoDup (map fst (dict_set k v d)).
Proof.
  induction d as [| [k1 v1] d IH]; simpl; intros H.
  - constructor; [intros [] | constructor].
  - inversion H as [| ? ? Hnot Hd]; subst.
    destruct (String.eqb k k1) eqn:E; simpl.
    + apply String.eqb_eq in E. subst k1. now constructor.
    + apply String.eqb_neq in E. constructor; [| now apply IH].
      rewrite dict_set_keys. intros [-> | Hin]; auto.
Qed.

Lemma dict_get_In (k : string) (s : Scores) (d : combined) :
  List.NoDup (map fst d) -> In (k, s) d -> dict_get k d = Some s.
Proof.
  induction d as [| [k1 v1] d IH]; simpl; intros Hnd; [intros [] |].
  inversion Hnd as [| ? ? Hnot Hd]; subst.
  intros [Heq | Hin].
  - injection Heq as Hk Hv. rewrite Hk, Hv, String.eqb_refl. reflexivity.
  - destruct (String.eqb k k1) eqn:E; [| now apply IH].
    apply String.eqb_eq in E. exfalso. apply Hnot. rewrite <- E.
    change k with (fst (k, s)). now apply List.in_map.
Qed.

Lemma dict_get_keys (k : string) (d : combined) :
  In k (map fst d) <-> dict_get k d <> None.
Proof.
  induction d as [| [k1 v1] d IH]; simpl; [intuition auto |].
  destruct (String.eqb k k1) eqn:E.
  - apply String.eqb_eq in E. subst k1. split; [discriminate | auto].
  - apply String.eqb_neq in E. rewrite <- IH. intuition auto.
Qed.

Lemma dict_set_keyed (k : string) (v : Scores) (d : combined) :
  r_id (sc_result v) = k -> keyed d -> keyed (dict_set k v d).
Proof.
  intros Hv. unfold keyed. induction d as [| [k1 v1] d IH]; simpl; intros H.
  - constructor; [exact Hv | constructor].
  - inversion H as [| kv d' Hk Hd]. destruct (String.eqb k k1); constructor; auto.
Qed.

Lemma dict_get_keyed (k : string) (s : Scores) (d : combined) :
  keyed d -> dict_get k d = Some s -> r_id (sc_result s) = k.
Proof.
  unfold keyed. induction d as [| [k1 v1] d IH]; simpl; intros H; [discriminate |].
  inversion H as [| ? ? Hk Hd]; subst. simpl in Hk.
  destruct (String.eqb k k1) eqn:E; [| now apply IH].
  apply String.eqb_eq in E. subst k1. now intros [= <-].
Qed.

Lemma add_vector_well_formed d r : well_formed d -> well_formed (add_vector d r).
Proof.
  intros [Hn Hk]. unfold add_vector. split.
  - now apply dict_set_NoDup.
  - now apply dict_set_keyed.
Qed.

Lemma add_fulltext_well_formed d r : well_formed d -> well_formed (add_fulltext d r).
Proof.
  intros [Hn Hk]. unfold add_fulltext.
  destruct (dict_get (r_id r) d) as [s |] eqn:E; split;
    try (now apply dict_set_NoDup); apply dict_set_keyed; auto.
  simpl. now apply (dict_get_keyed _ _ d).
Qed.

Lemma fold_well_formed (f : combined -> DocumentSearchResult -> combined) l d :
  (forall d r, well_formed d -> well_formed (f d r)) ->
  well_formed d -> well_formed (fold_left f l d).
Proof. intros Hf. revert d. induction l; simpl; auto. Qed.

Lemma combine_results_well_formed vr fr : well_formed (combine_results vr fr).
Proof.
  unfold combine_results.
  apply fold_well_formed; [apply add_fulltext_well_formed |].
  apply fold_well_formed; [apply add_vector_well_formed |].
  split; constructor.
Qed.

(** After the first loop a document is bound to its last vector result. *)
Lemma vector_loop_get (vr : list DocumentSearchResult) (acc : combined) (d : string) :
  dict_get d (fold_left add_vector vr acc) =
  match last_with_id d vr with
  | Some r => Some {| sc_result := r; vector_score := or_zero (similarity_score r);
                      fulltext_score := 0%float |}
  | None => dict_get d acc
  end.
Proof.
  revert acc. induction vr as [| r vr IH]; intros acc; simpl; [reflexivity |].
  rewrite IH. destruct (last_with_id d vr); [reflexivity |].
  unfold add_vector. rewrite dict_get_set, String.eqb_sym.
  destruct (String.eqb (r_id r) d); reflexivity.
Qed.

(** The second loop leaves every vector score as it was, and binds new
    documents with vector score 0. *)
Lemma fulltext_loop_vector (fr : list DocumentSearchResult) (acc : combined) (d : string) :
  option_map vector_score (dict_get d (fold_left add_fulltext fr acc)) =
  match last_with_id d fr with
  | Some _ => Some (vector_score_at d acc)
  | None => option_map vector_score (dict_get d acc)
  end.
Proof.
  revert acc. induction fr as [| r fr IH]; intros acc; simpl; [reflexivity |].
  rewrite IH. unfold vector_score_at, add_fulltext.
  destruct (String.eqb (r_id r) d) eqn:E.
  - apply String.eqb_eq in E. subst d.
    destruct (dict_get (r_id r) acc) as [s |] eqn:G;
      rewrite dict_get_set, String.eqb_refl; simpl;
      destruct (last_with_id (r_id r) fr); reflexivity.
  - destruct (dict_get (r_id r) acc) as [s |] eqn:G;
      rewrite dict_get_set, String.eqb_sym, E;
      destruct (last_with_id d fr); reflexivity.
Qed.

(** The second loop gives a document its last full-text score. *)
Lemma fulltext_loop_fulltext (fr : list DocumentSearchResult) (acc : combined) (d : string) :
  option_map fulltext_score (dict_get d (fold_left add_fulltext fr acc)) =
  match last_with_id d fr with
  | Some r => Some (or_zero (relevance_score r))
  | None => option_map fulltext_score (dict_get d acc)
  end.
Proof.
  revert acc. induction fr as [| r fr IH]; intros acc; simpl; [reflexivity |].
  rewrite IH. destruct (last_with_id d fr); [reflexivity |].
  unfold add_fulltext.
  destruct (String.eqb (r_id r) d) eqn:E.
  - apply String.eqb_eq in E. subst d.
    destruct (dict_get (r_id r) acc) as [s |] eqn:G;
      rewrite dict_get_set, String.eqb_refl; reflexivity.
  - destruct (dict_get (r_id r) acc) as [s |] eqn:G;
      rewrite dict_get_set, String.eqb_sym, E; reflexivity.
Qed.

(** The score pair bound to a document of the union. *)
Lemma combine_results_scores vr fr d s :
  dict_get d (combine_results vr fr) = Some s ->
  vector_score s = side_score similarity_score d vr
  /\ fulltext_score s = side_score relevance_score d fr.
Proof.
  intros H. unfold combine_results in H.
  pose proof (fulltext_loop_vector fr (fold_left add_vector vr []) d) as Hv.
  pose proof (fulltext_loop_fulltext fr (fold_left add_vector vr []) d) as Hf.
  rewrite H in Hv, Hf. simpl in Hv, Hf.
  unfold vector_score_at in Hv. rewrite vector_loop_get in Hv, Hf.
  unfold side_score. simpl in Hv, Hf.
  destruct (last_with_id d fr) as [rf |]; destruct (last_with_id d vr) as [rv |];
    simpl in Hv, Hf; split; congruence.
Qed.

(** The keys are the ids of the union of the two lists. *)
Lemma combine_results_keys vr fr d :
  In d (map fst (combine_results vr fr)) <-> In d (map r_id vr) \/ In d (map r_id fr).
Proof.
  rewrite dict_get_keys. unfold combine_results.
  pose proof (fulltext_loop_fulltext fr (fold_left add_vector vr []) d) as Hf.
  rewrite vector_loop_get in Hf. simpl in Hf.
  pose proof (last_with_id_None d vr) as Nv. pose proof (last_with_id_None d fr) as Nf.
  destruct (dict_get d (fold_left add_fulltext fr (fold_left add_vector vr []))) as [s |];
    destruct (last_with_id d fr) as [rf |]; destruct (last_with_id d vr) as [rv |];
    simpl in Hf; try discriminate.
  - split; [intros _ | discriminate]. right.
    destruct (in_dec string_dec d (map r_id fr)) as [i | n]; [exact i |].
    apply Nf in n. discriminate.
  - split; [intros _ | discriminate]. right.
    destruct (in_dec string_dec d (map r_id fr)) as [i | n]; [exact i |].
    apply Nf in n. discriminate.
  - split; [intros _ | discriminate]. left.
    destruct (in_dec string_dec d (map r_id vr)) as [i | n]; [exact i |].
    apply Nv in n. discriminate.
  - split; [intros H; now contradiction H |].
    destruct Nv as [Nv _], Nf as [Nf _]. specialize (Nv eq_refl). specialize (Nf eq_refl).
    intros [H | H]; contradiction.
Qed.

Lemma hybrid_results_In (c : combined) (r : DocumentSearchResult) (s : float) :
  In (r, s) (hybrid_results c) <->
  exists k sc, In (k, sc) c /\ r = set_similarity (sc_result sc) (hybrid_score sc)
               /\ s = hybrid_score sc.
Proof.
  unfold hybrid_results. rewrite List.in_map_iff. split.
  - intros [[k sc] [[= <- <-] Hin]]. exists k, sc. auto.
  - intros (k & sc & Hin & -> & ->). exists (k, sc). auto.
Qed.

Lemma hybrid_results_ids (c : combined) :
  keyed c -> map (fun p => r_id (fst p)) (hybrid_results c) = map fst c.
Proof.
  unfold keyed, hybrid_results. induction c as [| [k sc] c IH]; simpl; intros H.
  - reflexivity.
  - inversion H; subst. simpl in *. f_equal; auto.
Qed.


(* ================================================================== *)
(** * Hybrid search                                                     *)
(* ================================================================== *)

Section HybridSearch.

Context (env : Env).

Lemma vector_search_bound query n threshold w vector_results w1 :
  _vector_search env query n threshold w = (Ok vector_results, w1) ->
  0 <= n /\ Z.of_nat (length vector_results) <= n.
Proof.
  unfold _vector_search, bind, lift, search_similar_documents.
  destruct (encode env query) as [e |]; [| discriminate].
  destruct (store_up w); [| discriminate].
  destruct (Sql.limit n _) as [rows |] eqn:L; [| discriminate].
  destruct (rmap vector_result rows) as [rs |] eqn:R; [| discriminate].
  intros [= <- <-]. apply sql_limit_length in L. apply rmap_length in R. lia.
Qed.

Lemma fulltext_search_bound query n w fulltext_results w1 :
  _fulltext_search env query n w = (Ok fulltext_results, w1) ->
  0 <= n /\ Z.of_nat (length fulltext_results) <= n.
Proof.
  unfold _fulltext_search, bind, lift, full_text_search.
  destruct (store_up w); [| discriminate].
  destruct (Sql.limit n _) as [rows |] eqn:L; [| discriminate].
  destruct (rmap fulltext_result rows) as [rs |] eqn:R; [| discriminate].
  intros [= <- <-]. apply sql_limit_length in L. apply rmap_length in R. lia.
Qed.

(** [_hybrid_search] is the fusion of what its two searches return. *)
Lemma hybrid_search_unfold query limit threshold w :
  _hybrid_search env query limit threshold w =
  match _vector_search env query (limit * 2) threshold w with
  | (Ok vector_results, w1) =>
      match _fulltext_search env query (limit * 2) w1 with
      | (Ok fulltext_results, w2) => (Ok (hybrid_fuse vector_results fulltext_results limit), w2)
      | (Raise e, w2) => (Raise e, w2)
      end
  | (Raise e, w1) => (Raise e, w1)
  end.
Proof.
  unfold _hybrid_search, bind, ret.
  destruct (_vector_search env query (limit * 2) threshold w) as [[vr | e] w1]; [| reflexivity].
  destruct (_fulltext_search env query (limit * 2) w1) as [[fr | e] w2]; reflexivity.
Qed.

Lemma hybrid_fuse_length vr fr limit :
  0 <= limit -> Z.of_nat (length (hybrid_fuse vr fr limit)) <= limit.
Proof.
  intros H. unfold hybrid_fuse. rewrite List.length_map. now apply slice_to_bound.
Qed.

(** A negative limit is refused by the store at the first query a search
    makes. *)
Lemma vector_search_negative_limit query n threshold w :
  n < 0 -> exists e w', _vector_search env query n threshold w = (Raise e, w').
Proof.
  intros Hn. destruct (_vector_search env query n threshold w) as [[rs | e] w'] eqn:H.
  - apply vector_search_bound in H. lia.
  - eauto.
Qed.

(** C5.  Whatever the query, the limit and the threshold, a hybrid search
    that returns has returned at most [limit] results, although each of
    its two searches was asked for, and may have returned, as many as
    2 * limit candidates; for a negative [limit] it returns nothing at
    all, it raises. *)
Theorem hybrid_search_at_most_limit (query : string) (limit : Z) (threshold : float)
    (w : World) :
  (forall results w',
     _hybrid_search env query limit threshold w = (Ok results, w') ->
     Z.of_nat (length results) <= limit
     /\ exists vector_results fulltext_results w1,
          _vector_search env query (limit * 2) threshold w = (Ok vector_results, w1)
          /\ _fulltext_search env query (limit * 2) w1 = (Ok fulltext_results, w')
          /\ Z.of_nat (length vector_results) <= 2 * limit
          /\ Z.of_nat (length fulltext_results) <= 2 * limit
          /\ results = hybrid_fuse vector_results fulltext_results limit)
  /\ (limit < 0 ->
      exists e w', _hybrid_search env query limit threshold w = (Raise e, w')).
Proof.
  split.
  - intros results w'. rewrite hybrid_search_unfold.
    destruct (_vector_search env query (limit * 2) threshold w) as [[vr | e] w1] eqn:Hv;
      [| discriminate].
    destruct (_fulltext_search env query (limit * 2) w1) as [[fr | e] w2] eqn:Hf;
      [| discriminate].
    intros [= <- <-].
    apply vector_search_bound in Hv as Bv. apply fulltext_search_bound in Hf as Bf.
    split; [apply hybrid_fuse_length; lia |].
    exists vr, fr, w1. repeat split; auto; lia.
  - intros Hneg. rewrite hybrid_search_unfold.
    destruct (vector_search_negative_limit query (limit * 2) threshold w ltac:(lia))
      as (e & w' & ->).
    eauto.
Qed.

End HybridSearch.

(** With limit 1 both searches return 2 candidates and one result comes
    back. *)
Lemma hybrid_search_at_most_limit_witness :
  Z.of_nat (length (hybrid_fuse
     [ {| r_id := "d1"; r_filename := "d1.txt"; r_content := Some "text of d1";
          similarity_score := Some 0.75%float; relevance_score := None;
          created_at := 10 |};
       {| r_id := "d2"; r_filename := "d2.txt"; r_content := Some "text of d2";
          similarity_score := Some 0.5%float; relevance_score := None;
          created_at := 20 |} ]
     [ {| r_id := "d3"; r_filename := "d3.txt"; r_content := Some "text of d3";
          similarity_score := None; relevance_score := Some 2%float;
          created_at := 50 |};
       {| r_id := "d1"; r_filename := "d1.txt"; r_content := Some "text of d1";
          similarity_score := None; relevance_score := Some 1%float;
          created_at := 10 |} ] 1)) <= 1.
Proof.
  refine (proj1 (proj1 (hybrid_search_at_most_limit demo_env "q" 1 1 demo_world)
                   _ demo_world _)).
  vm_compute. reflexivity.
Defined.

(* ================================================================== *)
(** * Ingestion                                                         *)
(* ================================================================== *)

Lemma get_file_type_unsupported (filename : string) :
  str_in (extension filename) supported_extensions = false ->
  _get_file_type filename
  = Raise (ValueError ("Unsupported file type: " ++ extension filename)).
Proof.
  unfold _get_file_type, extension, supported_extensions, str_in. simpl.
  intros H. repeat (apply orb_false_elim in H as [? H]).
  repeat match goal with
         | E : String.eqb ?a ?b = false |- _ => rewrite E; clear E
         end.
  reflexivity.
Qed.

Lemma get_file_type_supported (filename : string) :
  str_in (extension filename) supported_extensions = true ->
  exists t, _get_file_type filename = Ok t.
Proof.
  unfold _get_file_type, extension, supported_extensions, str_in. simpl.
  destruct (String.eqb _ ".pdf") eqn:E1; [eauto |].
  destruct (String.eqb _ ".txt") eqn:E2; [eauto |].
  destruct (String.eqb _ ".png") eqn:E3.
  { apply String.eqb_eq in E3. rewrite E3. simpl. eauto. }
  destruct (String.eqb _ ".jpg") eqn:E4.
  { apply String.eqb_eq in E4. rewrite E4. simpl. eauto. }
  destruct (String.eqb _ ".jpeg") eqn:E5.
  { apply String.eqb_eq in E5. rewrite E5. simpl. eauto. }
  simpl. discriminate.
Qed.

Section IngestionFacts.

Context (env : Env).

(** C4.  A file name whose (lowered) extension is none of .pdf, .txt,
    .png, .jpg, .jpeg is rejected at once: [process_document] raises to
    its caller and leaves the world as it found it, so no row, no file and
    no background task exists for the upload. *)
Theorem unsupported_extension_rejected (file_content : bytes) (filename : string) (w : World) :
  str_in (extension filename) supported_extensions = false ->
  process_document env file_content filename w
  = (Raise (Exception ("Failed to process document: Unsupported file type: "
                       ++ extension filename)), w).
Proof.
  intros H. unfold process_document, try_except, bind, lift, raise.
  rewrite (get_file_type_unsupported filename H). reflexivity.
Qed.

End IngestionFacts.

Lemma unsupported_extension_rejected_witness :
  process_document demo_env (list_byte_of_string "MZ") "setup.exe" demo_world
  = (Raise (Exception "Failed to process document: Unsupported file type: .exe"), demo_world).
Proof.
  refine (unsupported_extension_rejected demo_env _ "setup.exe" demo_world _).
  vm_compute. reflexivity.
Defined.

Section BackgroundFacts.

Context (env : Env).

(** The background stage never raises to whoever runs it. *)
Lemma generate_embeddings_never_raises (document_id : string) (content : option string)
    (w : World) :
  fst (_generate_embeddings env document_id content w) = Ok tt.
Proof.
  unfold _generate_embeddings, try_except, bind, print, ret.
  destruct (embedding_stage env document_id content w) as [[[] | e] w1]; [reflexivity |].
  destruct (mark_failed document_id _) as [[[] | e'] w2]; reflexivity.
Qed.

(** On empty or absent content the stage returns before it touched
    anything. *)
Lemma generate_embeddings_skips (document_id : string) (content : option string) (w : World) :
  truthy content = false ->
  _generate_embeddings env document_id content w = (Ok tt, w).
Proof.
  intros H. unfold _generate_embeddings, embedding_stage, try_except. now rewrite H.
Qed.

Lemma run_tasks_list_never_raises (ts : list Task) (w : World) :
  fst (run_tasks_list env ts w) = Ok tt.
Proof.
  revert w. induction ts as [| t ts IH]; intros w; simpl; [reflexivity |].
  unfold bind.
  pose proof (generate_embeddings_never_raises (task_document_id t) (task_content t) w) as H.
  destruct (_generate_embeddings env (task_document_id t) (task_content t) w) as [[[] | e] w1];
    [apply IH | discriminate].
Qed.

Lemma run_background_never_raises (w : World) : fst (run_background env w) = Ok tt.
Proof. apply run_tasks_list_never_raises. Qed.

End BackgroundFacts.

(** A status query changes nothing. *)
Lemma get_document_status_world (document_id : string) (w : World) :
  snd (get_document_status document_id w) = w.
Proof.
  unfold get_document_status, bind, session_select, raise, lift.
  destruct (store_up w); [| reflexivity].
  destruct (Sql.select _ _ _ _) as [[| [| s | n | t] rows] | e]; reflexivity.
Qed.

(** Without a [status] column the status query raises. *)
Lemma get_document_status_no_column (document_id : string) (w : World) (t : Sql.table) :
  store_up w = true ->
  pending w !! "documents" = Some t ->
  Sql.has_column t "status" = false ->
  fst (get_document_status document_id w)
  = Raise (DatabaseError "Unknown column 'status' in 'field list'").
Proof.
  intros Hup Ht Hc. unfold get_document_status, bind, session_select, Sql.select.
  now rewrite Hup, Ht, Hc.
Qed.

Lemma create_table_other (name k : string) (columns : list Sql.column) (db : Sql.database) :
  name <> k ->
  Sql.create_table_if_not_exists name columns db !! k = db !! k.
Proof.
  intros H. unfold Sql.create_table_if_not_exists.
  destruct (db !! name); [reflexivity | now apply lookup_insert_ne].
Qed.

(** [init_db] on a store without a [documents] table creates it without a
    [status] column. *)
Lemma init_db_documents (db : Sql.database) :
  db !! "documents" = None ->
  init_db db !! "documents" = Some {| Sql.t_columns := documents_columns; Sql.t_rows := [] |}
  /\ Sql.has_column {| Sql.t_columns := documents_columns; Sql.t_rows := [] |} "status" = false.
Proof.
  intros H. split; [| reflexivity].
  unfold init_db. rewrite !create_table_other by discriminate.
  unfold Sql.create_table_if_not_exists. rewrite H. apply lookup_insert_eq.
Qed.

(** C3.  The upload of [a.txt] on a freshly started process: the call
    returns a document marked [PROCESSING] and its row is committed by
    then, but the row has no status ([documents] is created without such a
    column and the [INSERT] names none), and the status query for the new
    id raises instead of reporting [processing]. *)
Theorem upload_status_query_fails :
  let upload := process_document demo_env (list_byte_of_string "hello") "a.txt" demo_world in
  (exists d, fst upload = Ok d /\ d_id d = "uuid-1" /\ d_status d = PROCESSING)
  /\ Sql.select "filename" "documents" (Sql.Str "uuid-1") (committed (snd upload))
     = Ok [Sql.Str "a.txt"]
  /\ Sql.select "status" "documents" (Sql.Str "uuid-1") (committed (snd upload))
     = Raise (DatabaseError "Unknown column 'status' in 'field list'")
  /\ fst (get_document_status "uuid-1" (snd upload))
     = Raise (DatabaseError "Unknown column 'status' in 'field list'").
Proof.
  cbv zeta. split_all; try by_vm.
  eexists. split; [by_vm |]. split; reflexivity.
Qed.

(** C2.  The upload of an empty [empty.txt] (content [""]) and of an
    undecodable [bad.txt] (content [None]) are accepted; running the
    background stage then changes nothing in the store, so the document
    is never marked [completed]: on a fresh store the status query keeps
    raising, and on a store that has a [status] column the status stays
    [processing] and the wait for it ends in a timeout. *)
Theorem empty_content_never_completes :
  let upload := process_document demo_env [] "empty.txt" demo_world in
  let after := run_background demo_env (snd upload) in
  let upload_bad := process_document demo_env [Byte.xff] "bad.txt" demo_world in
  let after_bad := run_background demo_env (snd upload_bad) in
  let upload_m := process_document demo_env [] "empty.txt" migrated_world in
  let after_m := run_background demo_env (snd upload_m) in
  (exists d, fst upload = Ok d /\ d_id d = "uuid-1" /\ d_content d = Some ""
             /\ d_content_hash d = None)
  /\ fst after = Ok tt
  /\ snd after = with_tasks [] (snd upload)
  /\ fst (get_document_status "uuid-1" (snd after))
     = Raise (DatabaseError "Unknown column 'status' in 'field list'")
  /\ (exists d, fst upload_bad = Ok d /\ d_id d = "uuid-1" /\ d_content d = None
                /\ d_content_hash d = None)
  /\ fst after_bad = Ok tt
  /\ snd after_bad = with_tasks [] (snd upload_bad)
  /\ fst (get_document_status "uuid-1" (snd upload_m)) = Ok PROCESSING
  /\ fst after_m = Ok tt
  /\ fst (get_document_status "uuid-1" (snd after_m)) = Ok PROCESSING
  /\ option_map fst (_wait_for_processing demo_env 100 "uuid-1" 60 (snd upload_m))
     = Some (Raise (TimeoutError "Document processing timeout")).
Proof.
  cbv zeta. split_all; try by_vm.
  - eexists. split; [by_vm |]. split_all; reflexivity.
  - eexists. split; [by_vm |]. split_all; reflexivity.
Qed.

(* ================================================================== *)
(** * Failure of the background stage                                   *)
(* ================================================================== *)

(** An [UPDATE] that assigns a column gives it the assigned value. *)
Lemma updated_field (now : datetime) (sets : list (string * Sql.value)) (t : Sql.table)
    (r : Sql.row) (name : string) (kv : string * Sql.value) :
  List.find (fun kv => String.eqb (fst kv) name) sets = Some kv ->
  Sql.has_column t name = true ->
  Sql.field name (Sql.updated now sets t r) = snd kv.
Proof.
  intros Hfind. unfold Sql.updated, Sql.has_column, Sql.field.
  induction (Sql.t_columns t) as [| c cs IH]; simpl; [discriminate |].
  destruct (String.eqb (Sql.c_name c) name) eqn:E.
  - intros _. apply String.eqb_eq in E. rewrite E, Hfind.
    now rewrite lookup_insert_eq.
  - simpl. intros Hcs. apply String.eqb_neq in E.
    destruct (List.find (fun kv0 => String.eqb (fst kv0) (Sql.c_name c)) sets) as [kv' |].
    + rewrite lookup_insert_ne by exact E. now apply IH.
    + destruct (Sql.c_on_update_now c).
      * rewrite lookup_insert_ne by exact E. now apply IH.
      * now apply IH.
Qed.

Lemma value_eqb_eq (a b : Sql.value) : Sql.value_eqb a b = true -> a = b.
Proof.
  destruct a, b; simpl; try discriminate.
  - intros H. apply String.eqb_eq in H. now subst.
  - intros H. apply Z.eqb_eq in H. now subst.
  - intros H. apply Z.eqb_eq in H. now subst.
Qed.

Lemma value_eqb_refl_str (s : string) : Sql.value_eqb (Sql.Str s) (Sql.Str s) = true.
Proof. simpl. apply String.eqb_refl. Qed.

(** When the attempt to mark a document failed goes through, the change is
    committed and every row of the document carries the status; when it
    raises, it has changed nothing. *)
Lemma mark_failed_outcome (document_id : string) (w : World) :
  match mark_failed document_id w with
  | (Ok _, w') =>
      committed w' = pending w'
      /\ exists t, committed w' !! "documents" = Some t
           /\ forall r, In r (Sql.t_rows t) -> Sql.field "id" r = Sql.Str document_id ->
                        Sql.field "status" r = Sql.Str "failed"
  | (Raise _, w') => w' = w
  end.
Proof.
  unfold mark_failed, bind, set_status, session_update, session_commit, Sql.update.
  destruct (store_up w) eqn:Hup; [| reflexivity].
  destruct (pending w !! "documents") as [t |] eqn:Ht; [| reflexivity].
  destruct (List.find _ _) as [kv |] eqn:Hfind; [reflexivity |].
  destruct (negb (forallb _ _)); [reflexivity |].
  simpl. rewrite Hup. simpl. split; [reflexivity |].
  eexists. split; [apply lookup_insert_eq |]. simpl.
  intros r Hin Hid. apply List.in_map_iff in Hin as [r0 [Hr Hin]].
  assert (Hcol : Sql.has_column t "status" = true).
  { simpl in Hfind. destruct (Sql.has_column t "status"); [reflexivity | discriminate]. }
  destruct (Sql.value_eqb (Sql.field "id" r0) (Sql.Str document_id)) eqn:E.
  - subst r. now rewrite (updated_field _ _ _ _ "status" ("status", Sql.Str "failed")).
  - subst r0. rewrite Hid, value_eqb_refl_str in E. discriminate.
Qed.

Section BackgroundFailure.

Context (env : Env).

(** C7, as the code has it.  Every exception raised in the background
    stage is caught and reported on the standard output; the stage then
    tries to set the document's status to [failed] and to commit that:
    when this goes through, the rows of the document carry [failed] in the
    committed store; when it raises in its turn, that exception is dropped
    as well and nothing more has changed.  In both cases the stage ends
    normally: nothing is propagated. *)
Theorem embedding_failure_absorbed (document_id : string) (content : option string)
    (w w1 : World) (e : exn) :
  embedding_stage env document_id content w = (Raise e, w1) ->
  let reported :=
    with_stdout (stdout w1 ++ ["Error generating embeddings for document "
                               ++ document_id ++ ": " ++ exn_str e]) w1 in
  let final := snd (mark_failed document_id reported) in
  _generate_embeddings env document_id content w = (Ok tt, final)
  /\ (fst (mark_failed document_id reported) = Ok tt ->
        committed final = pending final
        /\ exists t, committed final !! "documents" = Some t
             /\ forall r, In r (Sql.t_rows t) -> Sql.field "id" r = Sql.Str document_id ->
                          Sql.field "status" r = Sql.Str "failed")
  /\ (forall e', fst (mark_failed document_id reported) = Raise e' -> final = reported).
Proof.
  intros Hstage reported final.
  pose proof (mark_failed_outcome document_id reported) as Hout.
  unfold final. split; [| split].
  - unfold _generate_embeddings, try_except, bind, print, ret. rewrite Hstage.
    fold reported. destruct (mark_failed document_id reported) as [[[] | e'] w2]; reflexivity.
  - intros Hok. destruct (mark_failed document_id reported) as [[[] | e'] w2];
      [exact Hout | discriminate].
  - intros e' Hraise. destruct (mark_failed document_id reported) as [[[] | e''] w2];
      [discriminate | exact Hout].
Qed.

End BackgroundFailure.

(** The encoder fails on the content of [a.txt]: the stage raises, and
    the handler's update raises in its turn on a fresh store. *)
Lemma embedding_failure_absorbed_witness :
  _generate_embeddings demo_env "uuid-1" (Some "boom")
    (with_tasks [] (snd (process_document demo_env (list_byte_of_string "boom") "a.txt"
                           demo_world)))
  = (Ok tt,
     with_stdout ["Error generating embeddings for document uuid-1: encoder failed"]
       (with_tasks [] (snd (process_document demo_env (list_byte_of_string "boom") "a.txt"
                              demo_world)))).
Proof.
  refine (eq_trans (proj1 (embedding_failure_absorbed demo_env "uuid-1" (Some "boom") _ _
                             (CollaboratorError "encoder failed") _)) _).
  - vm_compute. reflexivity.
  - vm_compute. reflexivity.
Defined.

(** C7, as the specification states it, fails.  On a fresh store the
    encoder fails on the content of [a.txt]; the stage raises, ends
    normally, and the document's status is not [failed]: the status query
    raises.  On a store that has a [status] column, with the store out of
    reach while the stage runs, the stage raises, ends normally, and the
    status is still [processing] when the store is back. *)
Lemma embedding_failure_status_not_failed :
  let upload := process_document demo_env (list_byte_of_string "boom") "a.txt" demo_world in
  let after := run_background demo_env (snd upload) in
  let upload_m :=
    process_document demo_env (list_byte_of_string "hello") "a.txt" migrated_world in
  let down := with_store_up false (snd upload_m) in
  let after_m := run_background demo_env down in
  fst (embedding_stage demo_env "uuid-1" (Some "boom") (with_tasks [] (snd upload)))
    = Raise (CollaboratorError "encoder failed")
  /\ fst after = Ok tt
  /\ fst (get_document_status "uuid-1" (snd after))
     = Raise (DatabaseError "Unknown column 'status' in 'field list'")
  /\ fst (embedding_stage demo_env "uuid-1" (Some "hello") (with_tasks [] down))
     = Raise unreachable
  /\ fst after_m = Ok tt
  /\ fst (get_document_status "uuid-1" (with_store_up true (snd after_m))) = Ok PROCESSING.
Proof.
  cbv zeta. split_all; by_vm.
Qed.

(* ================================================================== *)
(** * Waiting for a document                                            *)
(* ================================================================== *)

Lemma keeps_clock_ret {A} (a : A) : keeps_clock (ret a).
Proof. now intros w. Qed.

Lemma keeps_clock_lift {A} (r : result A) : keeps_clock (lift r).
Proof. now intros w. Qed.

Lemma keeps_clock_bind {A B} (m : M A) (k : A -> M B) :
  keeps_clock m -> (forall a, keeps_clock (k a)) -> keeps_clock (bind m k).
Proof.
  intros Hm Hk w. unfold bind. specialize (Hm w).
  destruct (m w) as [[a | e] w1]; simpl in *; [| exact Hm].
  now rewrite Hk.
Qed.

Lemma keeps_clock_try {A} (m : M A) (h : exn -> M A) :
  keeps_clock m -> (forall e, keeps_clock (h e)) -> keeps_clock (try_except m h).
Proof.
  intros Hm Hh w. unfold try_except. specialize (Hm w).
  destruct (m w) as [[a | e] w1]; simpl in *; [exact Hm |].
  now rewrite Hh.
Qed.

Lemma keeps_clock_print (line : string) : keeps_clock (print line).
Proof. now intros w. Qed.

Lemma keeps_clock_new_uuid (env : Env) : keeps_clock (new_uuid env).
Proof. now intros w. Qed.

Lemma keeps_clock_insert name given : keeps_clock (session_insert name given).
Proof.
  intros w. unfold session_insert. destruct (store_up w); [| reflexivity].
  destruct (Sql.insert _ _ _ _); reflexivity.
Qed.

Lemma keeps_clock_update name sets key : keeps_clock (session_update name sets key).
Proof.
  intros w. unfold session_update. destruct (store_up w); [| reflexivity].
  destruct (Sql.update _ _ _ _ _); reflexivity.
Qed.

Lemma keeps_clock_set_status document_id status : keeps_clock (set_status document_id status).
Proof. intros w. unfold set_status. apply keeps_clock_update. Qed.

Lemma keeps_clock_commit : keeps_clock session_commit.
Proof. intros w. unfold session_commit. destruct (store_up w); reflexivity. Qed.

Create HintDb clock.
#[local] Hint Resolve keeps_clock_ret keeps_clock_lift keeps_clock_print
  keeps_clock_new_uuid keeps_clock_insert keeps_clock_set_status
  keeps_clock_commit : clock.

Section PollingFacts.

Context (env : Env).

Lemma keeps_clock_generate_embeddings document_id content :
  keeps_clock (_generate_embeddings env document_id content).
Proof.
  unfold _generate_embeddings, embedding_stage, mark_failed.
  apply keeps_clock_try.
  - destruct (negb (truthy content)); auto with clock.
    repeat (apply keeps_clock_bind; [auto with clock | intros ?]); auto with clock.
  - intros e. apply keeps_clock_bind; [auto with clock | intros _].
    apply keeps_clock_try; [| auto with clock].
    apply keeps_clock_bind; auto with clock.
Qed.

Lemma keeps_clock_run_tasks_list ts : keeps_clock (run_tasks_list env ts).
Proof.
  induction ts as [| t ts IH]; simpl; [apply keeps_clock_ret |].
  apply keeps_clock_bind; [apply keeps_clock_generate_embeddings | intros _; exact IH].
Qed.

(** A sleep ends normally, two seconds (or [s]) later. *)
Lemma asyncio_sleep_outcome (s : Z) (w : World) :
  fst (asyncio_sleep env s w) = Ok tt
  /\ clock (snd (asyncio_sleep env s w)) = clock w + s.
Proof.
  unfold asyncio_sleep, bind.
  pose proof (run_background_never_raises env w) as Hok.
  pose proof (keeps_clock_run_tasks_list (tasks w) (with_tasks [] w)) as Hclock.
  unfold run_background in *.
  destruct (run_tasks_list env (tasks w) (with_tasks [] w)) as [[[] | e] w1];
    [| discriminate].
  simpl in *. now rewrite Hclock.
Qed.

Lemma world_at_check_clock (w : World) (n : nat) :
  clock (world_at_check env w n) = clock w + 2 * Z.of_nat n.
Proof.
  induction n as [| n IH]; [simpl; lia |].
  change (world_at_check env w (S n)) with (snd (asyncio_sleep env 2 (world_at_check env w n))).
  rewrite (proj2 (asyncio_sleep_outcome 2 _)), IH. lia.
Qed.

Lemma checks_before_spec (timeout : Z) (n : nat) :
  (n < checks_before timeout)%nat <-> 2 * Z.of_nat n < timeout.
Proof.
  unfold checks_before. split; intros H.
  - assert (Z.of_nat n < (timeout + 1) / 2) by lia.
    pose proof (Z.mul_div_le (timeout + 1) 2 ltac:(lia)). lia.
  - assert (Z.of_nat n + 1 <= (timeout + 1) / 2); [| lia].
    apply Z.div_le_lower_bound; lia.
Qed.

(** While the timeout has not elapsed, the loop's test holds. *)
Lemma wait_guard (w : World) (k : nat) (timeout : Z) :
  timeout <= 86398 ->
  2 * Z.of_nat k < timeout ->
  (timedelta_seconds (clock (world_at_check env w k) - clock w) <? timeout) = true.
Proof.
  intros Ht Hk. rewrite world_at_check_clock. unfold timedelta_seconds.
  replace (clock w + 2 * Z.of_nat k - clock w) with (2 * Z.of_nat k) by lia.
  rewrite Z.mod_small by lia. now apply Z.ltb_lt.
Qed.

Variable document_id : string.

(** The loop from the [k]-th check on, when the [n] checks from there find
    no terminal status and the next one does. *)
Lemma wait_loop_returns (w : World) (timeout : Z) (status : DocumentStatus) (n : nat) :
  timeout <= 86398 ->
  forall (k fuel : nat),
  (n < fuel)%nat ->
  2 * Z.of_nat (k + n) < timeout ->
  (forall i, (k <= i < k + n)%nat ->
     exists s, fst (get_document_status document_id (world_at_check env w i)) = Ok s
               /\ is_terminal s = false) ->
  fst (get_document_status document_id (world_at_check env w (k + n))) = Ok status ->
  is_terminal status = true ->
  wait_loop env fuel document_id (clock w) timeout (world_at_check env w k)
  = Some (Ok status, world_at_check env w (k + n)).
Proof.
  intros Ht. induction n as [| n IH]; intros k fuel Hfuel Hlt Hbefore Hnow Hterm.
  - destruct fuel as [| fuel]; [lia |]. simpl.
    replace (k + 0)%nat with k in * by lia.
    rewrite (wait_guard w k timeout Ht) by lia.
    pose proof (get_document_status_world document_id (world_at_check env w k)) as Hw.
    destruct (get_document_status document_id (world_at_check env w k)) as [[s | e] w1];
      simpl in *; [| discriminate].
    injection Hnow as ->. subst w1. now rewrite Hterm.
  - destruct fuel as [| fuel]; [lia |]. simpl.
    rewrite (wait_guard w k timeout Ht) by lia.
    destruct (Hbefore k ltac:(lia)) as (s & Hs & Hnt).
    pose proof (get_document_status_world document_id (world_at_check env w k)) as Hw.
    destruct (get_document_status document_id (world_at_check env w k)) as [[s' | e] w1];
      simpl in *; [| discriminate].
    injection Hs as ->. subst w1. rewrite Hnt.
    pose proof (asyncio_sleep_outcome 2 (world_at_check env w k)) as [Hok _].
    change (world_at_check env w (S k)) with (snd (asyncio_sleep env 2 (world_at_check env w k)))
      in IH.
    destruct (asyncio_sleep env 2 (world_at_check env w k)) as [[[] | e] w2] eqn:Hsleep;
      simpl in *; [| discriminate].
    replace (k + S n)%nat with (S k + n)%nat in * by lia.
    specialize (IH (S k) fuel).
    change (world_at_check env w (S k)) with (snd (asyncio_sleep env 2 (world_at_check env w k)))
      in IH.
    rewrite Hsleep in IH. simpl in IH.
    apply IH; auto; try lia.
    intros i Hi. apply Hbefore. lia.
Qed.

(** The loop from the [k]-th check on, when no check before the timeout
    finds a terminal status. *)
Lemma wait_loop_times_out (w : World) (timeout : Z) (m : nat) :
  timeout <= 86398 ->
  forall (k fuel : nat),
  (m < fuel)%nat ->
  (k + m)%nat = checks_before timeout ->
  (forall i, (k <= i < k + m)%nat ->
     exists s, fst (get_document_status document_id (world_at_check env w i)) = Ok s
               /\ is_terminal s = false) ->
  wait_loop env fuel document_id (clock w) timeout (world_at_check env w k)
  = Some (Raise (TimeoutError "Document processing timeout"),
          world_at_check env w (checks_before timeout)).
Proof.
  intros Ht. induction m as [| m IH]; intros k fuel Hfuel Hk Hbefore.
  - destruct fuel as [| fuel]; [lia |]. simpl.
    replace (k + 0)%nat with k in * by lia. subst k.
    pose proof (checks_before_spec timeout (checks_before timeout)) as Hspec.
    assert (Hge : timeout <= 2 * Z.of_nat (checks_before timeout)) by lia.
    assert (Hsmall : 2 * Z.of_nat (checks_before timeout) < 86400).
    { unfold checks_before. destruct (Z_le_dec timeout 0).
      - replace (Z.to_nat ((timeout + 1) / 2)) with 0%nat; [lia |].
        assert ((timeout + 1) / 2 < 1); [| lia].
        apply Z.div_lt_upper_bound; lia.
      - rewrite Z2Nat.id by (apply Z.div_pos; lia).
        pose proof (Z.mul_div_le (timeout + 1) 2 ltac:(lia)). lia. }
    rewrite world_at_check_clock. unfold timedelta_seconds.
    replace (clock w + 2 * Z.of_nat (checks_before timeout) - clock w)
      with (2 * Z.of_nat (checks_before timeout)) by lia.
    rewrite Z.mod_small by lia.
    destruct (_ <? timeout) eqn:G; [apply Z.ltb_lt in G; lia | reflexivity].
  - destruct fuel as [| fuel]; [lia |]. simpl.
    assert (Hlt : 2 * Z.of_nat k < timeout).
    { apply checks_before_spec. lia. }
    rewrite (wait_guard w k timeout Ht) by lia.
    destruct (Hbefore k ltac:(lia)) as (s & Hs & Hnt).
    pose proof (get_document_status_world document_id (world_at_check env w k)) as Hw.
    destruct (get_document_status document_id (world_at_check env w k)) as [[s' | e] w1];
      simpl in *; [| discriminate].
    injection Hs as ->. subst w1. rewrite Hnt.
    pose proof (asyncio_sleep_outcome 2 (world_at_check env w k)) as [Hok _].
    specialize (IH (S k) fuel).
    change (world_at_check env w (S k)) with (snd (asyncio_sleep env 2 (world_at_check env w k)))
      in IH.
    destruct (asyncio_sleep env 2 (world_at_check env w k)) as [[[] | e] w2] eqn:Hsleep;
      simpl in *; [| discriminate].
    apply IH; try lia.
    intros i Hi. apply Hbefore. lia.
Qed.


End PollingFacts.


(** The status query raises no [TimeoutError] of its own. *)
Lemma get_document_status_no_timeout (document_id : string) (w : World) (message : string) :
  fst (get_document_status document_id w) <> Raise (TimeoutError message).
Proof.
  unfold get_document_status, bind, session_select, Sql.select, raise, lift, unreachable.
  destruct (store_up w); [| discriminate].
  destruct (pending w !! "documents") as [t |]; [| discriminate].
  destruct (Sql.has_column t "status"); [| discriminate].
  destruct (map _ _) as [| [| v | n | d] rows]; try discriminate.
  unfold DocumentStatus_of. simpl.
  repeat match goal with |- context [String.eqb ?a ?b] => destruct (String.eqb a b) end;
    discriminate.
Qed.

(** With a timeout of a day or more the test of the loop always holds:
    [timedelta.seconds] is below 86400. *)
Lemma wait_loop_no_timeout (env : Env) (fuel : nat) (document_id : string)
    (start_time timeout : Z) (w w' : World) (message : string) :
  86400 <= timeout ->
  wait_loop env fuel document_id start_time timeout w
  <> Some (Raise (TimeoutError message), w').
Proof.
  intros Ht. revert w. induction fuel as [| fuel IH]; intros w; simpl; [discriminate |].
  assert (G : (timedelta_seconds (clock w - start_time) <? timeout) = true).
  { unfold timedelta_seconds. apply Z.ltb_lt.
    pose proof (Z.mod_pos_bound (clock w - start_time) 86400 ltac:(lia)). lia. }
  rewrite G.
  destruct (get_document_status document_id w) as [[status | e] w1] eqn:Hs.
  - destruct (is_terminal status); [discriminate |].
    pose proof (asyncio_sleep_outcome env 2 w1) as [Hok _].
    destruct (asyncio_sleep env 2 w1) as [[[] | e] w2]; [apply IH | discriminate].
  - intros [= -> ->].
    apply (get_document_status_no_timeout document_id w message). now rewrite Hs.
Qed.



(* ================================================================== *)
(** * The search operation                                              *)
(* ================================================================== *)

(** The file-type filter raises on the first result it looks at. *)
Lemma filter_file_types_raises (file_types : list FileType) (r : DocumentSearchResult)
    (rest : list DocumentSearchResult) :
  filter_file_types file_types (r :: rest)
  = Raise (AttributeError "'DocumentSearchResult' object has no attribute 'file_type'").
Proof. reflexivity. Qed.

Lemma filter_file_types_ok (file_types : list FileType)
    (results kept : list DocumentSearchResult) :
  filter_file_types file_types results = Ok kept -> results = [] /\ kept = [].
Proof. destruct results; simpl; [intros [= <-]; auto | discriminate]. Qed.

Lemma filter_length {A} (f : A -> bool) (l : list A) :
  (length (List.filter f l) <= length l)%nat.
Proof. induction l as [| x l IH]; simpl; [lia |]. destruct (f x); simpl; lia. Qed.

(** The date filter keeps the results in range, in their order, and
    filtering again changes nothing. *)
Lemma filter_by_date_idempotent results date_from date_to :
  _filter_by_date (_filter_by_date results date_from date_to) date_from date_to
  = _filter_by_date results date_from date_to.
Proof.
  unfold _filter_by_date. induction results as [| r rs IH]; simpl; [reflexivity |].
  destruct (in_date_range date_from date_to r) eqn:E; simpl; [rewrite E |]; congruence.
Qed.

Lemma filter_by_date_sublist results date_from date_to :
  sublist (_filter_by_date results date_from date_to) results.
Proof.
  unfold _filter_by_date. induction results as [| r rs IH]; simpl; [constructor |].
  destruct (in_date_range date_from date_to r); now constructor.
Qed.

Lemma post_filter_length request results filtered :
  post_filter request results = Ok filtered ->
  (length filtered <= length results)%nat.
Proof.
  unfold post_filter, rbind.
  assert (Hdate : forall rs,
    (length (if is_some (q_date_from request) || is_some (q_date_to request)
             then _filter_by_date rs (q_date_from request) (q_date_to request)
             else rs) <= length rs)%nat).
  { intros rs. destruct (_ || _); [apply filter_length | lia]. }
  destruct (q_file_types request) as [[| t ts] |].
  - intros [= <-]. apply Hdate.
  - destruct (filter_file_types (t :: ts) results) as [kept |] eqn:F; [| discriminate].
    apply filter_file_types_ok in F as [-> ->]. intros [= <-].
    destruct (_ || _); simpl; lia.
  - intros [= <-]. apply Hdate.
Qed.

Section SearchFacts.

Context (env : Env).

(** Writing the audit log never raises. *)
Lemma log_search_never_raises query search_type results_count execution_time_ms w :
  fst (_log_search env query search_type results_count execution_time_ms w) = Ok tt.
Proof.
  unfold _log_search, try_except, bind, print.
  destruct (new_uuid env w) as [[log_id | e] w1]; [| reflexivity].
  destruct (session_takes_str env).
  - destruct (session_insert _ _ w1) as [[[] | e] w2]; [| reflexivity].
    destruct (session_commit w2) as [[[] | e] w3]; reflexivity.
  - reflexivity.
Qed.

(** What it writes does not depend on the query it was given. *)
Lemma log_search_ignores_query query query' search_type results_count execution_time_ms :
  _log_search env query search_type results_count execution_time_ms
  = _log_search env query' search_type results_count execution_time_ms.
Proof. reflexivity. Qed.

(** Every mode returns at most [limit] results, and none for a negative
    [limit]. *)
Lemma search_by_type_bound request search_type w results w1 :
  search_by_type env request search_type w = (Ok results, w1) ->
  Z.of_nat (length results) <= q_limit request.
Proof.
  unfold search_by_type.
  destruct (String.eqb search_type "vector").
  { intros H. now apply vector_search_bound in H. }
  destruct (String.eqb search_type "fulltext").
  { intros H. now apply fulltext_search_bound in H. }
  destruct (String.eqb search_type "hybrid"); [| discriminate].
  rewrite hybrid_search_unfold.
  destruct (_vector_search _ _ _ _ _) as [[vr | e] w2] eqn:Hv; [| discriminate].
  destruct (_fulltext_search _ _ _ _) as [[fr | e] w3] eqn:Hf; [| discriminate].
  intros [= <- <-]. apply vector_search_bound in Hv.
  apply hybrid_fuse_length. lia.
Qed.

(** A search that answers has run its mode, filtered what the mode
    returned, logged, and built the response from the filtered list. *)
Lemma search_documents_ok request w response w' :
  search_documents env request w = (Ok response, w') ->
  let search_type := PyStr.lower (q_search_type request) in
  exists candidates w1 filtered,
    search_by_type env request search_type w = (Ok candidates, w1)
    /\ post_filter request candidates = Ok filtered
    /\ w' = snd (_log_search env (q_query request) search_type
                   (Z.of_nat (length filtered)) ((clock w1 - clock w) * 1000) w1)
    /\ response = {| p_results := slice_to (q_limit request) filtered;
                     p_total_count := Z.of_nat (length filtered);
                     p_search_type := search_type;
                     p_execution_time_ms := (clock w1 - clock w) * 1000;
                     p_query := q_query request |}.
Proof.
  cbv zeta. unfold search_documents, bind, now, try_except, lift, ret, raise. simpl.
  destruct (search_by_type env request _ w) as [[candidates | e] w1] eqn:Hs.
  - destruct (post_filter request candidates) as [filtered | e] eqn:Hp.
    + pose proof (log_search_never_raises (q_query request)
                    (PyStr.lower (q_search_type request)) (Z.of_nat (length filtered))
                    ((clock w1 - clock w) * 1000) w1) as Hlog.
      destruct (_log_search env _ _ _ _ w1) as [[[] | e] w2] eqn:Hl; [| discriminate].
      intros [= <- <-]. exists candidates, w1, filtered. rewrite Hl. auto.
    + destruct (is_HTTPException e); discriminate.
  - destruct (is_HTTPException e); discriminate.
Qed.

(** C10, as the code has it.  In the response of a search, [total_count]
    is the number of results left by the filters, counted before the last
    truncation to [limit]; it is at least the number of results returned,
    and it never exceeds [limit]: every mode has already cut its list to
    [limit], so the last truncation removes nothing and [total_count] is
    the number of results returned. *)
Theorem search_total_count (request : DocumentSearchRequest) (w w' : World)
    (response : DocumentSearchResponse) :
  search_documents env request w = (Ok response, w') ->
  exists candidates w1 filtered,
    search_by_type env request (PyStr.lower (q_search_type request)) w = (Ok candidates, w1)
    /\ post_filter request candidates = Ok filtered
    /\ p_results response = slice_to (q_limit request) filtered
    /\ p_total_count response = Z.of_nat (length filtered)
    /\ Z.of_nat (length (p_results response)) <= p_total_count response
    /\ p_total_count response <= q_limit request
    /\ p_results response = filtered.
Proof.
  intros H. apply search_documents_ok in H as (candidates & w1 & filtered & Hs & Hp & _ & ->).
  exists candidates, w1, filtered. simpl.
  pose proof (search_by_type_bound _ _ _ _ _ Hs) as Hb.
  pose proof (post_filter_length _ _ _ Hp) as Hl.
  pose proof (slice_to_length (q_limit request) filtered) as Hsl.
  repeat split; auto; try lia.
  apply slice_to_all. lia.
Qed.

End SearchFacts.

(** A vector search with limit 2 over three near documents. *)
Lemma search_total_count_witness :
  exists response,
    fst (search_documents demo_env (demo_request "q" "vector" 2) demo_world) = Ok response
    /\ p_total_count response = 2
    /\ length (p_results response) = 2%nat.
Proof.
  destruct (search_documents demo_env (demo_request "q" "vector" 2) demo_world)
    as [[response | e] w'] eqn:H; [| vm_compute in H; discriminate].
  exists response. split; [reflexivity |].
  destruct (search_total_count demo_env _ _ _ _ H)
    as (candidates & w1 & filtered & Hs & Hp & Hr & Ht & _ & _ & Hall).
  vm_compute in Hs. injection Hs as <- <-.
  vm_compute in Hp. injection Hp as <-.
  rewrite Ht, Hall. split; reflexivity.
Defined.

(** C10, as the specification states it, fails: no search has a
    [total_count] above its [limit]. *)
Lemma total_count_never_exceeds_limit :
  ~ exists (env : Env) (request : DocumentSearchRequest) (w w' : World)
      (response : DocumentSearchResponse),
      search_documents env request w = (Ok response, w')
      /\ q_limit request < p_total_count response.
Proof.
  intros (env & request & w & w' & response & H & Hlt).
  apply search_documents_ok in H as (candidates & w1 & filtered & Hs & Hp & _ & ->).
  simpl in Hlt.
  pose proof (search_by_type_bound _ _ _ _ _ _ Hs) as Hb.
  pose proof (post_filter_length _ _ _ Hp) as Hl.
  lia.
Qed.

(** C9.  The full-text search for ["nothing"], which matches no
    document: the search answers, and the row written to the audit log
    carries the mode, the count and the time, but under [query] the text
    of the [INSERT] statement, not the query.  With a session that takes
    no plain string the search answers as well, the failure is printed,
    and no row is written. *)
Theorem search_log_query_text :
  let request := demo_request "nothing" "fulltext" 10 in
  let run := search_documents demo_env request demo_world in
  let run_strict := search_documents strict_env request demo_world in
  (exists response, fst run = Ok response /\ p_query response = "nothing"
                    /\ p_total_count response = 0)
  /\ logged (snd run) = Some [(Sql.Str log_statement, Sql.Str "fulltext", Sql.Int 0, Sql.Int 0)]
  /\ log_statement <> "nothing"
  /\ (exists response, fst run_strict = Ok response /\ p_total_count response = 0)
  /\ logged (snd run_strict) = Some []
  /\ stdout (snd run_strict)
     = ["Failed to log search: Textual SQL expression should be explicitly declared as text()"].
Proof.
  cbv zeta. split_all; try by_vm; try discriminate.
  - eexists. split; [by_vm |]. split; reflexivity.
  - eexists. split; [by_vm |]. reflexivity.
Qed.

(** C6.  The full-text search for ["q"] restricted to text files: the
    two results are found, the file-type filter reads [r.file_type] on the
    first of them, and the caller gets an HTTP 500 instead of a filtered
    list, while the same request without the restriction returns the two
    results; the filter raises on every list that is not empty.  (With
    rows of the selected columns only, the restricted request gets an
    HTTP 500 as well, raised when the first result is built.) *)
Theorem file_type_filter_raises :
  let restricted :=
    {| q_query := "q"; q_search_type := "fulltext"; q_limit := 10;
       q_threshold := 1%float; q_file_types := Some [TXT]; q_date_from := None;
       q_date_to := None |} in
  fst (search_documents demo_env restricted demo_world)
  = Raise (HTTPException 500 "'DocumentSearchResult' object has no attribute 'file_type'")
  /\ (exists response,
        fst (search_documents demo_env (demo_request "q" "fulltext" 10) demo_world)
        = Ok response
        /\ map r_id (p_results response) = ["d3"; "d1"])
  /\ (forall file_types r rest,
        filter_file_types file_types (r :: rest)
        = Raise (AttributeError "'DocumentSearchResult' object has no attribute 'file_type'"))
  /\ fst (search_documents strict_env restricted demo_world)
     = Raise (HTTPException 500 "created_at: Input should be a valid datetime").
Proof.
  cbv zeta. split_all; try by_vm.
  eexists. split; [by_vm | reflexivity].
Qed.

(* ================================================================== *)
(** * Rows of the selected columns, and what an upload commits          *)
(* ================================================================== *)

(** [search_similar_documents] selects five columns and
    [full_text_search] four, so the rows they fetch end there; no result
    can be built from such a row. *)
Lemma vector_result_selected_columns (doc : VectorRow) :
  v_rest doc = [] ->
  vector_result doc = Raise (TypeError "object of type 'NoneType' has no len()")
  \/ vector_result doc = Raise (ValidationError "created_at: Input should be a valid datetime").
Proof.
  intros H. unfold vector_result, shown_content, rbind, new_DocumentSearchResult.
  rewrite H. destruct (v_content doc); auto.
Qed.

Lemma fulltext_result_selected_columns (doc : FulltextRow) :
  f_rest doc = [] ->
  fulltext_result doc = Raise (TypeError "object of type 'NoneType' has no len()")
  \/ fulltext_result doc = Raise (ValidationError "created_at: Input should be a valid datetime").
Proof.
  intros H. unfold fulltext_result, shown_content, rbind, new_DocumentSearchResult.
  rewrite H. destruct (f_content doc); auto.
Qed.

Section SelectedColumns.

Context (env : Env).

(** A vector search or a full-text search whose store returns a first row
    of the selected columns only raises; it returns a list only when the
    store returned no row. *)
Theorem searches_raise_on_selected_columns (query : string) (limit : Z) (threshold : float)
    (w : World) :
  (forall embedding doc rows,
     encode env query = Ok embedding ->
     search_similar_documents env embedding limit threshold w = (Ok (doc :: rows), w) ->
     v_rest doc = [] ->
     exists e, _vector_search env query limit threshold w = (Raise e, w))
  /\ (forall doc rows,
        full_text_search env query limit w = (Ok (doc :: rows), w) ->
        f_rest doc = [] ->
        exists e, _fulltext_search env query limit w = (Raise e, w)).
Proof.
  split.
  - intros embedding doc rows He Hs Hrest.
    unfold _vector_search, bind, lift. rewrite He, Hs. simpl.
    destruct (vector_result_selected_columns doc Hrest) as [-> | ->]; eauto.
  - intros doc rows Hs Hrest.
    unfold _fulltext_search, bind, lift. rewrite Hs. simpl.
    destruct (fulltext_result_selected_columns doc Hrest) as [-> | ->]; eauto.
Qed.

End SelectedColumns.

(** A list of results is built from rows of the selected columns only
    when there is no row. *)
Lemma rmap_vector_selected (rows : list VectorRow) (rs : list DocumentSearchResult) :
  (forall doc, In doc rows -> v_rest doc = []) ->
  rmap vector_result rows = Ok rs -> rows = [] /\ rs = [].
Proof.
  intros H. destruct rows as [| doc rows]; simpl; [now intros [= <-] |].
  destruct (vector_result_selected_columns doc (H doc (or_introl eq_refl))) as [-> | ->];
    discriminate.
Qed.

Lemma rmap_fulltext_selected (rows : list FulltextRow) (rs : list DocumentSearchResult) :
  (forall doc, In doc rows -> f_rest doc = []) ->
  rmap fulltext_result rows = Ok rs -> rows = [] /\ rs = [].
Proof.
  intros H. destruct rows as [| doc rows]; simpl; [now intros [= <-] |].
  destruct (fulltext_result_selected_columns doc (H doc (or_introl eq_refl))) as [-> | ->];
    discriminate.
Qed.

Lemma sql_limit_incl {A} (n : Z) (rows kept : list A) (x : A) :
  Sql.limit n rows = Ok kept -> In x kept -> In x rows.
Proof.
  unfold Sql.limit. destruct (n <? 0); [discriminate |].
  intros [= <-]. apply firstn_incl.
Qed.

Lemma hybrid_fuse_nil (limit : Z) : hybrid_fuse [] [] limit = [].
Proof.
  unfold hybrid_fuse, slice_to. simpl.
  destruct (0 <=? limit); now rewrite List.firstn_nil.
Qed.

Section NoDocumentScored.

Context (env : Env) (query : string) (limit : Z) (threshold : float) (w : World).

Hypothesis vector_columns :
  forall embedding doc,
    In doc (nearest_rows env (committed w) embedding threshold) -> v_rest doc = [].

Hypothesis fulltext_columns :
  forall doc, In doc (match_rows env (committed w) query) -> f_rest doc = [].

Lemma vector_search_selected (n : Z) (rs : list DocumentSearchResult) (w' : World) :
  _vector_search env query n threshold w = (Ok rs, w') -> rs = [] /\ w' = w.
Proof.
  unfold _vector_search, bind, lift, search_similar_documents.
  destruct (encode env query) as [embedding |]; [| discriminate].
  destruct (store_up w); [| discriminate].
  destruct (Sql.limit n _) as [rows |] eqn:L; [| discriminate].
  destruct (rmap vector_result rows) as [rs' |] eqn:R; [| discriminate].
  intros [= <- <-]. split; [| reflexivity].
  apply (rmap_vector_selected rows); [| exact R].
  intros doc Hin. apply (vector_columns embedding). exact (sql_limit_incl _ _ _ _ L Hin).
Qed.

Lemma fulltext_search_selected (n : Z) (rs : list DocumentSearchResult) (w' : World) :
  _fulltext_search env query n w = (Ok rs, w') -> rs = [] /\ w' = w.
Proof.
  unfold _fulltext_search, bind, lift, full_text_search.
  destruct (store_up w); [| discriminate].
  destruct (Sql.limit n _) as [rows |] eqn:L; [| discriminate].
  destruct (rmap fulltext_result rows) as [rs' |] eqn:R; [| discriminate].
  intros [= <- <-]. split; [| reflexivity].
  apply (rmap_fulltext_selected rows); [| exact R].
  intros doc Hin. apply fulltext_columns. exact (sql_limit_incl _ _ _ _ L Hin).
Qed.

(** With rows of the selected columns a hybrid search that returns has
    found no document, and returns the empty list. *)
Lemma hybrid_search_selected (results : list DocumentSearchResult) (w' : World) :
  _hybrid_search env query limit threshold w = (Ok results, w') ->
  results = []
  /\ _vector_search env query (limit * 2) threshold w = (Ok [], w)
  /\ _fulltext_search env query (limit * 2) w = (Ok [], w).
Proof.
  rewrite hybrid_search_unfold.
  destruct (_vector_search env query (limit * 2) threshold w) as [[vr | e] w1] eqn:Hv;
    [| discriminate].
  destruct (vector_search_selected _ _ _ Hv) as [-> ->].
  destruct (_fulltext_search env query (limit * 2) w) as [[fr | e] w2] eqn:Hf;
    [| discriminate].
  destruct (fulltext_search_selected _ _ _ Hf) as [-> ->].
  intros [= <- <-]. rewrite hybrid_fuse_nil. auto.
Qed.

(** It raises as soon as one of its two searches fetches a row. *)
Lemma hybrid_search_selected_row :
  (forall embedding doc rows,
     encode env query = Ok embedding ->
     search_similar_documents env embedding (limit * 2) threshold w = (Ok (doc :: rows), w) ->
     exists e w', _hybrid_search env query limit threshold w = (Raise e, w'))
  /\ (forall doc rows,
        full_text_search env query (limit * 2) w = (Ok (doc :: rows), w) ->
        exists e w', _hybrid_search env query limit threshold w = (Raise e, w')).
Proof.
  split.
  - intros embedding doc rows He Hs.
    destruct (_hybrid_search env query limit threshold w) as [[results | e] w'] eqn:H;
      [| eauto].
    apply hybrid_search_selected in H as (_ & Hv & _).
    unfold _vector_search, bind, lift in Hv. rewrite He, Hs in Hv. simpl in Hv.
    destruct (vector_result doc); [| discriminate].
    destruct (rmap vector_result rows); discriminate.
  - intros doc rows Hs.
    destruct (_hybrid_search env query limit threshold w) as [[results | e] w'] eqn:H;
      [| eauto].
    apply hybrid_search_selected in H as (_ & _ & Hf).
    unfold _fulltext_search, bind, lift in Hf. rewrite Hs in Hf. simpl in Hf.
    destruct (fulltext_result doc); [| discriminate].
    destruct (rmap fulltext_result rows); discriminate.
Qed.

End NoDocumentScored.

(** C1.  The hybrid search never scores a document.  The two store
    queries select five and four columns, so the rows they fetch end
    there, while a result needs the creation time that a further column
    would hold.  With such rows, whatever the collaborators, the query,
    the limit and the threshold: a hybrid search that returns has found
    no document and returns the empty list, and it raises as soon as one
    of its two searches fetches a row.  For the query ["q"], for which
    the vector search fetches [d1], [d2] and [d4] and the full-text
    search [d3] and [d1], the hybrid search raises, where the
    specification has [d1] scored 0.6 * 0.75 + 0.4 * 1; it returns, the
    empty list, only when no document is found.  (The fusion is reached,
    and gives [d1] that score, only with rows that carry a creation time
    after the selected columns, which the store queries do not fetch.) *)
Theorem hybrid_search_never_scores :
  (forall (env : Env) (query : string) (limit : Z) (threshold : float) (w w' : World)
          (results : list DocumentSearchResult),
     (forall embedding doc,
        In doc (nearest_rows env (committed w) embedding threshold) -> v_rest doc = []) ->
     (forall doc, In doc (match_rows env (committed w) query) -> f_rest doc = []) ->
     _hybrid_search env query limit threshold w = (Ok results, w') ->
     results = [])
  /\ (forall (env : Env) (query : string) (limit : Z) (threshold : float) (w : World)
             (embedding : list float) (doc : VectorRow) (rows : list VectorRow),
        (forall embedding doc,
           In doc (nearest_rows env (committed w) embedding threshold) -> v_rest doc = []) ->
        (forall doc, In doc (match_rows env (committed w) query) -> f_rest doc = []) ->
        encode env query = Ok embedding ->
        search_similar_documents env embedding (limit * 2) threshold w
        = (Ok (doc :: rows), w) ->
        exists e w', _hybrid_search env query limit threshold w = (Raise e, w'))
  /\ (forall (env : Env) (query : string) (limit : Z) (threshold : float) (w : World)
             (doc : FulltextRow) (rows : list FulltextRow),
        (forall embedding doc,
           In doc (nearest_rows env (committed w) embedding threshold) -> v_rest doc = []) ->
        (forall doc, In doc (match_rows env (committed w) query) -> f_rest doc = []) ->
        full_text_search env query (limit * 2) w = (Ok (doc :: rows), w) ->
        exists e w', _hybrid_search env query limit threshold w = (Raise e, w'))
  /\ (forall db embedding threshold doc,
        In doc (nearest_rows strict_env db embedding threshold) -> v_rest doc = [])
  /\ (forall db query doc, In doc (match_rows strict_env db query) -> f_rest doc = [])
  /\ map v_id (nearest_rows strict_env (committed demo_world) [1%float] 1) = ["d1"; "d2"; "d4"]
  /\ map f_id (match_rows strict_env (committed demo_world) "q") = ["d3"; "d1"]
  /\ fst (_hybrid_search strict_env "q" 2 1 demo_world)
     = Raise (ValidationError "created_at: Input should be a valid datetime")
  /\ fst (_hybrid_search strict_env "nothing" 2 0 demo_world) = Ok []
  /\ (exists r rest,
        fst (_hybrid_search demo_env "q" 2 1 demo_world) = Ok (r :: rest)
        /\ r_id r = "d1"
        /\ similarity_score r = Some (0.75 * 0.6 + 1 * 0.4)%float).
Proof.
  split_all.
  - intros env query limit threshold w w' results Hv Hf H.
    exact (proj1 (hybrid_search_selected env query limit threshold w Hv Hf results w' H)).
  - intros env query limit threshold w embedding doc rows Hv Hf.
    exact (proj1 (hybrid_search_selected_row env query limit threshold w Hv Hf)
             embedding doc rows).
  - intros env query limit threshold w doc rows Hv Hf.
    exact (proj2 (hybrid_search_selected_row env query limit threshold w Hv Hf) doc rows).
  - intros db embedding threshold doc Hin. simpl in Hin.
    apply List.in_map_iff in Hin as (doc0 & <- & _). reflexivity.
  - intros db query doc Hin. simpl in Hin.
    apply List.in_map_iff in Hin as (doc0 & <- & _). reflexivity.
  - by_vm.
  - by_vm.
  - by_vm.
  - by_vm.
  - eexists _, _. split; [by_vm |]. split; by_vm.
Qed.

(** An [INSERT] that binds a column stores the bound value in it. *)
Lemma new_row_field (now : datetime) (given : list (string * Sql.value)) (t : Sql.table)
    (name : string) (kv : string * Sql.value) :
  List.find (fun kv => String.eqb (fst kv) name) given = Some kv ->
  Sql.has_column t name = true ->
  Sql.field name (Sql.new_row now given t) = snd kv.
Proof.
  intros Hfind. unfold Sql.new_row, Sql.has_column, Sql.field.
  induction (Sql.t_columns t) as [| c cs IH]; simpl; [discriminate |].
  destruct (String.eqb (Sql.c_name c) name) eqn:E.
  - intros _. apply String.eqb_eq in E. rewrite lookup_insert.
    rewrite decide_True by exact E. unfold Sql.stored. rewrite E, Hfind. reflexivity.
  - simpl. intros Hcs. apply String.eqb_neq in E.
    rewrite lookup_insert_ne by exact E. now apply IH.
Qed.

(** A successful [INSERT] adds a row that carries the bound values. *)
Lemma insert_adds_row (now : datetime) (name : string) (given : list (string * Sql.value))
    (db db' : Sql.database) :
  Sql.insert now name given db = Ok db' ->
  exists t r,
    db' !! name = Some t /\ In r (Sql.t_rows t)
    /\ forall column kv,
         List.find (fun kv => String.eqb (fst kv) column) given = Some kv ->
         Sql.field column r = snd kv.
Proof.
  unfold Sql.insert. destruct (db !! name) as [t |]; [| discriminate].
  destruct (List.find (fun kv => negb (Sql.has_column t (fst kv))) given) as [bad |] eqn:Hbad;
    [discriminate |].
  destruct (negb (forallb _ _)); [discriminate |].
  destruct (Sql.has_id _ t); [discriminate |].
  destruct (negb (forallb _ _)); [discriminate |].
  intros [= <-]. eexists. exists (Sql.new_row now given t).
  split; [apply lookup_insert_eq |]. split; [simpl; apply List.in_or_app; simpl; auto |].
  intros column kv Hfind. apply new_row_field; [exact Hfind |].
  apply List.find_some in Hfind as [Hin Heq]. apply String.eqb_eq in Heq. subst column.
  pose proof (List.find_none _ _ Hbad kv Hin) as Hcol. simpl in Hcol.
  now destruct (Sql.has_column t (fst kv)).
Qed.

Section Persistence.

Context (env : Env).

(** An accepted upload is in the committed store when [process_document]
    returns: the [documents] table holds a row with the id and the file
    name of the returned document, and the session has nothing
    uncommitted. *)
Theorem accepted_upload_is_committed (file_content : bytes) (filename : string)
    (w w' : World) (d : DocumentResponse) :
  process_document env file_content filename w = (Ok d, w') ->
  d_status d = PROCESSING
  /\ committed w' = pending w'
  /\ exists t r,
       committed w' !! "documents" = Some t /\ In r (Sql.t_rows t)
       /\ Sql.field "id" r = Sql.Str (d_id d)
       /\ Sql.field "filename" r = Sql.Str filename.
Proof.
  unfold process_document, try_except, bind, lift, raise, ret, now, create_task.
  destruct (_get_file_type filename) as [file_type | e]; [| discriminate].
  destruct (_save_file env file_content filename w) as [[file_path | e] w1]; [| discriminate].
  destruct (_extract_text env file_content file_type w1) as [[content | e] w2];
    [| discriminate].
  unfold new_uuid, _store_document, bind, session_insert, session_commit. simpl.
  destruct (store_up w2) eqn:Hup; [| discriminate].
  destruct (Sql.insert _ _ _ _) as [db' |] eqn:Hins; [| discriminate].
  simpl. rewrite Hup. intros [= <- <-]. simpl.
  split; [reflexivity |]. split; [reflexivity |].
  apply insert_adds_row in Hins as (t & r & Ht & Hin & Hfield).
  exists t, r. split; [exact Ht |]. split; [exact Hin |].
  split; [apply (Hfield "id" ("id", _)) | apply (Hfield "filename" ("filename", _))];
    reflexivity.
Qed.

End Persistence.

Lemma accepted_upload_is_committed_witness :
  committed (snd (process_document demo_env (list_byte_of_string "hello") "a.txt" demo_world))
  = pending (snd (process_document demo_env (list_byte_of_string "hello") "a.txt" demo_world)).
Proof.
  destruct (process_document demo_env (list_byte_of_string "hello") "a.txt" demo_world)
    as [[d | e] w'] eqn:H; [| vm_compute in H; discriminate].
  exact (proj1 (proj2 (accepted_upload_is_committed demo_env _ _ _ _ _ H))).
Defined.

(* ================================================================== *)
(** * The date filter in a search, and the stage on a fresh store       *)
(* ================================================================== *)

Section DateFilter.

Context (env : Env).

(** A search that answers a request without file types returns the date
    filter applied to the list its mode returned, cut to [limit]
    afterwards; without dates it returns the mode's list cut to [limit]. *)
Theorem date_filter_before_truncation (request : DocumentSearchRequest) (w w' : World)
    (response : DocumentSearchResponse) :
  search_documents env request w = (Ok response, w') ->
  q_file_types request = None ->
  exists candidates w1,
    search_by_type env request (PyStr.lower (q_search_type request)) w = (Ok candidates, w1)
    /\ p_results response
       = slice_to (q_limit request)
           (if is_some (q_date_from request) || is_some (q_date_to request)
            then _filter_by_date candidates (q_date_from request) (q_date_to request)
            else candidates).
Proof.
  intros H Hnone.
  apply search_documents_ok in H as (candidates & w1 & filtered & Hs & Hp & _ & ->).
  exists candidates, w1. split; [exact Hs |]. simpl.
  unfold post_filter in Hp. rewrite Hnone in Hp. simpl in Hp.
  injection Hp as <-. reflexivity.
Qed.

End DateFilter.

(** The vector search for ["q"] from time 15 on: [d1] (time 10) is
    dropped, [d2] and [d4] stay in their order. *)
Lemma date_filter_before_truncation_witness :
  exists response,
    fst (search_documents demo_env
           {| q_query := "q"; q_search_type := "vector"; q_limit := 10;
              q_threshold := 1%float; q_file_types := None; q_date_from := Some 15;
              q_date_to := None |} demo_world) = Ok response
    /\ map r_id (p_results response) = ["d2"; "d4"].
Proof.
  destruct (search_documents demo_env _ demo_world) as [[response | e] w'] eqn:H;
    [| vm_compute in H; discriminate].
  exists response. split; [reflexivity |].
  destruct (date_filter_before_truncation demo_env _ _ _ _ H eq_refl)
    as (candidates & w1 & Hs & ->).
  vm_compute in Hs. injection Hs as <- <-. reflexivity.
Defined.

(** On a store created by [init_db] the stage cannot record its outcome:
    for the upload of [a.txt] the embedding is computed and inserted, the
    update to [completed] raises for want of a [status] column, the update
    to [failed] raises likewise and is dropped, nothing is committed, and
    the status query still raises. *)
Theorem fresh_store_never_completes :
  let upload := process_document demo_env (list_byte_of_string "hello") "a.txt" demo_world in
  let after := run_background demo_env (snd upload) in
  fst after = Ok tt
  /\ stdout (snd after)
     = ["Error generating embeddings for document uuid-1: Unknown column 'status' in 'field list'"]
  /\ committed (snd after) = committed (snd upload)
  /\ fst (get_document_status "uuid-1" (snd after))
     = Raise (DatabaseError "Unknown column 'status' in 'field list'").
Proof.
  cbv zeta. split_all; by_vm.
Qed.

(* ================================================================== *)
(** * Errors of the search operation                                    *)
(* ================================================================== *)

Lemma rmap_exn {A B} (f : A -> result B) (P : exn -> Prop) (l : list A) (e : exn) :
  (forall a e, f a = Raise e -> P e) -> rmap f l = Raise e -> P e.
Proof.
  intros Hf. induction l as [| x l IH]; simpl; [discriminate |].
  destruct (f x) as [y | e0] eqn:E.
  - destruct (rmap f l) as [ys | e1]; [discriminate |].
    intros [= <-]. now apply IH.
  - intros [= <-]. eauto.
Qed.

Lemma vector_result_exn doc e : vector_result doc = Raise e -> is_HTTPException e = false.
Proof.
  unfold vector_result, shown_content, rbind, new_DocumentSearchResult.
  destruct (v_content doc); [| intros [= <-]; reflexivity].
  destruct (match v_rest doc with [] => None | t :: _ => t end); [discriminate |].
  intros [= <-]. reflexivity.
Qed.

Lemma fulltext_result_exn doc e : fulltext_result doc = Raise e -> is_HTTPException e = false.
Proof.
  unfold fulltext_result, shown_content, rbind, new_DocumentSearchResult.
  destruct (f_content doc); [| intros [= <-]; reflexivity].
  destruct (match f_rest doc with [] => None | t :: _ => t end); [discriminate |].
  intros [= <-]. reflexivity.
Qed.

Lemma sql_limit_exn {A} (n : Z) (rows : list A) e :
  Sql.limit n rows = Raise e -> is_HTTPException e = false.
Proof. unfold Sql.limit. destruct (n <? 0); [intros [= <-]; reflexivity | discriminate]. Qed.

(** What goes through the handler shared by the routes:
    [except HTTPException: raise] and [except Exception as e: raise
    HTTPException(500, str(e))]. *)
Lemma http_handler_exn {A} (body : M A) (w w' : World) (e : exn) :
  try_except body
    (fun e => if is_HTTPException e then raise e
              else raise (HTTPException 500 (exn_str e))) w = (Raise e, w') ->
  is_HTTPException e = true.
Proof.
  unfold try_except, raise. destruct (body w) as [[a | e0] w1]; [discriminate |].
  destruct (is_HTTPException e0) eqn:E; intros [= <- <-]; [exact E | reflexivity].
Qed.

Section SearchErrors.

Context (env : Env).

Lemma vector_search_exn query n threshold w e w' :
  plain_encoder env ->
  _vector_search env query n threshold w = (Raise e, w') -> is_HTTPException e = false.
Proof.
  intros Henc. unfold _vector_search, bind, lift, search_similar_documents.
  destruct (encode env query) as [v | e0] eqn:E; [| intros [= <- <-]; eauto].
  destruct (store_up w); [| intros [= <- <-]; reflexivity].
  destruct (Sql.limit n _) as [rows | e0] eqn:L;
    [| intros [= <- <-]; now apply sql_limit_exn in L].
  destruct (rmap vector_result rows) as [rs | e0] eqn:R; [discriminate |].
  intros [= <- <-].
  exact (rmap_exn vector_result (fun e => is_HTTPException e = false) rows e0
           vector_result_exn R).
Qed.

Lemma fulltext_search_exn query n w e w' :
  _fulltext_search env query n w = (Raise e, w') -> is_HTTPException e = false.
Proof.
  unfold _fulltext_search, bind, lift, full_text_search.
  destruct (store_up w); [| intros [= <- <-]; reflexivity].
  destruct (Sql.limit n _) as [rows | e0] eqn:L;
    [| intros [= <- <-]; now apply sql_limit_exn in L].
  destruct (rmap fulltext_result rows) as [rs | e0] eqn:R; [discriminate |].
  intros [= <- <-].
  exact (rmap_exn fulltext_result (fun e => is_HTTPException e = false) rows e0
           fulltext_result_exn R).
Qed.

Lemma hybrid_search_exn query n threshold w e w' :
  plain_encoder env ->
  _hybrid_search env query n threshold w = (Raise e, w') -> is_HTTPException e = false.
Proof.
  intros Henc. rewrite hybrid_search_unfold.
  destruct (_vector_search env query (n * 2) threshold w) as [[vr | e0] w1] eqn:Hv.
  - destruct (_fulltext_search env query (n * 2) w1) as [[fr | e1] w2] eqn:Hf; [discriminate |].
    intros [= <- <-]. now apply fulltext_search_exn in Hf.
  - intros [= <- <-]. now apply vector_search_exn in Hv.
Qed.

Lemma post_filter_exn request results e :
  post_filter request results = Raise e -> is_HTTPException e = false.
Proof.
  unfold post_filter, rbind.
  destruct (q_file_types request) as [[| t ts] |]; try discriminate.
  destruct results as [| r rest]; simpl; [discriminate |].
  intros [= <-]. reflexivity.
Qed.

(** The search operation raises nothing but HTTP exceptions.  A search
    type that is, lowered, none of [vector], [fulltext] and [hybrid] is
    answered with status 400 before anything is searched or logged; with
    a known search type, and an encoder that raises no HTTP exception of
    its own, every failure is answered with status 500 and the text of
    the exception that caused it. *)
Theorem search_documents_errors (request : DocumentSearchRequest) (w : World) :
  (forall e w', search_documents env request w = (Raise e, w') -> is_HTTPException e = true)
  /\ (str_in (PyStr.lower (q_search_type request)) search_types = false ->
      search_documents env request w
      = (Raise (HTTPException 400 "Invalid search type. Use 'vector', 'fulltext', or 'hybrid'"),
         w))
  /\ (str_in (PyStr.lower (q_search_type request)) search_types = true ->
      plain_encoder env ->
      forall e w', search_documents env request w = (Raise e, w') ->
        exists cause, is_HTTPException cause = false
                      /\ e = HTTPException 500 (exn_str cause)).
Proof.
  split; [| split].
  - intros e w'. unfold search_documents, bind, now. apply http_handler_exn.
  - unfold search_types, str_in. simpl. intros H.
    repeat (apply orb_false_elim in H as [? H]).
    unfold search_documents, bind, now, try_except, raise, search_by_type.
    repeat match goal with
           | E : String.eqb ?a ?b = false |- _ => rewrite E; clear E
           end.
    reflexivity.
  - unfold search_types, str_in. simpl. intros Htype Henc e w'.
    unfold search_documents, bind, now, try_except, lift, ret, raise. simpl.
    destruct (search_by_type env request _ w) as [[candidates | e0] w1] eqn:Hs.
    + destruct (post_filter request candidates) as [filtered | e0] eqn:Hp.
      * pose proof (log_search_never_raises env (q_query request)
                      (PyStr.lower (q_search_type request)) (Z.of_nat (length filtered))
                      ((clock w1 - clock w) * 1000) w1) as Hlog.
        destruct (_log_search env _ _ _ _ w1) as [[[] | e1] w2]; discriminate.
      * apply post_filter_exn in Hp. rewrite Hp. intros [= <- <-]. eauto.
    + assert (He0 : is_HTTPException e0 = false).
      { unfold search_by_type in Hs.
        destruct (String.eqb _ "vector"); [now apply vector_search_exn in Hs |].
        destruct (String.eqb _ "fulltext"); [now apply fulltext_search_exn in Hs |].
        destruct (String.eqb _ "hybrid"); [now apply hybrid_search_exn in Hs |].
        discriminate. }
      rewrite He0. intros [= <- <-]. eauto.
Qed.

(* ================================================================== *)
(** * The routes /vector, /fulltext and /similar                        *)
(* ================================================================== *)

Context (eval : string -> result (list float)).

(** The routes [/vector] and [/fulltext] answer a request within the
    declared bounds with at most [limit] results, hence at most 100, and
    [total_count] is their number; whatever fails is answered with
    status 500 and the text of the exception. *)
Theorem vector_and_fulltext_routes (query : string) (limit : Z) (threshold : float)
    (w : World) :
  limit_in_bounds limit = true ->
  (match vector_search env query limit threshold w with
   | (Ok answer, _) =>
       a_total_count answer = Z.of_nat (length (a_results answer))
       /\ a_total_count answer <= limit <= 100
       /\ a_search_type answer = "vector" /\ a_query answer = query
   | (Raise e, _) =>
       exists cause w1, _vector_search env query limit threshold w = (Raise cause, w1)
                        /\ e = HTTPException 500 (exn_str cause)
   end)
  /\ (match fulltext_search env query limit w with
      | (Ok answer, _) =>
          a_total_count answer = Z.of_nat (length (a_results answer))
          /\ a_total_count answer <= limit <= 100
          /\ a_search_type answer = "fulltext" /\ a_query answer = query
      | (Raise e, _) =>
          exists cause w1, _fulltext_search env query limit w = (Raise cause, w1)
                           /\ e = HTTPException 500 (exn_str cause)
      end).
Proof.
  unfold limit_in_bounds. intros H. apply andb_prop in H as [H1 H2].
  apply Z.leb_le in H1, H2. split.
  - unfold vector_search, try_except, bind, ret, raise.
    destruct (_vector_search env query limit threshold w) as [[rs | e] w1] eqn:Hv.
    + apply vector_search_bound in Hv. simpl. repeat split; lia.
    + eauto.
  - unfold fulltext_search, try_except, bind, ret, raise.
    destruct (_fulltext_search env query limit w) as [[rs | e] w1] eqn:Hf.
    + apply fulltext_search_bound in Hf. simpl. repeat split; lia.
    + eauto.
Qed.

(** [find_similar_documents] raises nothing but HTTP exceptions; a session
    that takes no plain string makes it answer 500 at its first statement;
    with a session that takes one, a document without a stored embedding
    is answered with 404; and an answer holds at most [limit] results,
    counted by [total_count]. *)
Theorem find_similar_documents_outcomes (document_id : string) (limit : Z)
    (threshold : float) (w : World) :
  (forall e w', find_similar_documents env eval document_id limit threshold w = (Raise e, w') ->
                is_HTTPException e = true)
  /\ (session_takes_str env = false ->
      find_similar_documents env eval document_id limit threshold w
      = (Raise (HTTPException 500 (exn_str not_text)), w))
  /\ (session_takes_str env = true ->
      session_select_where "embedding_vector" "document_embeddings" "document_id"
        (Sql.Str document_id) w = (Ok [], w) ->
      find_similar_documents env eval document_id limit threshold w
      = (Raise (HTTPException 404 "Document not found or no embedding available"), w))
  /\ (forall answer w',
        find_similar_documents env eval document_id limit threshold w = (Ok answer, w') ->
        s_total_count answer = Z.of_nat (length (s_results answer))
        /\ s_total_count answer <= limit
        /\ s_reference_document_id answer = document_id).
Proof.
  split; [| split; [| split]].
  - intros e w'. unfold find_similar_documents. apply http_handler_exn.
  - intros H. unfold find_similar_documents, try_except, bind, raise. rewrite H. reflexivity.
  - intros H Hrows. unfold find_similar_documents, try_except, bind, raise.
    rewrite H, Hrows. reflexivity.
  - intros answer w'. unfold find_similar_documents, try_except, bind, raise, lift, ret.
    destruct (if session_takes_str env then _ else _) as [[[| v rows] | e0] w1].
    + discriminate.
    + destruct (eval_column eval v) as [vec | e0]; [| destruct (is_HTTPException e0); discriminate].
      unfold search_similar_documents.
      destruct (store_up w1); [| discriminate].
      destruct (Sql.limit limit _) as [docs | e0] eqn:L;
        [| destruct (is_HTTPException e0); discriminate].
      destruct (rmap vector_result docs) as [rs | e0] eqn:R;
        [| destruct (is_HTTPException e0); discriminate].
      intros [= <- <-]. simpl. apply sql_limit_length in L. apply rmap_length in R.
      repeat split; lia.
    + destruct (is_HTTPException e0); discriminate.
Qed.

End SearchErrors.

(* ================================================================== *)
(** * What an upload leaves behind                                      *)
(* ================================================================== *)

(** A successful [INSERT] has found the table, no row with the new id in
    it, and has appended the new row. *)
Lemma insert_ok (now : datetime) (name : string) (given : list (string * Sql.value))
    (db db' : Sql.database) :
  Sql.insert now name given db = Ok db' ->
  exists t,
    db !! name = Some t
    /\ (forall kv, In kv given -> Sql.has_column t (fst kv) = true)
    /\ Sql.has_id (Sql.field "id" (Sql.new_row now given t)) t = false
    /\ db' = <[name := {| Sql.t_columns := Sql.t_columns t;
                          Sql.t_rows := (Sql.t_rows t ++ [Sql.new_row now given t])%list |}]> db.
Proof.
  unfold Sql.insert. destruct (db !! name) as [t |]; [| discriminate].
  destruct (List.find (fun kv => negb (Sql.has_column t (fst kv))) given) as [bad |] eqn:Hbad;
    [discriminate |].
  destruct (negb (forallb _ _)); [discriminate |].
  destruct (Sql.has_id _ t) eqn:Hid; [discriminate |].
  destruct (negb (forallb _ _)); [discriminate |].
  intros [= <-]. exists t. repeat split; auto.
  intros kv Hin. pose proof (List.find_none _ _ Hbad kv Hin) as Hcol. simpl in Hcol.
  now destruct (Sql.has_column t (fst kv)).
Qed.

Lemma insert_raises_keeps name given w e w' :
  session_insert name given w = (Raise e, w') -> w' = w.
Proof.
  unfold session_insert. destruct (store_up w); [| now intros [= _ <-]].
  destruct (Sql.insert _ _ _ _); [discriminate | now intros [= _ <-]].
Qed.

Lemma has_id_false_filter (key : Sql.value) (t : Sql.table) :
  Sql.has_id key t = false ->
  List.filter (fun r => Sql.value_eqb (Sql.field "id" r) key) (Sql.t_rows t) = [].
Proof.
  unfold Sql.has_id. induction (Sql.t_rows t) as [| r rs IH]; simpl; [reflexivity |].
  intros H. apply orb_false_elim in H as [H1 H2]. rewrite H1. now apply IH.
Qed.

Section UploadFacts.

Context (env : Env).

(** The extraction never raises, and touches nothing but the standard
    output; the text it returns does not depend on the world. *)
Lemma extract_text_outcome (file_content : bytes) (file_type : FileType) (w : World) :
  exists content out,
    _extract_text env file_content file_type w = (Ok content, with_stdout out w)
    /\ forall w0, fst (_extract_text env file_content file_type w0) = Ok content.
Proof.
  unfold _extract_text.
  destruct (match file_type with
            | PDF => _extract_pdf_text env file_content
            | TXT => decode_utf8 env file_content
            | _ => _extract_image_text env file_content
            end) as [text | e].
  - exists (Some text), (stdout w). split; [destruct w; reflexivity | reflexivity].
  - eexists None, _. split; [reflexivity | reflexivity].
Qed.

(** The anatomy of an accepted upload. *)
Lemma process_document_ok (file_content : bytes) (filename : string) (w w' : World)
    (d : DocumentResponse) :
  process_document env file_content filename w = (Ok d, w') ->
  exists t file_type content,
    let content_hash :=
      if truthy content then Some (sha256_hexdigest env (default "" content)) else None in
    let file_path := saved_path env w filename in
    let document_id := uuid4 env (S (uuids_drawn w)) in
    let r := Sql.new_row (clock w)
               (document_row document_id filename file_path file_type
                  (Z.of_nat (length file_content)) content content_hash) t in
    _get_file_type filename = Ok file_type
    /\ (forall w0, fst (_extract_text env file_content file_type w0) = Ok content)
    /\ can_write env file_path = true
    /\ store_up w' = true
    /\ pending w !! "documents" = Some t
    /\ (forall kv, In kv (document_row document_id filename file_path file_type
                            (Z.of_nat (length file_content)) content content_hash) ->
                   Sql.has_column t (fst kv) = true)
    /\ Sql.has_id (Sql.Str document_id) t = false
    /\ pending w' = <["documents" := {| Sql.t_columns := Sql.t_columns t;
                                        Sql.t_rows := (Sql.t_rows t ++ [r])%list |}]> (pending w)
    /\ committed w' = pending w'
    /\ (forall kv, In kv (document_row document_id filename file_path file_type
                            (Z.of_nat (length file_content)) content content_hash) ->
                   Sql.field (fst kv) r = snd kv)
    /\ files w' = (files w ++ [(file_path, file_content)])%list
    /\ tasks w' = (tasks w ++ [{| task_document_id := document_id;
                                  task_content := content |}])%list
    /\ d = {| d_id := document_id; d_filename := filename; d_file_path := file_path;
              d_file_type := file_type; d_file_size := Z.of_nat (length file_content);
              d_content := content; d_content_hash := content_hash;
              d_status := PROCESSING; d_created_at := clock w; d_updated_at := clock w |}.
Proof.
  unfold process_document, try_except, bind, lift, raise, ret, now, create_task.
  destruct (_get_file_type filename) as [file_type | e] eqn:Ht; [| discriminate].
  unfold _save_file, bind, new_uuid. fold (saved_path env w filename).
  destruct (can_write env (saved_path env w filename)) eqn:Hw; [| discriminate].
  match goal with
  | |- context [_extract_text env file_content file_type ?w1] =>
      destruct (extract_text_outcome file_content file_type w1) as (content & out & He & Hany);
      rewrite He
  end.
  unfold _store_document, bind, session_insert, session_commit. simpl.
  destruct (store_up w) eqn:Hup; [| discriminate].
  fold (document_row (uuid4 env (S (uuids_drawn w))) filename (saved_path env w filename)
          file_type (Z.of_nat (length file_content)) content
          (if truthy content then Some (_generate_content_hash env (default "" content))
           else None)).
  destruct (Sql.insert _ _ _ _) as [db' |] eqn:Hins; [| discriminate].
  simpl. rewrite Hup. intros [= <- <-]. simpl.
  apply insert_ok in Hins as (t & Hlook & Hcols & Hid & ->).
  exists t, file_type, content. cbv zeta.
  assert (Hfield : forall kv,
            In kv (document_row (uuid4 env (S (uuids_drawn w))) filename
                     (saved_path env w filename) file_type (Z.of_nat (length file_content))
                     content
                     (if truthy content
                      then Some (sha256_hexdigest env (default "" content)) else None)) ->
            Sql.field (fst kv)
              (Sql.new_row (clock w)
                 (document_row (uuid4 env (S (uuids_drawn w))) filename
                    (saved_path env w filename) file_type (Z.of_nat (length file_content))
                    content
                    (if truthy content
                     then Some (sha256_hexdigest env (default "" content)) else None)) t)
            = snd kv).
  { intros kv Hin. apply new_row_field; [| now apply Hcols].
    unfold document_row in Hin |- *. simpl in Hin.
    repeat destruct Hin as [<- | Hin]; try reflexivity. contradiction. }
  split_all; try reflexivity; try assumption.
  pose proof (Hfield ("id", Sql.Str (uuid4 env (S (uuids_drawn w)))) ltac:(left; reflexivity))
    as Hkey.
  simpl in Hkey. rewrite <- Hkey. exact Hid.
Qed.

(** The document returned for an accepted upload describes it: the size
    is the number of bytes, the type is the one of the file name, the
    content is the extracted text, or [None] when the extraction raised,
    and the hash is the digest of the content, or [None] when the content
    is missing or empty.  The file is in the upload directory under the
    returned path, and the background task for the document is queued. *)
Theorem accepted_upload_described (file_content : bytes) (filename : string)
    (w w' : World) (d : DocumentResponse) :
  process_document env file_content filename w = (Ok d, w') ->
  d_filename d = filename
  /\ d_file_size d = Z.of_nat (length file_content)
  /\ _get_file_type filename = Ok (d_file_type d)
  /\ (forall w0, fst (_extract_text env file_content (d_file_type d) w0) = Ok (d_content d))
  /\ d_content_hash d
     = (if truthy (d_content d)
        then Some (sha256_hexdigest env (default "" (d_content d))) else None)
  /\ In (d_file_path d, file_content) (files w')
  /\ In {| task_document_id := d_id d; task_content := d_content d |} (tasks w').
Proof.
  intros H. apply process_document_ok in H
    as (t & file_type & content & Ht & He & _ & _ & _ & _ & _ & _ & _ & _ & Hf & Hq & ->).
  simpl. repeat split; auto.
  - rewrite Hf. apply List.in_or_app. right. left. reflexivity.
  - rewrite Hq. apply List.in_or_app. right. left. reflexivity.
Qed.

(** Reading back what was uploaded: right after an accepted upload,
    [get_document_content] returns, for the returned id, the content of
    the returned document. *)
Theorem uploaded_content_read_back (file_content : bytes) (filename : string)
    (w w' : World) (d : DocumentResponse) :
  process_document env file_content filename w = (Ok d, w') ->
  get_document_content (d_id d) w' = (Ok (d_content d), w').
Proof.
  intros H. apply process_document_ok in H
    as (t & file_type & content & _ & _ & _ & Hup & Hlook & Hcols & Hid & Hp & _ & Hfield
        & _ & _ & ->).
  cbv zeta in *. simpl.
  unfold get_document_content, bind, session_select, Sql.select, ret.
  rewrite Hup, Hp, lookup_insert_eq.
  assert (Hcol : Sql.has_column
                   {| Sql.t_columns := Sql.t_columns t;
                      Sql.t_rows := (Sql.t_rows t ++ [Sql.new_row (clock w)
                        (document_row (uuid4 env (S (uuids_drawn w))) filename
                           (saved_path env w filename) file_type
                           (Z.of_nat (length file_content)) content
                           (if truthy content
                            then Some (sha256_hexdigest env (default "" content))
                            else None)) t])%list |} "content" = true).
  { apply (Hcols ("content", opt_str content)). unfold document_row. simpl. tauto. }
  rewrite Hcol. cbn [Sql.t_rows].
  rewrite List.filter_app, (has_id_false_filter _ _ Hid). simpl.
  pose proof (Hfield ("id", Sql.Str (uuid4 env (S (uuids_drawn w))))
                ltac:(left; reflexivity)) as Hkey.
  pose proof (Hfield ("content", opt_str content)
                ltac:(unfold document_row; simpl; tauto)) as Hcontent.
  simpl in Hkey, Hcontent. rewrite Hkey, value_eqb_refl_str. simpl. rewrite Hcontent.
  destruct content; reflexivity.
Qed.

(** A rejected upload leaves no row and no background task, and the
    error it raises is an [Exception] whose text starts with ["Failed to
    process document: "]; but when the file type was supported and the
    file could be written, the file stays in the upload directory. *)
Theorem rejected_upload_keeps_file (file_content : bytes) (filename : string)
    (w w' : World) (e : exn) :
  process_document env file_content filename w = (Raise e, w') ->
  (exists cause, e = Exception ("Failed to process document: " ++ cause))
  /\ committed w' = committed w
  /\ pending w' = pending w
  /\ tasks w' = tasks w
  /\ (forall file_type,
        _get_file_type filename = Ok file_type ->
        can_write env (saved_path env w filename) = true ->
        files w' = (files w ++ [(saved_path env w filename, file_content)])%list).
Proof.
  unfold process_document, try_except, bind, lift, raise, ret, now, create_task.
  destruct (_get_file_type filename) as [file_type | e0] eqn:Ht.
  2:{ intros [= <- <-]. split_all; eauto. intros ? [=]. }
  unfold _save_file, bind, new_uuid. fold (saved_path env w filename).
  destruct (can_write env (saved_path env w filename)) eqn:Hw.
  2:{ intros [= <- <-]. split_all; eauto. intros ? _ [=]. }
  match goal with
  | |- context [_extract_text env file_content file_type ?w1] =>
      destruct (extract_text_outcome file_content file_type w1) as (content & out & He & Hany);
      rewrite He
  end.
  unfold _store_document, bind, session_insert, session_commit. simpl.
  destruct (store_up w) eqn:Hup.
  - destruct (Sql.insert _ _ _ _) as [db' | e0] eqn:Hins.
    + simpl. rewrite Hup. discriminate.
    + intros [= <- <-]. simpl. split_all; eauto.
  - intros [= <- <-]. simpl. split_all; eauto.
Qed.

(** Two uploads accepted one after the other get different ids, and the
    committed store holds a row for each of them afterwards: nothing is
    merged, whatever their content hashes. *)
Theorem accepted_uploads_distinct (content1 content2 : bytes) (filename1 filename2 : string)
    (w w1 w2 : World) (d1 d2 : DocumentResponse) :
  process_document env content1 filename1 w = (Ok d1, w1) ->
  process_document env content2 filename2 w1 = (Ok d2, w2) ->
  d_id d1 <> d_id d2
  /\ exists t r1 r2,
       committed w2 !! "documents" = Some t
       /\ In r1 (Sql.t_rows t) /\ In r2 (Sql.t_rows t)
       /\ Sql.field "id" r1 = Sql.Str (d_id d1)
       /\ Sql.field "id" r2 = Sql.Str (d_id d2)
       /\ Sql.field "content_hash" r1 = opt_str (d_content_hash d1)
       /\ Sql.field "content_hash" r2 = opt_str (d_content_hash d2).
Proof.
  intros H1 H2.
  apply process_document_ok in H1
    as (t1 & type1 & text1 & _ & _ & _ & _ & _ & _ & _ & Hp1 & _ & Hfield1 & _ & _ & ->).
  apply process_document_ok in H2
    as (t2 & type2 & text2 & _ & _ & _ & _ & Hlook2 & _ & Hid2 & Hp2 & Hc2 & Hfield2 & _ & _
        & ->).
  cbv zeta in *. simpl.
  rewrite Hp1, lookup_insert_eq in Hlook2. injection Hlook2 as <-.
  pose proof (Hfield1 ("id", Sql.Str (uuid4 env (S (uuids_drawn w)))) ltac:(left; reflexivity))
    as Hkey1.
  pose proof (Hfield2 ("id", Sql.Str (uuid4 env (S (uuids_drawn w1)))) ltac:(left; reflexivity))
    as Hkey2.
  pose proof (Hfield1 (_, _) ltac:(unfold document_row; simpl; do 6 right; left; reflexivity))
    as Hhash1.
  pose proof (Hfield2 (_, _) ltac:(unfold document_row; simpl; do 6 right; left; reflexivity))
    as Hhash2.
  simpl in Hkey1, Hkey2, Hhash1, Hhash2.
  split.
  - intros Heq. unfold Sql.has_id in Hid2. cbn [Sql.t_rows] in Hid2.
    rewrite List.existsb_app in Hid2. apply orb_false_elim in Hid2 as [_ Hid2].
    simpl in Hid2. rewrite Hkey1, Heq, value_eqb_refl_str in Hid2. discriminate.
  - rewrite Hc2, Hp2, lookup_insert_eq. eexists. eexists. eexists.
    split; [reflexivity |]. cbn [Sql.t_rows].
    split; [apply List.in_or_app; left; apply List.in_or_app; right; left; reflexivity |].
    split; [apply List.in_or_app; right; left; reflexivity |].
    split_all; assumption.
Qed.

End UploadFacts.

(** [_get_file_type] accepts a file name exactly when its lowered
    extension is a dot followed by the value of a file type, and returns
    that type. *)
Theorem file_type_of_extension (filename : string) (t : FileType) :
  _get_file_type filename = Ok t <-> extension filename = "." ++ FileType_value t.
Proof.
  unfold _get_file_type. fold (extension filename).
  generalize (extension filename) as ext. intros ext. cbv zeta. split.
  - destruct (String.eqb ext ".pdf") eqn:E1.
    { apply String.eqb_eq in E1. intros [= <-]. exact E1. }
    destruct (String.eqb ext ".txt") eqn:E2.
    { apply String.eqb_eq in E2. intros [= <-]. exact E2. }
    unfold str_in. simpl.
    destruct (String.eqb ext ".png") eqn:E3.
    { apply String.eqb_eq in E3. subst ext. intros [= <-]. reflexivity. }
    destruct (String.eqb ext ".jpg") eqn:E4.
    { apply String.eqb_eq in E4. subst ext. intros [= <-]. reflexivity. }
    destruct (String.eqb ext ".jpeg") eqn:E5.
    { apply String.eqb_eq in E5. subst ext. intros [= <-]. reflexivity. }
    discriminate.
  - intros ->. destruct t; reflexivity.
Qed.

(* ================================================================== *)
(** * The background stage on a store without a status column           *)
(* ================================================================== *)

Lemma set_status_lacking (document_id status : string) (w : World) :
  lacks_status (pending w) ->
  exists e, set_status document_id status w = (Raise e, w).
Proof.
  intros H. unfold set_status, session_update, Sql.update.
  destruct (store_up w); [| eauto].
  destruct (pending w !! "documents") as [t |] eqn:Ht; [| eauto].
  simpl. rewrite (H t Ht). simpl. eauto.
Qed.

Lemma get_document_status_lacking (document_id : string) (w : World) :
  lacks_status (pending w) ->
  exists e, fst (get_document_status document_id w) = Raise e.
Proof.
  intros H. unfold get_document_status, bind, session_select, Sql.select.
  destruct (store_up w); [| simpl; eauto].
  destruct (pending w !! "documents") as [t |] eqn:Ht; [| simpl; eauto].
  rewrite (H t Ht). simpl. eauto.
Qed.

Lemma mark_failed_lacking (document_id : string) (w : World) :
  lacks_status (pending w) ->
  try_except (mark_failed document_id) (fun _ => ret tt) w = (Ok tt, w).
Proof.
  intros H. unfold try_except, mark_failed, bind.
  destruct (set_status_lacking document_id "failed" w H) as [e ->]. reflexivity.
Qed.

Section StageFacts.

Context (env : Env).

(** Without the column the [try] block of the stage commits nothing:
    it returns at once on empty content, and raises otherwise. *)
Lemma embedding_stage_lacking (document_id : string) (content : option string) (w : World) :
  lacks_status (pending w) ->
  committed (snd (embedding_stage env document_id content w)) = committed w
  /\ lacks_status (pending (snd (embedding_stage env document_id content w))).
Proof.
  intros H. unfold embedding_stage.
  destruct (truthy content); simpl; [| auto].
  unfold bind, lift, new_uuid, session_insert.
  destruct (encode env (default "" content)) as [v | e0]; [| auto].
  cbn [store_up with_uuids_drawn pending clock].
  destruct (store_up w) eqn:Hup; [| auto].
  destruct (Sql.insert _ _ _ _) as [db' | e0] eqn:Hins; [| auto].
  apply insert_ok in Hins as (t & Hlook & _ & _ & ->).
  match goal with
  | |- context [set_status document_id "completed" ?w1] =>
      assert (Hl : lacks_status (pending w1));
      [| destruct (set_status_lacking document_id "completed" w1 Hl) as [e1 ->]]
  end.
  { intros t' Ht'. simpl in Ht'.
    rewrite lookup_insert_ne in Ht' by discriminate. now apply H. }
  simpl. split; [reflexivity | exact Hl].
Qed.

(** On a store whose [documents] table has no [status] column the
    background stage can record no outcome, whatever the document and its
    content: it ends normally, it commits nothing, and the status query
    for the document raises afterwards as it did before. *)
Theorem stage_without_status_column (document_id : string) (content : option string)
    (w : World) :
  lacks_status (pending w) ->
  let after := _generate_embeddings env document_id content w in
  fst after = Ok tt
  /\ committed (snd after) = committed w
  /\ lacks_status (pending (snd after))
  /\ exists e, fst (get_document_status document_id (snd after)) = Raise e.
Proof.
  intros H. cbv zeta.
  assert (Hmain : fst (_generate_embeddings env document_id content w) = Ok tt
                  /\ committed (snd (_generate_embeddings env document_id content w))
                     = committed w
                  /\ lacks_status (pending (snd (_generate_embeddings env document_id
                                                   content w)))).
  { pose proof (embedding_stage_lacking document_id content w H) as [Hc Hl].
    destruct (embedding_stage env document_id content w) as [[[] | e] w1] eqn:E;
      simpl in Hc, Hl.
    - assert (Hg : _generate_embeddings env document_id content w = (Ok tt, w1)).
      { unfold _generate_embeddings, try_except. now rewrite E. }
      rewrite Hg. simpl. split_all; auto.
    - assert (Hg : exists out, _generate_embeddings env document_id content w
                               = (Ok tt, with_stdout out w1)).
      { unfold _generate_embeddings. unfold try_except at 1. rewrite E.
        unfold bind, print.
        match goal with
        | |- context [try_except (mark_failed document_id) _ ?w2] =>
            rewrite (mark_failed_lacking document_id w2 Hl)
        end. eauto. }
      destruct Hg as [out ->]. simpl. split_all; auto. }
  destruct Hmain as (H1 & H2 & H3). split_all; auto.
  now apply get_document_status_lacking.
Qed.

End StageFacts.

(* ================================================================== *)
(** * Routing                                                           *)
(* ================================================================== *)

(** The routing decision.  For an analysis that names its document type
    as a string (or names none, which counts as the empty string) and a
    document with content: legal review is required exactly when the
    lowered type holds a legal keyword, financial review exactly when it
    holds a financial one, a calendar event is asked for exactly when the
    lowered content holds an urgent keyword, and the priority is
    [urgent] in that case, else [high] for a legal document, else
    [normal]; the decision has no other key.  For a document without
    content no decision is reached: the function raises. *)
Theorem determine_routing_decision :
  (forall (fields : list (string * pyval)) (doc_type content : string),
     Py.get (PDict fields) "document_type" (PStr "") = Ok (PStr doc_type) ->
     let legal := any_in legal_keywords (PyStr.lower doc_type) in
     let financial := any_in financial_keywords (PyStr.lower doc_type) in
     let urgent := any_in urgent_keywords (PyStr.lower content) in
     _determine_routing (PDict fields) (Some content)
     = Ok [ ("requires_legal_review", PBool legal);
            ("requires_financial_review", PBool financial);
            ("create_calendar_event", PBool urgent);
            ("priority", PStr (if urgent then "urgent" else if legal then "high"
                               else "normal")) ])
  /\ (forall analysis, exists e, _determine_routing analysis None = Raise e).
Proof.
  split.
  - intros fields doc_type content H. cbv zeta. unfold _determine_routing.
    rewrite H. unfold rbind, Py.lower, content_lower.
    destruct (any_in legal_keywords (PyStr.lower doc_type));
      destruct (any_in financial_keywords (PyStr.lower doc_type));
      destruct (any_in urgent_keywords (PyStr.lower content)); reflexivity.
  - intros analysis. unfold _determine_routing, rbind.
    destruct (Py.get analysis "document_type" (PStr "")) as [v | e]; [| eauto].
    destruct (Py.lower v) as [t | e]; [| eauto].
    simpl. eauto.
Qed.

(* ================================================================== *)
(** * External actions                                                  *)
(* ================================================================== *)

Lemma insert_reference (now : datetime) (name : string) (given : list (string * Sql.value))
    (db db' : Sql.database) (t : Sql.table) (c : Sql.column) :
  Sql.insert now name given db = Ok db' ->
  db !! name = Some t ->
  In c (Sql.t_columns t) ->
  Sql.reference_ok db c (Sql.field (Sql.c_name c) (Sql.new_row now given t)) = true.
Proof.
  unfold Sql.insert. intros H Ht Hc. rewrite Ht in H.
  destruct (List.find _ given); [discriminate |].
  destruct (negb (forallb _ _)); [discriminate |].
  destruct (Sql.has_id _ t); [discriminate |].
  destruct (forallb (fun c => Sql.reference_ok db c _) (Sql.t_columns t)) eqn:F;
    [| discriminate].
  rewrite List.forallb_forall in F. now apply F.
Qed.

Section ExternalActionFacts.

Context (env : Env) (svc : Services).

(** Logging an external action never raises, and it is all or nothing:
    either the row of the action is inserted and committed, with the
    status [sent] or [failed] that the response's [success] tells, or
    the world is as before but for one printed line.  In a store whose
    [external_actions] table is as [init_db] declares it, an action is
    logged only for a workflow that [workflow_executions] holds. *)
Theorem log_external_action_outcome (action_id workflow_id action_type : string)
    (action_data response_data : pyval) (w : World) :
  let after := _log_external_action svc action_id workflow_id action_type action_data
                 response_data w in
  fst after = Ok tt
  /\ ((exists line, snd after = with_stdout (stdout w ++ [line]) w)
      \/ (committed (snd after) = pending (snd after)
          /\ exists t t' r success,
               pending w !! "external_actions" = Some t
               /\ pending (snd after) !! "external_actions" = Some t'
               /\ Sql.t_rows t' = (Sql.t_rows t ++ [r])%list
               /\ Sql.field "id" r = Sql.Str action_id
               /\ Sql.field "workflow_execution_id" r = Sql.Str workflow_id
               /\ Py.get response_data "success" (PBool false) = Ok success
               /\ Sql.field "status" r
                  = Sql.Str (if Py.truth success then "sent" else "failed")
               /\ (Sql.t_columns t = external_actions_columns ->
                   exists parent, pending w !! "workflow_executions" = Some parent
                                  /\ Sql.has_id (Sql.Str workflow_id) parent = true))).
Proof.
  cbv zeta. unfold _log_external_action, try_except, bind, lift, print.
  destruct (Py.get response_data "success" (PBool false)) as [success | e] eqn:Hs;
    [| simpl; eauto].
  destruct (json_dumps svc action_data) as [action_json | e]; [| simpl; eauto].
  destruct (json_dumps svc response_data) as [response_json | e]; [| simpl; eauto].
  unfold session_insert, session_commit.
  destruct (store_up w) eqn:Hup; [| simpl; eauto].
  destruct (Sql.insert _ _ _ _) as [db' | e] eqn:Hins; [| simpl; eauto].
  simpl. rewrite Hup. simpl. split; [reflexivity |]. right. split; [reflexivity |].
  pose proof Hins as Hins'.
  apply insert_ok in Hins as (t & Hlook & Hcols & _ & ->).
  eexists t, _, _, success. split; [exact Hlook |].
  split; [apply lookup_insert_eq |]. split; [reflexivity |].
  split; [apply (new_row_field _ _ _ "id" ("id", Sql.Str action_id));
          [reflexivity | apply (Hcols ("id", Sql.Str action_id))]; simpl; tauto |].
  split; [apply (new_row_field _ _ _ "workflow_execution_id"
                   ("workflow_execution_id", Sql.Str workflow_id));
          [reflexivity | apply (Hcols ("workflow_execution_id", Sql.Str workflow_id))];
          simpl; tauto |].
  split; [reflexivity |].
  split; [apply (new_row_field _ _ _ "status"
                   ("status", Sql.Str (if Py.truth success then "sent" else "failed")));
          [reflexivity
          | apply (Hcols ("status", Sql.Str (if Py.truth success then "sent" else "failed")))];
          simpl; tauto |].
  intros Hdecl.
  pose proof (insert_reference _ _ _ _ _ t
                {| Sql.c_name := "workflow_execution_id"; Sql.c_type := Sql.Varchar 36;
                   Sql.c_not_null := true; Sql.c_default := Sql.NoDefault;
                   Sql.c_on_update_now := false;
                   Sql.c_references := Some "workflow_executions" |} Hins' Hlook) as Href.
  rewrite Hdecl in Href. specialize (Href ltac:(simpl; tauto)).
  cbn [Sql.c_name] in Href.
  rewrite (new_row_field _ _ _ "workflow_execution_id"
             ("workflow_execution_id", Sql.Str workflow_id)) in Href;
    [| reflexivity | apply (Hcols ("workflow_execution_id", Sql.Str workflow_id)); simpl; tauto].
  unfold Sql.reference_ok in Href. cbn [Sql.c_references snd] in Href.
  destruct (pending w !! "workflow_executions") as [parent |]; [eauto | discriminate].
Qed.

Lemma log_external_action_ok (action_id workflow_id action_type : string)
    (action_data response_data : pyval) (w : World) :
  exists w', _log_external_action svc action_id workflow_id action_type action_data
               response_data w = (Ok tt, w').
Proof.
  unfold _log_external_action, try_except, bind, lift, print.
  destruct (Py.get response_data "success" (PBool false)) as [success | e]; [| eauto].
  destruct (json_dumps svc action_data) as [action_json | e]; [| eauto].
  destruct (json_dumps svc response_data) as [response_json | e]; [| eauto].
  unfold session_insert, session_commit.
  destruct (store_up w) eqn:Hup; [| eauto].
  destruct (Sql.insert _ _ _ _) as [db' | e]; [| eauto].
  simpl. rewrite Hup. eauto.
Qed.

(** A response that [json.dumps] cannot serialise is not logged. *)
Lemma log_external_action_unserializable (action_id workflow_id action_type : string)
    (action_data response_data : pyval) (w : World) :
  Py.serializable response_data = false ->
  exists line, _log_external_action svc action_id workflow_id action_type action_data
                 response_data w = (Ok tt, with_stdout (stdout w ++ [line]) w).
Proof.
  intros H. unfold _log_external_action, try_except, bind, lift, print.
  destruct (Py.get response_data "success" (PBool false)) as [success | e]; [| eauto].
  destruct (json_dumps svc action_data) as [action_json | e]; [| eauto].
  unfold json_dumps. rewrite H. eauto.
Qed.

(** Sending a Slack notification never raises.  Without a Slack client
    the notification is only printed, and is reported as [sent] with the
    mark [mock], whatever becomes of its log row.  With a client, it is
    reported as [sent] when the post went through, and then no row is
    logged for it, since the response object of the client cannot be
    serialised; it is reported as [failed], with the text of the
    exception, when the post raised. *)
Theorem send_slack_notification_outcome (self : ExternalActionService)
    (message workflow_id : string) (channel : option string) (w : World) :
  let after := send_slack_notification env svc self message workflow_id channel w in
  let target_channel := or_else channel (or_else (SLACK_CHANNEL_ID svc) "#general") in
  let action_id := uuid4 env (uuids_drawn w) in
  match slack_client self with
  | None =>
      fst after = Ok (PDict [ ("action_id", PStr action_id);
                              ("type", PStr "slack_notification");
                              ("status", PStr "sent"); ("channel", PStr target_channel);
                              ("message", PStr message); ("mock", PBool true) ])
  | Some _ =>
      match chat_postMessage svc target_channel message workflow_id with
      | Ok _ =>
          fst after = Ok (PDict [ ("action_id", PStr action_id);
                                  ("type", PStr "slack_notification");
                                  ("status", PStr "sent"); ("channel", PStr target_channel);
                                  ("message", PStr message) ])
          /\ pending (snd after) = pending w
          /\ committed (snd after) = committed w
      | Raise e =>
          fst after = Ok (PDict [ ("action_id", PStr action_id);
                                  ("type", PStr "slack_notification");
                                  ("status", PStr "failed");
                                  ("error", PStr (exn_str e)) ])
      end
  end.
Proof.
  cbv zeta. unfold send_slack_notification, bind at 1, new_uuid.
  set (w1 := with_uuids_drawn (S (uuids_drawn w)) w).
  set (target := or_else channel (or_else (SLACK_CHANNEL_ID svc) "#general")).
  set (id := uuid4 env (uuids_drawn w)).
  unfold try_except. destruct (slack_client self) as [client |].
  - unfold bind at 1, lift.
    destruct (chat_postMessage svc target message workflow_id) as [[] | e].
    + cbv beta iota. unfold bind, ret.
      match goal with
      | |- context [_log_external_action svc ?aid workflow_id ?ty ?ad ?rd ?w2] =>
          destruct (log_external_action_unserializable aid workflow_id ty ad rd w2 eq_refl)
            as [line ->]
      end.
      simpl. auto.
    + cbv beta iota. unfold bind, ret.
      match goal with
      | |- context [_log_external_action svc ?aid workflow_id ?ty ?ad ?rd ?w2] =>
          destruct (log_external_action_ok aid workflow_id ty ad rd w2) as [w3 ->]
      end.
      reflexivity.
  - unfold bind, print, ret.
    match goal with
    | |- context [_log_external_action svc ?aid workflow_id ?ty ?ad ?rd ?w2] =>
        destruct (log_external_action_ok aid workflow_id ty ad rd w2) as [w3 ->]
    end.
    reflexivity.
Qed.

Lemma send_slack_notification_ok (self : ExternalActionService)
    (message workflow_id : string) (channel : option string) (w : World) :
  exists result w',
    send_slack_notification env svc self message workflow_id channel w = (Ok result, w').
Proof.
  unfold send_slack_notification, bind at 1, new_uuid. unfold try_except.
  destruct (slack_client self) as [client |].
  - unfold bind at 1, lift.
    destruct (chat_postMessage svc _ message workflow_id) as [[] | e];
      cbv beta iota; unfold bind, ret;
      match goal with
      | |- context [_log_external_action svc ?aid workflow_id ?ty ?ad ?rd ?w2] =>
          destruct (log_external_action_ok aid workflow_id ty ad rd w2) as [w3 ->]
      end; eauto.
  - unfold bind, print, ret.
    match goal with
    | |- context [_log_external_action svc ?aid workflow_id ?ty ?ad ?rd ?w2] =>
        destruct (log_external_action_ok aid workflow_id ty ad rd w2) as [w3 ->]
    end.
    eauto.
Qed.

Lemma send_slack_notification_failed (self : ExternalActionService)
    (message workflow_id : string) (channel : option string) (w : World) (client : string)
    (e : exn) :
  slack_client self = Some client ->
  chat_postMessage svc (or_else channel (or_else (SLACK_CHANNEL_ID svc) "#general")) message
    workflow_id = Raise e ->
  fst (send_slack_notification env svc self message workflow_id channel w)
  = Ok (PDict [ ("action_id", PStr (uuid4 env (uuids_drawn w)));
                ("type", PStr "slack_notification"); ("status", PStr "failed");
                ("error", PStr (exn_str e)) ]).
Proof.
  intros Hclient Hpost.
  unfold send_slack_notification, bind at 1, new_uuid. unfold try_except.
  rewrite Hclient. unfold bind at 1, lift. rewrite Hpost. cbv beta iota. unfold bind, ret.
  match goal with
  | |- context [_log_external_action svc ?aid workflow_id ?ty ?ad ?rd ?w2] =>
      destruct (log_external_action_ok aid workflow_id ty ad rd w2) as [w3 ->]
  end.
  reflexivity.
Qed.

Lemma initialize_clients_cases (w : World) :
  exists self w',
    _initialize_clients svc w = (Ok self, w')
    /\ calendar_service self = None
    /\ slack_client self
       = (if truthy (SLACK_BOT_TOKEN svc)
          then match slack_import svc with
               | Ok _ => SLACK_BOT_TOKEN svc
               | Raise _ => None
               end
          else None).
Proof.
  unfold _initialize_clients, bind, try_except, lift, ret, print.
  destruct (truthy (SLACK_BOT_TOKEN svc)); [destruct (slack_import svc) |];
    (destruct (truthy (GOOGLE_CALENDAR_CREDENTIALS svc)); [destruct (google_import svc) |]);
    eauto.
Qed.

(** The constructor of the service never sets a calendar service,
    whatever the credentials, so every calendar event is a mock: the
    event is printed, and reported as [created] with the mark [mock]; it
    starts at the given time, or one hour from now when none is given,
    and ends [duration_minutes] later. *)
Theorem calendar_events_are_mock (w0 : World) (title description workflow_id : string)
    (start_time : option datetime) (duration_minutes : Z) (w : World) :
  exists self w0',
    _initialize_clients svc w0 = (Ok self, w0')
    /\ calendar_service self = None
    /\ let start := match start_time with Some t => t | None => clock w + 3600 end in
       fst (create_calendar_event env svc self title description workflow_id start_time
              duration_minutes w)
       = Ok (PDict [ ("action_id", PStr (uuid4 env (uuids_drawn w)));
                     ("type", PStr "calendar_event"); ("status", PStr "created");
                     ("title", PStr title);
                     ("start_time", PStr (isoformat svc start));
                     ("end_time", PStr (isoformat svc (start + duration_minutes * 60)));
                     ("mock", PBool true) ]).
Proof.
  destruct (initialize_clients_cases w0) as (self & w0' & Hinit & Hcal & _).
  exists self, w0'. split; [exact Hinit |]. split; [exact Hcal |].
  cbv zeta. unfold create_calendar_event, bind at 1, new_uuid.
  unfold try_except. rewrite Hcal.
  destruct start_time as [t |]; unfold bind, ret, now, print;
    match goal with
    | |- context [_log_external_action svc ?id workflow_id ?ty ?ad ?rd ?w2] =>
        destruct (log_external_action_ok id workflow_id ty ad rd w2) as [w3 ->]
    end; reflexivity.
Qed.

Lemma create_calendar_event_mock (self : ExternalActionService)
    (title description workflow_id : string) (w : World) :
  calendar_service self = None ->
  exists result w',
    create_calendar_event env svc self title description workflow_id None 60 w
    = (Ok result, w')
    /\ Py.getitem result "status" = Ok (PStr "created")
    /\ Py.getitem result "mock" = Ok (PBool true).
Proof.
  intros Hcal. unfold create_calendar_event, bind at 1, new_uuid.
  unfold try_except. rewrite Hcal. unfold bind, ret, now, print.
  match goal with
  | |- context [_log_external_action svc ?id workflow_id ?ty ?ad ?rd ?w2] =>
      destruct (log_external_action_ok id workflow_id ty ad rd w2) as [w3 ->]
  end.
  eexists _, _. split; [reflexivity |]. split; reflexivity.
Qed.

End ExternalActionFacts.

(* ================================================================== *)
(** * The analyzer                                                      *)
(* ================================================================== *)

Lemma try_reports {A} (body : result A) (report : exn -> A) :
  exists a, Py.try body (fun e => Ok (report e)) = Ok a.
Proof. destruct body; simpl; eauto. Qed.

Section AnalyzerFacts.

Context (svc : Services).

(** The analyzer never raises: each of its four methods returns
    normally, whatever the chat completion does.  An input with nothing
    to read in is answered with the method's own error; a chat
    completion that raises, with the text of the exception under
    [error], behind the prefix of the method.  An answer that parses as
    JSON is returned as parsed, unchecked: what a method returns is a
    dictionary only when the answer is one. *)
Theorem analyzer_never_raises :
  (forall content analysis_type,
     exists answer,
       Analyzer.analyze_document_content svc content analysis_type = Ok answer)
  /\ (forall documents, exists answer, Analyzer.compare_documents svc documents = Ok answer)
  /\ (forall documents summary_type,
        exists answer, Analyzer.generate_summary svc documents summary_type = Ok answer)
  /\ (forall search_results,
        exists answer, Analyzer.extract_insights svc search_results = Ok answer)
  /\ (forall content analysis_type,
        truthy content = false ->
        Analyzer.analyze_document_content svc content analysis_type
        = Ok (error_dict "No content to analyze"))
  /\ (forall documents,
        (length documents < 2)%nat ->
        Analyzer.compare_documents svc documents
        = Ok (error_dict "Need at least 2 documents to compare"))
  /\ (forall summary_type,
        Analyzer.generate_summary svc [] summary_type
        = Ok (error_dict "No documents to summarize"))
  /\ Analyzer.extract_insights svc [] = Ok (error_dict "No search results to analyze")
  /\ (forall e,
        (forall request, chat svc request = Raise e) ->
        (forall content analysis_type,
           truthy content = true ->
           Analyzer.analyze_document_content svc content analysis_type
           = Ok (error_dict ("Analysis failed: " ++ exn_str e)))
        /\ (forall documents,
              (2 <= length documents)%nat ->
              Analyzer.compare_documents svc documents
              = Ok (error_dict ("Comparison failed: " ++ exn_str e)))
        /\ (forall documents summary_type,
              documents <> [] ->
              Analyzer.generate_summary svc documents summary_type
              = Ok (error_dict ("Summary generation failed: " ++ exn_str e)))
        /\ (forall search_results,
              search_results <> [] ->
              Analyzer.extract_insights svc search_results
              = Ok (error_dict ("Insight extraction failed: " ++ exn_str e))))
  /\ (forall text value,
        (forall request, chat svc request = Ok (Some text)) ->
        json_loads svc text = Some value ->
        (forall content analysis_type,
           truthy content = true ->
           Analyzer.analyze_document_content svc content analysis_type = Ok value)
        /\ (forall documents,
              (2 <= length documents)%nat ->
              Analyzer.compare_documents svc documents = Ok value)
        /\ (forall documents summary_type,
              documents <> [] ->
              Analyzer.generate_summary svc documents summary_type = Ok value)
        /\ (forall search_results,
              search_results <> [] ->
              Analyzer.extract_insights svc search_results = Ok value)).
Proof.
  split_all.
  - intros. apply try_reports.
  - intros. apply try_reports.
  - intros. apply try_reports.
  - intros. apply try_reports.
  - intros content analysis_type H. unfold Analyzer.analyze_document_content.
    now rewrite H.
  - intros documents H. unfold Analyzer.compare_documents.
    apply Nat.ltb_lt in H. now rewrite H.
  - reflexivity.
  - reflexivity.
  - intros e H0. split_all.
    + intros content analysis_type H. unfold Analyzer.analyze_document_content.
      rewrite H. cbv zeta. unfold Analyzer.parsed_answer. cbn [negb]. cbv iota.
      now rewrite H0.
    + intros documents H. unfold Analyzer.compare_documents.
      apply Nat.ltb_ge in H. rewrite H. cbv zeta. unfold Analyzer.parsed_answer.
      now rewrite H0.
    + intros [| d documents] summary_type H; [contradiction |].
      unfold Analyzer.generate_summary. cbv zeta. unfold Analyzer.parsed_answer.
      now rewrite H0.
    + intros [| r search_results] H; [contradiction |].
      unfold Analyzer.extract_insights. cbv zeta. unfold Analyzer.parsed_answer.
      now rewrite H0.
  - intros text value H0 Hjson. split_all.
    + intros content analysis_type H. unfold Analyzer.analyze_document_content.
      rewrite H. cbv zeta. unfold Analyzer.parsed_answer. cbn [negb]. cbv iota.
      rewrite H0. simpl. now rewrite Hjson.
    + intros documents H. unfold Analyzer.compare_documents.
      apply Nat.ltb_ge in H. rewrite H. cbv zeta. unfold Analyzer.parsed_answer.
      rewrite H0. simpl. now rewrite Hjson.
    + intros [| d documents] summary_type H; [contradiction |].
      unfold Analyzer.generate_summary. cbv zeta. unfold Analyzer.parsed_answer.
      rewrite H0. simpl. now rewrite Hjson.
    + intros [| r search_results] H; [contradiction |].
      unfold Analyzer.extract_insights. cbv zeta. unfold Analyzer.parsed_answer.
      rewrite H0. simpl. now rewrite Hjson.
Qed.

End AnalyzerFacts.

(* ================================================================== *)
(** * Documents rebuilt from their content                              *)
(* ================================================================== *)

Lemma get_document_content_cases (document_id : string) (w : World) :
  snd (get_document_content document_id w) = w
  /\ forall e, fst (get_document_content document_id w) = Raise e ->
               is_HTTPException e = false.
Proof.
  unfold get_document_content, bind, session_select, Sql.select, ret.
  destruct (store_up w); [| split; [reflexivity | now intros e [= <-]]].
  destruct (pending w !! "documents") as [t |]; [| split; [reflexivity | now intros e [= <-]]].
  destruct (Sql.has_column t "content"); [| split; [reflexivity | now intros e [= <-]]].
  destruct (map _ _) as [| [| v | n | d] rows]; split; try reflexivity; discriminate.
Qed.

(** The loop never returns a document: a document with content is built
    with [created_at=None], which the model rejects, so the loop raises
    at the first document that has content, and returns the empty list
    when none has.  The world is left as it was. *)
Lemma documents_with_content_cases (document_ids : list string) (w : World) :
  match documents_with_content document_ids w with
  | (Ok documents, w') => documents = [] /\ w' = w
  | (Raise e, w') => is_HTTPException e = false /\ w' = w
  end.
Proof.
  induction document_ids as [| doc_id rest IH]; [simpl; auto |].
  cbn [documents_with_content]. unfold bind, lift, ret.
  pose proof (get_document_content_cases doc_id w) as [Hw He].
  destruct (get_document_content doc_id w) as [[content | e] w1]; simpl in Hw, He; subst w1.
  - destruct (truthy content); [simpl; auto | exact IH].
  - auto.
Qed.

Lemma http_errors_raise {A} (body : M A) (w w' : World) (e : exn) :
  body w = (Raise e, w') ->
  http_errors body w
  = (Raise (if is_HTTPException e then e else HTTPException 500 (exn_str e)), w').
Proof.
  intros H. unfold http_errors, try_except, raise. rewrite H.
  now destruct (is_HTTPException e).
Qed.

Section RebuiltDocuments.

Context (env : Env) (svc : Services).

(** The routes [/compare] and [/summary] never answer: every request ends
    in an HTTP exception, with status 400 or 500, and leaves the world as
    it was.  Too few identifiers are answered with 400; otherwise the
    status is 500 when the store raises or one of the documents read has
    content, and 400 when none has. *)
Theorem compare_and_summary_routes_never_answer (document_ids : list string)
    (kind : string) (w : World) :
  (exists code detail,
     AnalysisRoutes.compare_documents svc document_ids kind w
     = (Raise (HTTPException code detail), w)
     /\ ((length document_ids < 2)%nat -> code = 400)
     /\ ((2 <= length document_ids)%nat ->
         match documents_with_content (slice_to 5 document_ids) w with
         | (Ok _, _) => code = 400
         | (Raise e, _) => code = 500 /\ detail = exn_str e
         end))
  /\ (exists code detail,
        AnalysisRoutes.generate_summary svc document_ids kind w
        = (Raise (HTTPException code detail), w)
        /\ (document_ids = [] -> code = 400)
        /\ (document_ids <> [] ->
            match documents_with_content (slice_to 10 document_ids) w with
            | (Ok _, _) => code = 400
            | (Raise e, _) => code = 500 /\ detail = exn_str e
            end)).
Proof.
  split.
  - unfold AnalysisRoutes.compare_documents.
    destruct (length document_ids <? 2)%nat eqn:Hn.
    + eexists 400, _. split; [reflexivity |]. split; [reflexivity |].
      apply Nat.ltb_lt in Hn. lia.
    + apply Nat.ltb_ge in Hn.
      pose proof (documents_with_content_cases (slice_to 5 document_ids) w) as Hc.
      destruct (documents_with_content (slice_to 5 document_ids) w) as [[documents | e] w1]
        eqn:Hd; destruct Hc as [Hc ->].
      * subst documents.
        eexists 400, _. split; [| split; [reflexivity | reflexivity]].
        unfold http_errors, try_except, bind, raise. rewrite Hd. reflexivity.
      * eexists 500, _. split; [| split; [lia | auto]].
        erewrite http_errors_raise; [| unfold bind; rewrite Hd; reflexivity].
        rewrite Hc. reflexivity.
  - unfold AnalysisRoutes.generate_summary.
    destruct document_ids as [| doc_id rest].
    + eexists 400, _. split; [reflexivity |]. split; [reflexivity | congruence].
    + pose proof (documents_with_content_cases (slice_to 10 (doc_id :: rest)) w) as Hc.
      destruct (documents_with_content (slice_to 10 (doc_id :: rest)) w)
        as [[documents | e] w1] eqn:Hd; destruct Hc as [Hc ->].
      * subst documents.
        eexists 400, _. split; [| split; [discriminate | reflexivity]].
        unfold http_errors, try_except, bind, raise. rewrite Hd. reflexivity.
      * eexists 500, _. split; [| split; [discriminate | auto]].
        erewrite http_errors_raise; [| unfold bind; rewrite Hd; reflexivity].
        rewrite Hc. reflexivity.
Qed.

End RebuiltDocuments.

(* ================================================================== *)
(** * Coroutines that may wait                                          *)
(* ================================================================== *)

Lemma wbind_free {A B} (m : M A) (k : A -> W B) (w : World) :
  wbind (wait_free m) k w
  = match m w with
    | (Ok a, w') => k a w'
    | (Raise e, w') => Some (Raise e, w')
    end.
Proof. unfold wbind, wait_free. now destruct (m w) as [[a | e] w']. Qed.

Lemma reraise_after_ok {A} (body : W A) (handler : exn -> M unit) (w w' : World) (a : A) :
  reraise_after body handler w = Some (Ok a, w') -> body w = Some (Ok a, w').
Proof.
  unfold reraise_after. destruct (body w) as [[[a0 | e] w1] |]; [easy | | discriminate].
  destruct (handler e w1) as [[[] | e'] w2]; discriminate.
Qed.

Lemma reraise_after_raise {A} (body : W A) (handler : exn -> M unit) (w w1 : World) (e : exn) :
  body w = Some (Raise e, w1) ->
  exists e' w', reraise_after body handler w = Some (Raise e', w').
Proof.
  intros H. unfold reraise_after. rewrite H.
  destruct (handler e w1) as [[[] | e'] w2]; eauto.
Qed.

(* ================================================================== *)
(** * The batch analyses                                                *)
(* ================================================================== *)

Lemma documents_with_content_none (document_ids : list string) (w w' : World)
    (documents : list DocumentSearchResult) :
  documents_with_content document_ids w = (Ok documents, w') ->
  forall doc_id, In doc_id document_ids ->
    exists content, fst (get_document_content doc_id w) = Ok content
                    /\ truthy content = false.
Proof.
  induction document_ids as [| d rest IH]; [intros _ ? [] |].
  cbn [documents_with_content]. unfold bind, lift, ret.
  pose proof (get_document_content_cases d w) as [Hw _].
  destruct (get_document_content d w) as [[content | e] w1] eqn:Hc; simpl in Hw; subst w1;
    [| discriminate].
  destruct (truthy content) eqn:Ht; [simpl; discriminate |].
  intros H doc_id [<- | Hin]; [rewrite Hc; eauto | now apply IH].
Qed.

Section BatchFacts.

Context (env : Env) (svc : Services) (external_actions : ExternalActionService).

Lemma log_workflow_start_ok (workflow_id workflow_name : string) (w w' : World) :
  Orchestrator._log_workflow_start workflow_id workflow_name w = (Ok tt, w') ->
  store_up w = true
  /\ store_up w' = true
  /\ exists t row,
       pending w !! "workflow_executions" = Some t
       /\ pending w' = <["workflow_executions" :=
                           {| Sql.t_columns := Sql.t_columns t;
                              Sql.t_rows := (Sql.t_rows t ++ [row])%list |}]> (pending w).
Proof.
  unfold Orchestrator._log_workflow_start, bind, session_insert, session_commit.
  destruct (store_up w) eqn:Hup; [| discriminate].
  destruct (Sql.insert _ _ _ _) as [db' | e] eqn:Hins; [| discriminate].
  simpl. rewrite Hup. intros [= <-]. simpl.
  apply insert_ok in Hins as (t & Hlook & _ & _ & ->). eauto 10.
Qed.

Lemma content_after_log_start (workflow_id workflow_name doc_id : string) (w w' : World) :
  Orchestrator._log_workflow_start workflow_id workflow_name w = (Ok tt, w') ->
  fst (get_document_content doc_id w') = fst (get_document_content doc_id w).
Proof.
  intros H. apply log_workflow_start_ok in H as (Hup & Hup' & t & row & _ & Hp).
  unfold get_document_content, bind, session_select, Sql.select.
  rewrite Hup, Hup', Hp, lookup_insert_ne by discriminate.
  destruct (pending w !! "documents") as [t0 |]; [| reflexivity].
  destruct (Sql.has_column t0 "content"); [| reflexivity].
  now destruct (map _ _) as [| [| v | n | d] rows].
Qed.

(** The batch workflow completes only when it has analysed nothing: a
    document with content makes it raise, so when it returns, none of the
    documents it was given has content, and the comparison and the
    summary it returns are the errors the analyzer answers to an empty
    list. *)
Theorem batch_workflow_analyses_nothing (document_ids : list string)
    (analysis_type : string) (w w' : World) (r : WorkflowResult) :
  Orchestrator.execute_batch_analysis_workflow env svc external_actions document_ids
    analysis_type w = Some (Ok r, w') ->
  (forall doc_id, In doc_id document_ids ->
     exists content,
       fst (get_document_content doc_id (with_uuids_drawn (S (uuids_drawn w)) w)) = Ok content
       /\ truthy content = false)
  /\ wr_workflow_id r = uuid4 env (uuids_drawn w)
  /\ wr_status r = "completed"
  /\ exists slack_result,
       wr_fields r
       = [ ("document_ids", PList (map PStr document_ids));
           ("comparison", error_dict "Need at least 2 documents to compare");
           ("summary", error_dict "No documents to summarize");
           ("external_actions", PList [slack_result]) ].
Proof.
  unfold Orchestrator.execute_batch_analysis_workflow. rewrite wbind_free.
  unfold new_uuid at 1. cbv beta iota.
  set (w0 := with_uuids_drawn (S (uuids_drawn w)) w).
  set (workflow_id := uuid4 env (uuids_drawn w)).
  intros H. apply reraise_after_ok in H.
  rewrite wbind_free in H.
  destruct (Orchestrator._log_workflow_start workflow_id "batch_analysis" w0)
    as [[[] | e] w1] eqn:Hstart; [| discriminate].
  rewrite wbind_free in H.
  pose proof (documents_with_content_cases document_ids w1) as Hc.
  destruct (documents_with_content document_ids w1) as [[documents | e] w2] eqn:Hd;
    [| discriminate].
  destruct Hc as [-> ->].
  split.
  { intros doc_id Hin.
    destruct (documents_with_content_none _ _ _ _ Hd doc_id Hin) as (content & Hc & Ht).
    exists content. split; [| exact Ht].
    now rewrite <- (content_after_log_start _ _ doc_id _ _ Hstart). }
  rewrite wbind_free in H. unfold lift at 1 in H. cbn in H.
  repeat (rewrite wbind_free in H; cbn in H).
  match type of H with
  | (let (_, _) := ?t in _) = _ => destruct t as [[slack_result | e] w3]; [| discriminate]
  end.
  match type of H with
  | (let (_, _) := ?t in _) = _ => destruct t as [[[] | e] w4]; [| discriminate]
  end.
  unfold wait_free, ret in H. injection H as <- <-. simpl. eauto.
Qed.

End BatchFacts.

(* ================================================================== *)
(** * The route /batch-analysis                                         *)
(* ================================================================== *)

Section BatchRoute.

Context (svc : Services).

Lemma batch_entry_cases (analysis_type doc_id : string) (w : World) :
  exists entry,
    AnalysisRoutes.batch_entry svc analysis_type doc_id w = (Ok entry, w)
    /\ Py.getitem entry "document_id" = Ok (PStr doc_id)
    /\ AnalysisRoutes.succeeded entry
       = match fst (get_document_content doc_id w) with
         | Ok content => truthy content
         | Raise _ => false
         end.
Proof.
  unfold AnalysisRoutes.batch_entry, try_except, bind, lift, ret.
  pose proof (get_document_content_cases doc_id w) as [Hw _].
  destruct (get_document_content doc_id w) as [[content | e] w1]; simpl in Hw; subst w1.
  - destruct (truthy content) eqn:Ht; simpl.
    + unfold Analyzer.analyze_document_content.
      match goal with
      | |- context [Py.try ?body (fun e => Ok (@?report e))] =>
          destruct (try_reports body report) as [analysis ->]
      end.
      eexists. split; [reflexivity |]. now split.
    + eexists. split; [reflexivity |]. now split.
  - eexists. split; [reflexivity |]. now split.
Qed.

Lemma batch_entries_cases (analysis_type : string) (doc_ids : list string) (w : World) :
  exists entries,
    AnalysisRoutes.batch_entries svc analysis_type doc_ids w = (Ok entries, w)
    /\ map (fun entry => Py.getitem entry "document_id") entries
       = map (fun doc_id => Ok (PStr doc_id)) doc_ids
    /\ length (List.filter AnalysisRoutes.succeeded entries)
       = length (List.filter (fun doc_id =>
                                match fst (get_document_content doc_id w) with
                                | Ok content => truthy content
                                | Raise _ => false
                                end) doc_ids).
Proof.
  induction doc_ids as [| doc_id rest (entries & IH & Hids & Hn)].
  - exists []. now split.
  - destruct (batch_entry_cases analysis_type doc_id w) as (entry & He & Hid & Hs).
    exists (entry :: entries). cbn [AnalysisRoutes.batch_entries]. unfold bind, ret.
    rewrite He, IH. split; [reflexivity |]. simpl. rewrite Hid, Hids, Hs.
    split; [reflexivity |].
    destruct (match fst (get_document_content doc_id w) with
              | Ok content => truthy content
              | Raise _ => false
              end); simpl; now rewrite Hn.
Qed.

(** The route [/batch-analysis] answers every request of at most ten
    identifiers, with one entry for each identifier and in their order,
    and leaves the world as it was; more than ten are answered with
    status 400.  An entry counts as a successful analysis as soon as its
    document has content, whatever the analyzer answered: the number of
    successful analyses is the number of identifiers whose document has
    content. *)
Theorem batch_analysis_counts_content (document_ids analysis_type : string) (w : World) :
  let doc_ids := map PyStr.strip (PyStr.split ","%char document_ids) in
  let with_content :=
    List.filter (fun doc_id => match fst (get_document_content doc_id w) with
                               | Ok content => truthy content
                               | Raise _ => false
                               end) doc_ids in
  if (10 <? length doc_ids)%nat
  then AnalysisRoutes.batch_analyze_documents svc document_ids analysis_type w
       = (Raise (HTTPException 400 "Maximum 10 documents allowed for batch analysis"), w)
  else exists results,
         AnalysisRoutes.batch_analyze_documents svc document_ids analysis_type w
         = (Ok (PDict [ ("analysis_type", PStr analysis_type);
                        ("total_documents", PInt (Z.of_nat (length doc_ids)));
                        ("successful_analyses", PInt (Z.of_nat (length with_content)));
                        ("results", PList results) ]), w)
         /\ map (fun entry => Py.getitem entry "document_id") results
            = map (fun doc_id => Ok (PStr doc_id)) doc_ids.
Proof.
  cbv zeta. unfold AnalysisRoutes.batch_analyze_documents, http_errors, try_except.
  cbv zeta.
  destruct (10 <? length (map PyStr.strip (PyStr.split ","%char document_ids)))%nat;
    [reflexivity |].
  destruct (batch_entries_cases analysis_type
              (map PyStr.strip (PyStr.split ","%char document_ids)) w)
    as (entries & He & Hids & Hn).
  exists entries. unfold bind, ret. rewrite He, Hn. now split.
Qed.

End BatchRoute.

(* ================================================================== *)
(** * The route /document                                               *)
(* ================================================================== *)

(** The four parts of the statement about a route, once its outcome is
    known. *)
Ltac route_cases :=
  split_all;
  [ reflexivity
  | let H := fresh in
    intros ? H; first [discriminate H | injection H as <-; first [reflexivity | assumption]]
  | let H := fresh in
    intros ? H ?; first [discriminate H | injection H as <-; first [reflexivity | congruence]]
  | try discriminate ].

Section DocumentRoute.

Context (svc : Services).

(** The route [/document] leaves the world as it was and raises nothing
    but HTTP exceptions.  A document that is missing or has no content is
    answered with 404.  An answer is never a failed analysis: it echoes
    the request and holds what the analyzer returned for the content of
    the document, which has no [error] key. *)
Theorem analyze_document_outcomes (document_id analysis_type : string) (w : World) :
  let after := AnalysisRoutes.analyze_document svc document_id analysis_type w in
  snd after = w
  /\ (forall e, fst after = Raise e -> is_HTTPException e = true)
  /\ (forall content,
        fst (get_document_content document_id w) = Ok content ->
        truthy content = false ->
        fst after = Raise (HTTPException 404 "Document not found or no content available"))
  /\ (forall answer,
        fst after = Ok answer ->
        exists content analysis,
          fst (get_document_content document_id w) = Ok content
          /\ truthy content = true
          /\ Analyzer.analyze_document_content svc content analysis_type = Ok analysis
          /\ Py.has "error" analysis = Ok false
          /\ answer = PDict [ ("document_id", PStr document_id);
                              ("analysis_type", PStr analysis_type);
                              ("analysis", analysis) ]).
Proof.
  cbv zeta. unfold AnalysisRoutes.analyze_document, http_errors, try_except, bind, raise.
  pose proof (get_document_content_cases document_id w) as [Hw He].
  destruct (get_document_content document_id w) as [[content | e] w1]; simpl in Hw, He;
    subst w1.
  - destruct (truthy content) eqn:Ht; simpl.
    + unfold lift, raise_on_error, bind, lift, raise, ret.
      destruct (Analyzer.analyze_document_content svc content analysis_type)
        as [analysis | e] eqn:Ha.
      * destruct (Py.has "error" analysis) as [[|] | e] eqn:Hh.
        -- destruct (Py.getitem analysis "error") as [message | e]; simpl;
             [| destruct (is_HTTPException e) eqn:Hx]; route_cases.
        -- simpl. route_cases.
           intros answer [= <-]. exists content, analysis. split_all; auto.
        -- simpl. destruct (is_HTTPException e) eqn:Hx; route_cases.
      * simpl. destruct (is_HTTPException e) eqn:Hx; route_cases.
    + route_cases.
  - simpl. rewrite (He e eq_refl). simpl. route_cases.
Qed.

End DocumentRoute.

(* ================================================================== *)
(** * Workflows on a store without a status column                      *)
(* ================================================================== *)

Lemma insert_lacks_status (name : string) (t : Sql.table) (rows : list (gmap string Sql.value))
    (db : Sql.database) :
  db !! name = Some t ->
  lacks_status db ->
  lacks_status (<[name := {| Sql.t_columns := Sql.t_columns t; Sql.t_rows := rows |}]> db).
Proof.
  intros Ht H t' Ht'. destruct (String.eqb_spec name "documents") as [-> | Hne].
  - rewrite lookup_insert_eq in Ht'. injection Ht' as <-. exact (H t Ht).
  - rewrite lookup_insert_ne in Ht' by exact Hne. now apply H.
Qed.

Section StatusNeeded.

Context (env : Env) (svc : Services) (external_actions : ExternalActionService).

Lemma log_workflow_start_lacking (workflow_id workflow_name : string) (w w' : World) :
  Orchestrator._log_workflow_start workflow_id workflow_name w = (Ok tt, w') ->
  lacks_status (pending w) -> lacks_status (pending w').
Proof.
  intros H Hl. apply (log_workflow_start_ok) in H as (_ & _ & t & row & Ht & ->).
  now apply insert_lacks_status.
Qed.

Lemma process_document_lacking (file_content : bytes) (filename : string) (w w' : World)
    (d : DocumentResponse) :
  process_document env file_content filename w = (Ok d, w') ->
  lacks_status (pending w) -> lacks_status (pending w').
Proof.
  intros H Hl. apply process_document_ok in H
    as (t & file_type & content & _ & _ & _ & _ & Ht & _ & _ & Hp & _).
  cbv zeta in Hp. rewrite Hp. now apply insert_lacks_status.
Qed.

Lemma wait_lacking (fuel : nat) (document_id : string) (w : World) :
  lacks_status (pending w) ->
  match Orchestrator.wait env fuel document_id w with
  | Some (Ok _, _) => False
  | Some (Raise _, _) => (0 < fuel)%nat
  | None => fuel = 0%nat
  end.
Proof.
  intros H. unfold Orchestrator.wait, _wait_for_processing.
  destruct fuel as [| fuel]; [reflexivity |]. cbn [wait_loop].
  rewrite Z.sub_diag. change (timedelta_seconds 0 <? 60) with true. cbv iota.
  destruct (get_document_status_lacking document_id w H) as [e He].
  destruct (get_document_status document_id w) as [[status | e0] w1]; [discriminate |].
  lia.
Qed.

(** The part the two uploading workflows share: the start is logged,
    the document is processed, and its processing is awaited. *)
Lemma upload_steps_lacking {A} (fuel : nat) (workflow_id workflow_name : string)
    (file_content : bytes) (filename : string) (k : DocumentResponse -> W A) (w : World) :
  lacks_status (pending w) ->
  match (wbind (wait_free (Orchestrator._log_workflow_start workflow_id workflow_name))
           (fun _ => wbind (wait_free (process_document env file_content filename))
                       (fun document => wbind (Orchestrator.wait env fuel (d_id document))
                                          (fun _ => k document)))) w with
  | Some (Ok _, _) => False
  | Some (Raise _, _) => True
  | None => fuel = 0%nat
  end.
Proof.
  intros H. rewrite wbind_free.
  destruct (Orchestrator._log_workflow_start workflow_id workflow_name w)
    as [[[] | e] w1] eqn:Hstart; [| exact I].
  apply log_workflow_start_lacking in Hstart; [| exact H].
  rewrite wbind_free.
  destruct (process_document env file_content filename w1) as [[document | e] w2] eqn:Hdoc;
    [| exact I].
  apply process_document_lacking in Hdoc; [| exact Hstart].
  unfold wbind at 1.
  pose proof (wait_lacking fuel (d_id document) w2 Hdoc) as Hwait.
  destruct (Orchestrator.wait env fuel (d_id document) w2) as [[[status | e] w3] |];
    [contradiction | exact I | exact Hwait].
Qed.

Lemma reraise_after_lacking {A} (body : W A) (handler : exn -> M unit) (fuel : nat)
    (w : World) :
  match body w with
  | Some (Ok _, _) => False
  | Some (Raise _, _) => True
  | None => fuel = 0%nat
  end ->
  (forall r w', reraise_after body handler w <> Some (Ok r, w'))
  /\ ((0 < fuel)%nat -> exists e w', reraise_after body handler w = Some (Raise e, w')).
Proof.
  intros H. unfold reraise_after.
  destruct (body w) as [[[a | e] w1] |]; [contradiction | |].
  - destruct (handler e w1) as [[[] | e'] w2]; split; try discriminate; eauto.
  - split; [discriminate | lia].
Qed.

(** On a store whose [documents] table has no [status] column, as
    [init_db] creates it, the document-processing workflow and the
    routing workflow never complete, whatever the file: when the upload
    is accepted, the first status query of the wait raises.  Either
    workflow raises as soon as it is given the time for that one
    query. *)
Theorem upload_workflows_need_status_column (fuel : nat) (file_content : bytes)
    (filename : string) (workflow_config : option WorkflowConfig) (w : World) :
  lacks_status (pending w) ->
  (forall r w',
     Orchestrator.execute_document_processing_workflow env svc external_actions fuel
       file_content filename workflow_config w <> Some (Ok r, w'))
  /\ (forall r w',
        Orchestrator.execute_intelligent_document_routing_workflow env svc external_actions
          fuel file_content filename w <> Some (Ok r, w'))
  /\ ((0 < fuel)%nat ->
      (exists e w',
         Orchestrator.execute_document_processing_workflow env svc external_actions fuel
           file_content filename workflow_config w = Some (Raise e, w'))
      /\ (exists e w',
            Orchestrator.execute_intelligent_document_routing_workflow env svc
              external_actions fuel file_content filename w = Some (Raise e, w'))).
Proof.
  intros H.
  assert (H0 : lacks_status (pending (with_uuids_drawn (S (uuids_drawn w)) w))) by exact H.
  assert (Hp : (forall r w',
                  Orchestrator.execute_document_processing_workflow env svc external_actions
                    fuel file_content filename workflow_config w <> Some (Ok r, w'))
               /\ ((0 < fuel)%nat ->
                   exists e w',
                     Orchestrator.execute_document_processing_workflow env svc
                       external_actions fuel file_content filename workflow_config w
                     = Some (Raise e, w'))).
  { unfold Orchestrator.execute_document_processing_workflow. rewrite wbind_free.
    unfold new_uuid at 1. cbv beta iota.
    apply reraise_after_lacking. now apply upload_steps_lacking. }
  assert (Hr : (forall r w',
                  Orchestrator.execute_intelligent_document_routing_workflow env svc
                    external_actions fuel file_content filename w <> Some (Ok r, w'))
               /\ ((0 < fuel)%nat ->
                   exists e w',
                     Orchestrator.execute_intelligent_document_routing_workflow env svc
                       external_actions fuel file_content filename w
                     = Some (Raise e, w'))).
  { unfold Orchestrator.execute_intelligent_document_routing_workflow. rewrite wbind_free.
    unfold new_uuid at 1. cbv beta iota.
    apply reraise_after_lacking. now apply upload_steps_lacking. }
  destruct Hp as [Hp1 Hp2], Hr as [Hr1 Hr2]. split_all; auto.
Qed.

End StatusNeeded.

(* ================================================================== *)
(** * Actions that always report                                        *)
(* ================================================================== *)

Section ReportedActions.

Context (env : Env) (svc : Services).

(** An e-mail is never sent: it is printed, and reported as [sent] with
    the mark [mock], whatever becomes of its log row.  A webhook is
    reported as [triggered], with the status code, when the request went
    through, and as [failed], with the text of the exception, when it
    raised.  Neither action raises. *)
Theorem email_and_webhook_outcomes (w : World) :
  (forall to_email subject body workflow_id,
     fst (send_email_notification env svc to_email subject body workflow_id w)
     = Ok (PDict [ ("action_id", PStr (uuid4 env (uuids_drawn w))); ("type", PStr "email");
                   ("status", PStr "sent"); ("to_email", PStr to_email);
                   ("subject", PStr subject); ("mock", PBool true) ]))
  /\ (forall webhook_url payload workflow_id,
        fst (trigger_webhook env svc webhook_url payload workflow_id w)
        = Ok (match http_post svc webhook_url payload with
              | Ok status_code =>
                  PDict [ ("action_id", PStr (uuid4 env (uuids_drawn w)));
                          ("type", PStr "webhook"); ("status", PStr "triggered");
                          ("webhook_url", PStr webhook_url);
                          ("status_code", PInt status_code) ]
              | Raise e =>
                  PDict [ ("action_id", PStr (uuid4 env (uuids_drawn w)));
                          ("type", PStr "webhook"); ("status", PStr "failed");
                          ("error", PStr (exn_str e)) ]
              end)).
Proof.
  split.
  - intros to_email subject body workflow_id.
    unfold send_email_notification, bind at 1, new_uuid. unfold try_except, bind, print, ret.
    match goal with
    | |- context [_log_external_action svc ?id workflow_id ?ty ?ad ?rd ?w2] =>
        destruct (log_external_action_ok svc id workflow_id ty ad rd w2) as [w3 ->]
    end.
    reflexivity.
  - intros webhook_url payload workflow_id.
    unfold trigger_webhook, bind at 1, new_uuid. unfold try_except, bind, lift, ret.
    destruct (http_post svc webhook_url payload) as [status_code | e];
      match goal with
      | |- context [_log_external_action svc ?id workflow_id ?ty ?ad ?rd ?w2] =>
          destruct (log_external_action_ok svc id workflow_id ty ad rd w2) as [w3 ->]
      end; reflexivity.
Qed.

(** The routes [/send-notification] and [/create-calendar-event] always
    answer with their message of success.  The notification route does so
    even when the notification failed: with a Slack client whose post
    raises, the message of success comes with a result whose status is
    [failed].  The calendar route answers with a mock event. *)
Theorem custom_action_routes_always_answer (w : World) :
  (forall message channel workflow_id,
     exists result w',
       WorkflowRoutes.send_custom_notification env svc message channel workflow_id w
       = (Ok ("Notification sent successfully", result), w')
       /\ forall e,
            truthy (SLACK_BOT_TOKEN svc) = true ->
            slack_import svc = Ok tt ->
            chat_postMessage svc (or_else channel (or_else (SLACK_CHANNEL_ID svc) "#general"))
              message workflow_id = Raise e ->
            Py.getitem result "status" = Ok (PStr "failed")
            /\ Py.getitem result "error" = Ok (PStr (exn_str e)))
  /\ (forall title description workflow_id,
        exists result w',
          WorkflowRoutes.create_custom_calendar_event env svc title description workflow_id w
          = (Ok ("Calendar event created successfully", result), w')
          /\ Py.getitem result "status" = Ok (PStr "created")
          /\ Py.getitem result "mock" = Ok (PBool true)).
Proof.
  split.
  - intros message channel workflow_id.
    destruct (initialize_clients_cases svc w) as (self & w0 & Hinit & _ & Hclient).
    destruct (send_slack_notification_ok env svc self message workflow_id channel w0)
      as (result & w1 & Hs).
    exists result, w1. split.
    + unfold WorkflowRoutes.send_custom_notification, try_except, bind, ret.
      now rewrite Hinit, Hs.
    + intros e Htoken Himport Hpost. rewrite Htoken, Himport in Hclient.
      destruct (SLACK_BOT_TOKEN svc) as [token |]; [| discriminate].
      pose proof (send_slack_notification_failed env svc self message workflow_id channel w0
                    token e Hclient Hpost) as Hfailed.
      rewrite Hs in Hfailed. simpl in Hfailed. injection Hfailed as ->.
      split; reflexivity.
  - intros title description workflow_id.
    destruct (initialize_clients_cases svc w) as (self & w0 & Hinit & Hcal & _).
    destruct (create_calendar_event_mock env svc self title description workflow_id w0 Hcal)
      as (result & w1 & Hc & Hstatus & Hmock).
    exists result, w1. split; [| split; assumption].
    unfold WorkflowRoutes.create_custom_calendar_event, try_except, bind, ret.
    now rewrite Hinit, Hc.
Qed.

End ReportedActions.

(* ================================================================== *)
(** * The statements at work                                            *)
(* ================================================================== *)

(** The routes at limit 2, within the declared bounds. *)
Lemma vector_and_fulltext_routes_witness :
  limit_in_bounds 2 = true
  /\ match vector_search demo_env "q" 2 1 demo_world with
     | (Ok answer, _) =>
         a_total_count answer = Z.of_nat (length (a_results answer))
         /\ a_total_count answer <= 2 <= 100
         /\ a_search_type answer = "vector" /\ a_query answer = "q"
     | (Raise e, _) =>
         exists cause w1, _vector_search demo_env "q" 2 1 demo_world = (Raise cause, w1)
                          /\ e = HTTPException 500 (exn_str cause)
     end.
Proof.
  split; [reflexivity |].
  exact (proj1 (vector_and_fulltext_routes demo_env "q" 2 1 demo_world eq_refl)).
Defined.

(** The upload of [a.txt] on a fresh store. *)
Lemma accepted_upload_described_witness :
  exists d w',
    process_document demo_env (list_byte_of_string "hello") "a.txt" demo_world = (Ok d, w')
    /\ d_filename d = "a.txt" /\ d_file_size d = 5.
Proof.
  assert (H : exists d w', process_document demo_env (list_byte_of_string "hello") "a.txt"
                             demo_world = (Ok d, w')).
  { eexists _, _. vm_compute. reflexivity. }
  destruct H as (d & w' & H).
  destruct (accepted_upload_described demo_env _ _ _ _ _ H) as (Hname & Hsize & _).
  exists d, w'. split_all; assumption.
Defined.

Lemma uploaded_content_read_back_witness :
  exists d w',
    process_document demo_env (list_byte_of_string "hello") "a.txt" demo_world = (Ok d, w')
    /\ get_document_content (d_id d) w' = (Ok (d_content d), w').
Proof.
  assert (H : exists d w', process_document demo_env (list_byte_of_string "hello") "a.txt"
                             demo_world = (Ok d, w')).
  { eexists _, _. vm_compute. reflexivity. }
  destruct H as (d & w' & H).
  exists d, w'. split; [exact H |].
  exact (uploaded_content_read_back demo_env _ _ _ _ _ H).
Defined.

(** The same upload when the store is down: the file stays. *)
Lemma rejected_upload_keeps_file_witness :
  exists e w',
    process_document demo_env (list_byte_of_string "hello") "a.txt"
      (with_store_up false demo_world) = (Raise e, w')
    /\ files w' = [("uploads/uuid-0_a.txt", list_byte_of_string "hello")].
Proof.
  assert (H : exists e w', process_document demo_env (list_byte_of_string "hello") "a.txt"
                             (with_store_up false demo_world) = (Raise e, w')).
  { eexists _, _. vm_compute. reflexivity. }
  destruct H as (e & w' & H).
  destruct (rejected_upload_keeps_file demo_env _ _ _ _ _ H) as (_ & _ & _ & _ & Hfile).
  exists e, w'. split; [exact H |].
  exact (Hfile TXT eq_refl eq_refl).
Defined.

(** Two uploads of the same bytes. *)
Lemma accepted_uploads_distinct_witness :
  exists d1 w1 d2 w2,
    process_document demo_env (list_byte_of_string "hello") "a.txt" demo_world = (Ok d1, w1)
    /\ process_document demo_env (list_byte_of_string "hello") "b.txt" w1 = (Ok d2, w2)
    /\ d_id d1 <> d_id d2.
Proof.
  assert (H : exists d1 w1 d2 w2,
            process_document demo_env (list_byte_of_string "hello") "a.txt" demo_world
            = (Ok d1, w1)
            /\ process_document demo_env (list_byte_of_string "hello") "b.txt" w1
               = (Ok d2, w2)).
  { eexists _, _, _, _. split; vm_compute; reflexivity. }
  destruct H as (d1 & w1 & d2 & w2 & H1 & H2).
  exists d1, w1, d2, w2. split; [exact H1 |]. split; [exact H2 |].
  exact (proj1 (accepted_uploads_distinct demo_env _ _ _ _ _ _ _ _ _ H1 H2)).
Defined.

Lemma demo_world_lacks_status : lacks_status (pending demo_world).
Proof. intros t Ht. vm_compute in Ht. injection Ht as <-. reflexivity. Defined.

Lemma workflow_world_lacks_status : lacks_status (pending workflow_world).
Proof. intros t Ht. vm_compute in Ht. injection Ht as <-. reflexivity. Defined.

(** The stage of [uuid-1] on a fresh store. *)
Lemma stage_without_status_column_witness :
  lacks_status (pending demo_world)
  /\ fst (_generate_embeddings demo_env "uuid-1" (Some "hello") demo_world) = Ok tt
  /\ committed (snd (_generate_embeddings demo_env "uuid-1" (Some "hello") demo_world))
     = committed demo_world.
Proof.
  split; [exact demo_world_lacks_status |].
  destruct (stage_without_status_column demo_env "uuid-1" (Some "hello") demo_world
              demo_world_lacks_status) as (H1 & H2 & _).
  split; assumption.
Defined.

(** The batch workflow on two unknown documents. *)
Lemma batch_workflow_analyses_nothing_witness :
  exists r w',
    Orchestrator.execute_batch_analysis_workflow demo_env demo_services no_clients
      ["d1"; "d2"] "general" workflow_world = Some (Ok r, w')
    /\ wr_status r = "completed".
Proof.
  assert (H : exists r w',
            Orchestrator.execute_batch_analysis_workflow demo_env demo_services no_clients
              ["d1"; "d2"] "general" workflow_world = Some (Ok r, w')).
  { eexists _, _. vm_compute. reflexivity. }
  destruct H as (r & w' & H).
  exists r, w'. split; [exact H |].
  exact (proj1 (proj2 (proj2 (batch_workflow_analyses_nothing demo_env demo_services
                                no_clients _ _ _ _ _ H)))).
Defined.

(** The document-processing workflow on a store that [init_db] created. *)
Lemma upload_workflows_need_status_column_witness :
  lacks_status (pending workflow_world)
  /\ exists e w',
       Orchestrator.execute_document_processing_workflow demo_env demo_services no_clients 1
         (list_byte_of_string "hello") "a.txt" None workflow_world = Some (Raise e, w').
Proof.
  split; [exact workflow_world_lacks_status |].
  exact (proj1 (proj2 (proj2 (upload_workflows_need_status_column demo_env demo_services
                                no_clients 1 (list_byte_of_string "hello") "a.txt" None
                                workflow_world workflow_world_lacks_status))
                  (le_n 1))).
Defined.
